(** * gputemps: GDDR6 core / junction / VRAM temperature monitor

    A shallow embedding of [gputemps.c] and the properties of its register
    reader, device correlator, temperature sampler, refresh loops and
    command line.

    Conventions.  C integers are modelled as [Z] with the wrap-around of
    their width written out ([u32], [u64], [s32]).  Byte strings are
    [string]s.  Everything the program does to the outside world (standard
    output and error, system calls, management-library and PCI-library
    calls) is appended to a trace of [event]s carried by a state monad;
    everything the outside world answers is read from an environment
    record. *)

From Stdlib Require Import ZArith List String Ascii Bool Lia DecimalString.
Import ListNotations.
Local Open Scope string_scope.
Local Open Scope list_scope.
Local Open Scope Z_scope.

(** ** Machine integers *)

Definition u32 (z : Z) : Z := z mod 2 ^ 32.
Definition u64 (z : Z) : Z := z mod 2 ^ 64.
(** Conversion to [int] (two's complement, 32 bits). *)
Definition s32 (z : Z) : Z := (z + 2 ^ 31) mod 2 ^ 32 - 2 ^ 31.

(** ** Constants of the program *)

Definition REFRESH_DURATION : Z := 1.
Definition BUFFER_SIZE : Z := 1024.

Definition HOTSPOT_REGISTER_OFFSET : Z := 0x0002046C.
Definition VRAM_REGISTER_OFFSET : Z := 0x0000E2A8.
Definition MEM_PATH : string := "/dev/mem".

Definition bytes (l : list nat) : string :=
  string_of_list_ascii (map ascii_of_nat l).

Definition ESC : string := bytes [27%nat].
Definition SEPARATOR : string := bytes [226%nat; 148%nat; 130%nat].
Definition DEGREE : string := bytes [194%nat; 176%nat].
Definition CURSOR_HIDE : string := ESC ++ "[?25l".
Definition CURSOR_SHOW : string := ESC ++ "[?25h".
Definition COLOR_RESET : string := ESC ++ "[0m".
Definition COLOR_GREEN : string := ESC ++ "[32m".
Definition COLOR_YELLOW : string := ESC ++ "[33m".
Definition COLOR_RED : string := ESC ++ "[31m".
Definition NL : string := bytes [10%nat].
Definition DQ : string := bytes [34%nat].

Definition GPU_TEMP_WARN : Z := 70.
Definition GPU_TEMP_DANGER : Z := 85.
Definition JUNCTION_TEMP_WARN : Z := 80.
Definition JUNCTION_TEMP_DANGER : Z := 95.
Definition VRAM_TEMP_WARN : Z := 80.
Definition VRAM_TEMP_DANGER : Z := 95.

Definition NVML_SUCCESS : Z := 0.
Definition SIGHUP : Z := 1.
Definition SIGINT : Z := 2.
Definition SIGTERM : Z := 15.

(** ** Data *)

Inductive OutputFormat := FORMAT_TABLE | FORMAT_JSON.
Inductive OutputMode := MODE_CONTINUOUS | MODE_ONCE.

(** The fields of libpci's [struct pci_dev] the program reads:
    [vendor_id], [device_id] are 16 bits, [domain] is an [int], [bus] and
    [dev] are 8 bits, [base_addr0] is the 64-bit [base_addr[0]]. *)
Module Pci.
Record pci_dev := mk {
  vendor_id : Z;
  device_id : Z;
  domain : Z;
  bus : Z;
  dev : Z;
  base_addr0 : Z
}.
End Pci.

(** The fields of [nvmlPciInfo_t] the program reads, all [unsigned int]. *)
Module Nvml.
Record nvmlPciInfo_t := mk {
  pciDeviceId : Z;
  domain : Z;
  bus : Z;
  device : Z
}.
End Nvml.

Definition nvmlDevice_t := Z.
Definition nvmlReturn_t := Z.

Record GpuDevice := mkGpu {
  device : nvmlDevice_t;
  pci_info : Nvml.nvmlPciInfo_t;
  gpu_temp : Z;
  junction_temp : Z;
  vram_temp : Z
}.

(** [GpuDevice gpu = {0}] *)
Definition GpuDevice_zero : GpuDevice :=
  mkGpu 0 (Nvml.mk 0 0 0 0) 0 0 0.

Record Context := mkCtx {
  result : nvmlReturn_t;
  device_count : Z;
  initialized : Z;
  pacc : option (list Pci.pci_dev);   (* [None] is the null pointer *)
  output_buffer : list ascii;         (* [BUFFER_SIZE] bytes *)
  buffer_pos : Z;
  output_mode : OutputMode;
  output_format : OutputFormat
}.

Definition with_result (c : Context) (r : nvmlReturn_t) : Context :=
  mkCtx r (device_count c) (initialized c) (pacc c) (output_buffer c)
        (buffer_pos c) (output_mode c) (output_format c).
Definition with_device_count (c : Context) (n : Z) : Context :=
  mkCtx (result c) n (initialized c) (pacc c) (output_buffer c)
        (buffer_pos c) (output_mode c) (output_format c).
Definition with_initialized (c : Context) (i : Z) : Context :=
  mkCtx (result c) (device_count c) i (pacc c) (output_buffer c)
        (buffer_pos c) (output_mode c) (output_format c).
Definition with_pacc (c : Context) (p : option (list Pci.pci_dev)) : Context :=
  mkCtx (result c) (device_count c) (initialized c) p (output_buffer c)
        (buffer_pos c) (output_mode c) (output_format c).
Definition with_buffer (c : Context) (b : list ascii) (p : Z) : Context :=
  mkCtx (result c) (device_count c) (initialized c) (pacc c) b
        p (output_mode c) (output_format c).
Definition with_output_mode (c : Context) (m : OutputMode) : Context :=
  mkCtx (result c) (device_count c) (initialized c) (pacc c) (output_buffer c)
        (buffer_pos c) m (output_format c).
Definition with_output_format (c : Context) (f : OutputFormat) : Context :=
  mkCtx (result c) (device_count c) (initialized c) (pacc c) (output_buffer c)
        (buffer_pos c) (output_mode c) f.

(** [Context ctx = {0}] followed by the two assignments at the top of [main]. *)
Definition Context_zero : Context :=
  mkCtx 0 0 0 None (repeat zero (Z.to_nat BUFFER_SIZE)) 0
        MODE_CONTINUOUS FORMAT_TABLE.

(** ** The outside world *)

Inductive atexit_fn := reset_terminal_fn | restore_cursor_fn.

Inductive event :=
| Stdout (s : string)
| Stderr (s : string)
| Fflush
| Geteuid
| Open (path : string) (ok : bool)
| Mmap (length offset : Z) (ok : bool)
| Load32 (window_offset : Z)
| Munmap (length : Z)
| Close
| NvmlInit
| NvmlShutdown
| NvmlDeviceGetCount
| NvmlDeviceGetHandleByIndex (index : Z)
| NvmlDeviceGetTemperature (d : nvmlDevice_t)
| NvmlDeviceGetPciInfo (d : nvmlDevice_t)
| PciAlloc
| PciInit
| PciScanBus
| PciFillInfo (d : Pci.pci_dev)
| PciCleanup
| Tcgetattr
| Tcsetattr (restore : bool)
| Atexit (f : atexit_fn)
| Signal (signum : Z)
| TimeNull
| Select (timeout_usec : Z)
| ReadStdin
| Sleep (seconds : Z).

(** What the system answers during one refresh cycle. *)
Record CycleEnv := mkCycle {
  running : bool;                         (* the flag, as read at the loop head *)
  nvmlDeviceGetHandleByIndex : Z -> nvmlReturn_t * nvmlDevice_t;
  nvmlDeviceGetTemperature : nvmlDevice_t -> nvmlReturn_t * Z;
  nvmlDeviceGetPciInfo : nvmlDevice_t -> nvmlReturn_t * Nvml.nvmlPciInfo_t;
  (* The answers to the calls made while one register of one device is
     read.  Each call of read_register_temp (dev, offset, ...) has its own,
     so the two calls of get_gpu_temps are answered independently; a cycle
     repeats a call with the same arguments only when the library reports
     one PCI identity for two device indices, and the answers are then the
     same. *)
  open_ok : Pci.pci_dev -> Z -> bool;     (* open("/dev/mem") succeeds *)
  mmap_ok : Pci.pci_dev -> Z -> Z -> bool;  (* mapping one page at the offset
                                             given last succeeds *)
  phys_word : Z -> Z;                     (* the word at a physical address *)
  strerror_errno : string;
  indeterminate : Pci.pci_dev -> Z -> Z;  (* what the caller reads from that
                                             call when it ended without a
                                             return statement *)
  time_now : Z;
  select_result : Z;
  read_result : Z
}.

(** What the system answers at start-up and for the whole run. *)
Record Env := mkEnv {
  PG_SZ : Z;                              (* sysconf(_SC_PAGE_SIZE) *)
  geteuid : Z;
  pci_alloc_ok : bool;
  pci_devices : list Pci.pci_dev;         (* the list pci_scan_bus builds *)
  nvmlInit : nvmlReturn_t;
  nvmlDeviceGetCount : nvmlReturn_t * Z;
  nvmlErrorString : nvmlReturn_t -> string;
  tcgetattr_result : Z;
  tcsetattr_result : Z
}.

(** ** Program state and the state monad *)

Record State := mkState {
  ctx : Context;
  refresh_counter : Z;                    (* the static in monitor_temperatures_table *)
  atexit_fns : list atexit_fn;            (* most recently registered first *)
  trace : list event
}.

Definition initial_state : State := mkState Context_zero 0 [] [].

Definition M (A : Type) : Type := State -> A * State.

Definition ret {A} (a : A) : M A := fun s => (a, s).
Definition bind {A B} (m : M A) (k : A -> M B) : M B :=
  fun s => let (a, s') := m s in k a s'.

Notation "x <- m ;; k" := (bind m (fun x => k))
  (at level 61, m at next level, right associativity).
Notation "m ;; k" := (bind m (fun _ => k))
  (at level 61, right associativity).

(** The state after the events [l] have happened. *)
Definition add_trace (s : State) (l : list event) : State :=
  mkState (ctx s) (refresh_counter s) (atexit_fns s) (trace s ++ l).

Definition emit (e : event) : M unit := fun s => (tt, add_trace s [e]).
Definition get_ctx : M Context := fun s => (ctx s, s).
Definition set_ctx (c : Context) : M unit :=
  fun s => (tt, mkState c (refresh_counter s) (atexit_fns s) (trace s)).
Definition get_refresh_counter : M Z := fun s => (refresh_counter s, s).
Definition set_refresh_counter (n : Z) : M unit :=
  fun s => (tt, mkState (ctx s) n (atexit_fns s) (trace s)).
Definition get_atexit_fns : M (list atexit_fn) := fun s => (atexit_fns s, s).
Definition atexit (f : atexit_fn) : M unit :=
  fun s => (tt, mkState (ctx s) (refresh_counter s) (f :: atexit_fns s)
                        (trace s ++ [Atexit f])).

Definition printf (s : string) : M unit := emit (Stdout s).
Definition eprintf (s : string) : M unit := emit (Stderr s).
Definition fflush_stdout : M unit := emit Fflush.

(** ** Formatting *)

Definition fmt_d (z : Z) : string := NilZero.string_of_int (Z.to_int z).
Definition fmt_u (z : Z) : string := fmt_d (u32 z).

Fixpoint spaces (n : nat) : string :=
  match n with
  | O => EmptyString
  | S k => " " ++ spaces k
  end.

(** [%3u]: right-justified in a field of width three. *)
Definition fmt_3u (z : Z) : string :=
  let d := fmt_u z in spaces (3 - String.length d) ++ d.

Definition strlen (s : string) : Z := Z.of_nat (String.length s).

(** ** Fixed-capacity output accumulation *)

Fixpoint upd_nth {A} (l : list A) (n : nat) (a : A) : list A :=
  match l, n with
  | [], _ => []
  | _ :: r, O => a :: r
  | x :: r, S k => x :: upd_nth r k a
  end.

(** One byte stored at an index of [ctx->output_buffer].  An index outside
    the array is outside the object: the model leaves the array as it is and
    the invariant below shows that no such store is ever issued. *)
Definition store_byte (buf : list ascii) (st : Z * ascii) : list ascii :=
  let (i, c) := st in
  if (0 <=? i) && (i <? Z.of_nat (List.length buf))
  then upd_nth buf (Z.to_nat i) c else buf.

Fixpoint stores_from (pos : Z) (l : list ascii) : list (Z * ascii) :=
  match l with
  | [] => []
  | c :: r => (pos, c) :: stores_from (pos + 1) r
  end.

(** The bytes [vsnprintf (buf + pos, size, ...)] stores when the formatted
    text is [s]: nothing for [size = 0], otherwise at most [size - 1] bytes
    of [s] and a terminating zero byte. *)
Definition vsnprintf_stores (pos size : Z) (s : string) : list (Z * ascii) :=
  if size =? 0 then []
  else
    let n := Z.to_nat (Z.min (strlen s) (size - 1)) in
    stores_from pos (firstn n (list_ascii_of_string s))
      ++ [(pos + Z.of_nat n, zero)].

(** The value [vsnprintf] returns when the formatted text is [s]: its
    length, whatever the size given, or a negative value when the length
    cannot be represented in an [int]. *)
Definition vsnprintf_result (s : string) : Z :=
  if strlen s <? 2 ^ 31 then strlen s else -1.

(** [buffer_append (ctx, format, ...)], with [s] the text the format and its
    arguments produce. *)
Definition buffer_append_stores (c : Context) (s : string)
  : list (Z * ascii) :=
  let remaining := s32 (u64 (BUFFER_SIZE - buffer_pos c)) in
  vsnprintf_stores (buffer_pos c) (u64 remaining) s.

Definition buffer_append_ctx (c : Context) (s : string) : Context :=
  let remaining := s32 (u64 (BUFFER_SIZE - buffer_pos c)) in
  let written := vsnprintf_result s in
  let buf := fold_left store_byte (buffer_append_stores c s)
               (output_buffer c) in
  if (0 <? written) && (written <? remaining)
  then with_buffer c buf (u64 (buffer_pos c + written))
  else with_buffer c buf (buffer_pos c).

Definition buffer_append (s : string) : M unit :=
  c <- get_ctx ;; set_ctx (buffer_append_ctx c s).

(** The C string stored in a byte array: the bytes before the first zero. *)
Fixpoint cstring (l : list ascii) : string :=
  match l with
  | [] => EmptyString
  | c :: r => if Ascii.eqb c zero then EmptyString else String c (cstring r)
  end.

(** ** Colour bands *)

Definition get_temp_color (temp warn danger : Z) : string :=
  if danger <=? temp then COLOR_RED
  else if warn <=? temp then COLOR_YELLOW
  else COLOR_GREEN.

Definition print_gpu_info_text (index : Z) (gpu : GpuDevice) : string :=
  fmt_u index ++ " " ++ SEPARATOR ++ " "
  ++ get_temp_color (gpu_temp gpu) GPU_TEMP_WARN GPU_TEMP_DANGER
  ++ fmt_3u (gpu_temp gpu) ++ DEGREE ++ "C" ++ COLOR_RESET ++ "  " ++ SEPARATOR ++ " "
  ++ get_temp_color (junction_temp gpu) JUNCTION_TEMP_WARN JUNCTION_TEMP_DANGER
  ++ fmt_3u (junction_temp gpu) ++ DEGREE ++ "C" ++ COLOR_RESET ++ "  " ++ SEPARATOR ++ " "
  ++ get_temp_color (vram_temp gpu) VRAM_TEMP_WARN VRAM_TEMP_DANGER
  ++ fmt_3u (vram_temp gpu) ++ DEGREE ++ "C" ++ COLOR_RESET ++ "  " ++ SEPARATOR ++ NL.

Definition print_gpu_info (index : Z) (gpu : GpuDevice) : M unit :=
  buffer_append (print_gpu_info_text index gpu).

(** ** Start-up and shutdown *)

Section Program.

Variable env : Env.

Definition check_root_privileges : M Z :=
  emit Geteuid ;;
  if negb (geteuid env =? 0)
  then eprintf ("This program requires root privileges" ++ NL) ;; ret (-1)
  else ret 0.

Definition cleanup_context : M unit :=
  c <- get_ctx ;;
  (if negb (initialized c =? 0)
   then emit NvmlShutdown ;; c <- get_ctx ;; set_ctx (with_initialized c 0)
   else ret tt) ;;
  c <- get_ctx ;;
  match pacc c with
  | Some _ => emit PciCleanup ;; c <- get_ctx ;; set_ctx (with_pacc c None)
  | None => ret tt
  end.

Definition restore_cursor : M unit :=
  printf CURSOR_SHOW ;; fflush_stdout.

Definition reset_terminal : M unit :=
  emit (Tcsetattr true).

Definition setup_terminal : M Z :=
  emit Tcgetattr ;;
  if tcgetattr_result env <? 0 then ret (-1)
  else
    atexit reset_terminal_fn ;;
    emit (Tcsetattr false) ;;
    if tcsetattr_result env <? 0 then ret (-1) else ret 0.

Definition init_pci : M Z :=
  emit PciAlloc ;;
  c <- get_ctx ;;
  if pci_alloc_ok env
  then
    set_ctx (with_pacc c (Some (pci_devices env))) ;;
    emit PciInit ;;
    emit PciScanBus ;;
    ret 0
  else
    set_ctx (with_pacc c None) ;;
    eprintf ("Failed to allocate PCI structure" ++ NL) ;;
    ret (-1).

Definition init_nvml : M Z :=
  emit NvmlInit ;;
  c <- get_ctx ;;
  set_ctx (with_result c (nvmlInit env)) ;;
  if negb (NVML_SUCCESS =? nvmlInit env)
  then
    eprintf ("Failed to initialize NVML: "
             ++ nvmlErrorString env (nvmlInit env) ++ NL) ;;
    ret (-1)
  else
    c <- get_ctx ;;
    set_ctx (with_initialized c 1) ;;
    ret 0.

Definition get_device_count : M Z :=
  emit NvmlDeviceGetCount ;;
  c <- get_ctx ;;
  let (r, n) := nvmlDeviceGetCount env in
  set_ctx (with_device_count (with_result c r)
             (if NVML_SUCCESS =? r then u32 n else device_count c)) ;;
  if negb (NVML_SUCCESS =? r)
  then
    eprintf ("Failed to get device count: " ++ nvmlErrorString env r ++ NL) ;;
    ret (-1)
  else
    c <- get_ctx ;;
    if device_count c =? 0
    then eprintf ("No NVIDIA GPUs found" ++ NL) ;; ret (-1)
    else ret 0.

(** ** Management-library queries *)

Variable e : CycleEnv.

Definition get_device_handle (index : Z) (device : nvmlDevice_t)
  : M (Z * nvmlDevice_t) :=
  emit (NvmlDeviceGetHandleByIndex index) ;;
  c <- get_ctx ;;
  let (r, d) := nvmlDeviceGetHandleByIndex e index in
  set_ctx (with_result c r) ;;
  if negb (NVML_SUCCESS =? r)
  then
    eprintf ("Failed to get handle for GPU " ++ fmt_u index ++ ": "
             ++ nvmlErrorString env r ++ NL) ;;
    ret (-1, device)
  else ret (0, d).

Definition get_device_pci_info (device : nvmlDevice_t)
  (pci_info : Nvml.nvmlPciInfo_t) : M (Z * Nvml.nvmlPciInfo_t) :=
  emit (NvmlDeviceGetPciInfo device) ;;
  c <- get_ctx ;;
  let (r, p) := nvmlDeviceGetPciInfo e device in
  set_ctx (with_result c r) ;;
  if negb (NVML_SUCCESS =? r)
  then
    eprintf ("Failed to get PCI info: " ++ nvmlErrorString env r ++ NL) ;;
    ret (-1, pci_info)
  else ret (0, p).

Definition get_gpu_temp (device : nvmlDevice_t) (temp : Z) : M (Z * Z) :=
  emit (NvmlDeviceGetTemperature device) ;;
  let (r, t) := nvmlDeviceGetTemperature e device in
  if negb (NVML_SUCCESS =? r)
  then
    eprintf ("Failed to get GPU temperature: " ++ nvmlErrorString env r ++ NL) ;;
    ret (-1, temp)
  else ret (0, u32 t).

(** ** Register reader *)

(** [reg_addr]: the sum is taken in 64 bits and stored in a [uint32_t]. *)
Definition reg_addr (dev : Pci.pci_dev) (offset : Z) : Z :=
  u32 (u64 (Z.land (Pci.base_addr0 dev) 0xFFFFFFFF + offset)).

(** [base_offset = reg_addr & ~(PG_SZ-1)], computed in [long] and stored in
    a [uint32_t]. *)
Definition base_offset (dev : Pci.pci_dev) (offset : Z) : Z :=
  u32 (Z.land (reg_addr dev offset) (Z.lnot (PG_SZ env - 1))).

(** The two decodings; any other offset leaves [*temp] as it was. *)
Definition decode_temp (offset reg_value temp : Z) : Z :=
  if offset =? HOTSPOT_REGISTER_OFFSET
  then Z.land (Z.shiftr reg_value 8) 0xff
  else if offset =? VRAM_REGISTER_OFFSET
  then Z.land reg_value 0x00000fff / 0x20
  else temp.

(** [reg_value]: the word of the one-page window that starts at
    [base_offset], at byte offset [reg_addr - base_offset]. *)
Definition reg_value (dev : Pci.pci_dev) (offset : Z) : Z :=
  u32 (phys_word e (base_offset dev offset
                    + u32 (reg_addr dev offset - base_offset dev offset))).

(** [read_register_temp (dev, offset, temp)]: the value returned, [None]
    when control reaches the closing brace of the function without a
    [return] statement, and the new contents of [*temp]. *)
Definition read_register_temp (dev : Pci.pci_dev) (offset : Z) (temp : Z)
  : M (option Z * Z) :=
  emit (Open MEM_PATH (open_ok e dev offset)) ;;
  if negb (open_ok e dev offset)
  then
    eprintf ("Failed to open " ++ MEM_PATH ++ ": " ++ strerror_errno e ++ NL) ;;
    ret (Some (-1), temp)
  else
    let reg_addr := reg_addr dev offset in
    let base_offset := base_offset dev offset in
    emit (Mmap (PG_SZ env) base_offset (mmap_ok e dev offset base_offset)) ;;
    if negb (mmap_ok e dev offset base_offset)
    then
      eprintf ("Failed to map memory: " ++ strerror_errno e ++ NL) ;;
      emit Close ;;
      ret (Some (-1), temp)
    else
      let window_offset := u32 (reg_addr - base_offset) in
      emit (Load32 window_offset) ;;
      let reg_value := reg_value dev offset in
      let temp := decode_temp offset reg_value temp in
      emit (Munmap (PG_SZ env)) ;;
      emit Close ;;
      ret (None, temp).

(** The [int] a caller obtains from the call
    [read_register_temp (dev, offset, ...)]: the value of the [return]
    statement executed, or, when the function ended without one, a value
    the language leaves indeterminate and the environment supplies, for
    each call its own. *)
Definition int_result (dev : Pci.pci_dev) (offset : Z) (r : option Z) : Z :=
  match r with
  | Some v => v
  | None => indeterminate e dev offset
  end.

(** ** Device correlator and temperature sampler *)

(** The condition under which the scan of [get_gpu_temps] skips a record.
    The 16-bit ids are promoted to [int] before the shift and the
    disjunction, and the result is converted to [unsigned int] for the
    comparison; [(unsigned int)dev->domain] is written out in the source. *)
Definition pci_mismatch (dev : Pci.pci_dev) (id : Nvml.nvmlPciInfo_t) : bool :=
  negb (u32 (Z.lor (Z.shiftl (Pci.device_id dev) 16) (Pci.vendor_id dev))
        =? Nvml.pciDeviceId id)
  || negb (u32 (Pci.domain dev) =? Nvml.domain id)
  || negb (Pci.bus dev =? Nvml.bus id)
  || negb (Pci.dev dev =? Nvml.device id).

Definition set_junction_temp (gpu : GpuDevice) (t : Z) : GpuDevice :=
  mkGpu (device gpu) (pci_info gpu) (gpu_temp gpu) t (vram_temp gpu).
Definition set_vram_temp (gpu : GpuDevice) (t : Z) : GpuDevice :=
  mkGpu (device gpu) (pci_info gpu) (gpu_temp gpu) (junction_temp gpu) t.

(** The part of the loop body of [get_gpu_temps] after the comparison:
    the two register reads against the record [dev]. *)
Definition get_gpu_temps_read (dev : Pci.pci_dev) (gpu : GpuDevice)
  : M (Z * GpuDevice) :=
  jr <- read_register_temp dev HOTSPOT_REGISTER_OFFSET (junction_temp gpu) ;;
  let gpu := set_junction_temp gpu (snd jr) in
  let junction_result := int_result dev HOTSPOT_REGISTER_OFFSET (fst jr) in
  if negb (junction_result =? 0) then ret (-1, gpu)
  else
    vr <- read_register_temp dev VRAM_REGISTER_OFFSET (vram_temp gpu) ;;
    let gpu := set_vram_temp gpu (snd vr) in
    let vram_result := int_result dev VRAM_REGISTER_OFFSET (fst vr) in
    if negb (vram_result =? 0) then ret (-1, gpu)
    else ret (0, gpu).

(** The [for] loop of [get_gpu_temps] over [ctx->pacc->devices]. *)
Fixpoint get_gpu_temps_scan (devs : list Pci.pci_dev) (gpu : GpuDevice)
  : M (Z * GpuDevice) :=
  match devs with
  | [] => ret (-1, gpu)
  | dev :: next =>
      emit (PciFillInfo dev) ;;
      if pci_mismatch dev (pci_info gpu)
      then get_gpu_temps_scan next gpu
      else get_gpu_temps_read dev gpu
  end.

(** [ctx->pacc->devices]; sampling runs only after [init_pci] has succeeded,
    when [ctx->pacc] is not null. *)
Definition devices_of (c : Context) : list Pci.pci_dev :=
  match pacc c with
  | Some devs => devs
  | None => []
  end.

Definition get_gpu_temps (index : Z) (gpu : GpuDevice) : M (Z * GpuDevice) :=
  h <- get_device_handle index (device gpu) ;;
  let gpu := mkGpu (snd h) (pci_info gpu) (gpu_temp gpu)
                   (junction_temp gpu) (vram_temp gpu) in
  if fst h <? 0 then ret (-1, gpu)
  else
    t <- get_gpu_temp (device gpu) (gpu_temp gpu) ;;
    let gpu := mkGpu (device gpu) (pci_info gpu) (snd t)
                     (junction_temp gpu) (vram_temp gpu) in
    if fst t <? 0 then ret (-1, gpu)
    else
      p <- get_device_pci_info (device gpu) (pci_info gpu) ;;
      let gpu := mkGpu (device gpu) (snd p) (gpu_temp gpu)
                       (junction_temp gpu) (vram_temp gpu) in
      if fst p <? 0 then ret (-1, gpu)
      else
        c <- get_ctx ;;
        get_gpu_temps_scan (devices_of c) gpu.

(** ** One refresh cycle *)

(** The [for] loop of [monitor_temperatures_table]: [n] iterations remain,
    [i] is the device index.  [Some v] is the number of valid readings at the
    end of the loop, [None] the early [return -1]. *)
Fixpoint table_rows (n : nat) (i valid_readings : Z) : M (option Z) :=
  match n with
  | O => ret (Some valid_readings)
  | S k =>
      r <- get_gpu_temps i GpuDevice_zero ;;
      if negb (fst r =? 0) then ret None
      else
        print_gpu_info i (snd r) ;;
        table_rows k (u32 (i + 1)) (s32 (valid_readings + 1))
  end.

Definition monitor_temperatures_table : M Z :=
  c <- get_ctx ;;
  set_ctx (with_buffer c (output_buffer c) 0) ;;
  rc <- get_refresh_counter ;;
  let rc := if rc =? 0 then 1 else 0 in
  set_refresh_counter rc ;;
  buffer_append (NL ++ (if rc =? 0 then "* " else "  ")) ;;
  buffer_append (SEPARATOR ++ "  CORE  " ++ SEPARATOR ++ "  JUNC  "
                 ++ SEPARATOR ++ "  VRAM  " ++ SEPARATOR ++ NL) ;;
  c <- get_ctx ;;
  rows <- table_rows (Z.to_nat (device_count c)) 0 0 ;;
  match rows with
  | None => ret (-1)
  | Some valid_readings =>
      buffer_append (ESC ++ "[" ++ fmt_d (s32 (valid_readings + 2)) ++ "A") ;;
      c <- get_ctx ;;
      printf (cstring (output_buffer c)) ;;
      fflush_stdout ;;
      ret 0
  end.

(** The [for] loop of [monitor_temperatures_json]; [false] is the early
    [return -1]. *)
Fixpoint json_rows (n : nat) (i : Z) (first : Z) : M bool :=
  match n with
  | O => ret true
  | S k =>
      r <- get_gpu_temps i GpuDevice_zero ;;
      if negb (fst r =? 0) then ret false
      else
        (if first =? 0 then printf "," else ret tt) ;;
        printf ("{" ++ DQ ++ "index" ++ DQ ++ ":" ++ fmt_u i
                ++ "," ++ DQ ++ "core" ++ DQ ++ ":" ++ fmt_u (gpu_temp (snd r))
                ++ "," ++ DQ ++ "junction" ++ DQ ++ ":"
                ++ fmt_u (junction_temp (snd r))
                ++ "," ++ DQ ++ "vram" ++ DQ ++ ":" ++ fmt_u (vram_temp (snd r))
                ++ "}") ;;
        json_rows k (u32 (i + 1)) 0
  end.

Definition monitor_temperatures_json : M Z :=
  emit TimeNull ;;
  let now := time_now e in
  printf ("{" ++ DQ ++ "timestamp" ++ DQ ++ ":" ++ fmt_d now
          ++ "," ++ DQ ++ "gpus" ++ DQ ++ ":[") ;;
  c <- get_ctx ;;
  ok <- json_rows (Z.to_nat (device_count c)) 0 1 ;;
  if negb ok then ret (-1)
  else
    printf ("]}" ++ NL) ;;
    fflush_stdout ;;
    ret 0.

(** ** The wait between cycles *)

Definition handle_input (duration_ms : Z) : M Z :=
  emit (Select (duration_ms * 1000)) ;;
  if 0 <? select_result e
  then
    emit ReadStdin ;;
    if 0 <? read_result e then ret 1 else ret 0
  else ret 0.

End Program.

(** ** The refresh loops *)

Section Loops.

Variable env : Env.

Definition init_monitoring : M Z :=
  r <- check_root_privileges env ;;
  if r <? 0 then ret (-1)
  else
    r <- init_pci env ;;
    if r <? 0 then ret (-1)
    else
      r <- init_nvml env ;;
      if r <? 0 then ret (-1)
      else
        r <- get_device_count env ;;
        if r <? 0 then ret (-1)
        else
          emit (Signal SIGINT) ;;
          emit (Signal SIGTERM) ;;
          emit (Signal SIGHUP) ;;
          ret 0.

(** The statements after the loop of [run_monitoring_loop]. *)
Definition run_monitoring_loop_exit : M (option Z) :=
  c <- get_ctx ;;
  printf (ESC ++ "[" ++ fmt_d (s32 (u32 (device_count c + 2))) ++ "B") ;;
  printf NL ;;
  fflush_stdout ;;
  ret (Some 0).

(** The loops run against a script of the system's answers, one entry for
    each time the loop head is reached.  [None] means that the script has
    been used up with the loop still running. *)
Fixpoint run_monitoring_loop (script : list CycleEnv) : M (option Z) :=
  match script with
  | [] => ret None
  | e :: later =>
      if running e
      then
        r <- monitor_temperatures_table env e ;;
        if negb (r =? 0) then ret (Some (-1))
        else
          k <- handle_input e (REFRESH_DURATION * 1000) ;;
          if negb (k =? 0) then run_monitoring_loop_exit
          else run_monitoring_loop later
      else run_monitoring_loop_exit
  end.

Fixpoint run_json_loop (script : list CycleEnv) : M (option Z) :=
  match script with
  | [] => ret None
  | e :: later =>
      if running e
      then
        r <- monitor_temperatures_json env e ;;
        if negb (r =? 0) then ret (Some (-1))
        else
          k <- handle_input e (REFRESH_DURATION * 1000) ;;
          if negb (k =? 0) then ret (Some 0)
          else
            emit (Sleep REFRESH_DURATION) ;;
            run_json_loop later
      else ret (Some 0)
  end.

(** ** Command line and [main] *)

Definition usage_text (prog : string) : string :=
    ("Usage: " ++ prog ++ " [OPTIONS]" ++ NL
     ++ NL
     ++ "Options:" ++ NL
     ++ "  --json           Output temperatures in JSON format" ++ NL
     ++ "  --once           Output temperatures once" ++ NL
     ++ "  --help           Show this help message and exit" ++ NL
     ++ NL
     ++ "Examples:" ++ NL
     ++ "  " ++ prog
     ++ "                Display and update table of GPU temperatures" ++ NL
     ++ "  " ++ prog
     ++ " --json         Continuously output GPU temperatures in JSON format" ++ NL
     ++ "  " ++ prog
     ++ " --once         Output temperatures once in table format" ++ NL
     ++ "  " ++ prog
     ++ " --json --once  Output temperatures once in JSON format" ++ NL).

Definition print_usage (prog : string) : M unit :=
  eprintf (usage_text prog).

(** The argument loop of [main] over [argv[1]], ..., [argv[argc-1]];
    [Some code] is a [return code] from within the loop. *)
Fixpoint main_args (prog : string) (args : list string) : M (option Z) :=
  match args with
  | [] => ret None
  | a :: later =>
      if String.eqb a "--json"
      then c <- get_ctx ;; set_ctx (with_output_format c FORMAT_JSON) ;;
           main_args prog later
      else if String.eqb a "--once"
      then c <- get_ctx ;; set_ctx (with_output_mode c MODE_ONCE) ;;
           main_args prog later
      else if String.eqb a "--help"
      then print_usage prog ;; ret (Some 0)
      else
        eprintf ("Unknown argument: " ++ a ++ NL) ;;
        print_usage prog ;;
        ret (Some 1)
  end.

(** One cycle in [MODE_ONCE]: the first entry of the script. *)
Definition once (cycle : CycleEnv -> M Z) (script : list CycleEnv)
  : M (option Z) :=
  match script with
  | [] => ret None
  | e :: _ => r <- cycle e ;; ret (Some r)
  end.

Definition main_run (script : list CycleEnv) : M (option Z) :=
  c <- get_ctx ;;
  match output_format c, output_mode c with
  | FORMAT_JSON, MODE_CONTINUOUS => run_json_loop script
  | FORMAT_JSON, MODE_ONCE => once (monitor_temperatures_json env) script
  | FORMAT_TABLE, MODE_CONTINUOUS => run_monitoring_loop script
  | FORMAT_TABLE, MODE_ONCE => once (monitor_temperatures_table env) script
  end.

Definition is_table (f : OutputFormat) : bool :=
  match f with FORMAT_TABLE => true | FORMAT_JSON => false end.

(** [main (argc, argv)]: [Some code] is the value returned, [None] means
    that the script ended while a loop was still running. *)
Definition main (argv : list string) (script : list CycleEnv) : M (option Z) :=
  set_ctx Context_zero ;;
  a <- main_args (hd EmptyString argv) (tl argv) ;;
  match a with
  | Some code => ret (Some code)
  | None =>
      c <- get_ctx ;;
      t <- (if is_table (output_format c)
            then
              r <- setup_terminal env ;;
              if r <? 0 then cleanup_context ;; ret (Some 1)
              else
                printf CURSOR_HIDE ;;
                fflush_stdout ;;
                atexit restore_cursor_fn ;;
                ret None
            else ret None) ;;
      match t with
      | Some code => ret (Some code)
      | None =>
          r <- init_monitoring ;;
          if r <? 0 then cleanup_context ;; ret (Some 1)
          else
            res <- main_run script ;;
            match res with
            | None => ret None
            | Some result =>
                cleanup_context ;;
                ret (Some (if result =? 0 then 0 else 1))
            end
      end
  end.

(** The functions registered with [atexit] run when [main] returns, the
    most recently registered first. *)
Fixpoint run_atexit (fns : list atexit_fn) : M unit :=
  match fns with
  | [] => ret tt
  | reset_terminal_fn :: later => reset_terminal ;; run_atexit later
  | restore_cursor_fn :: later => restore_cursor ;; run_atexit later
  end.

(** The whole process: its exit code and everything it did. *)
Definition process (argv : list string) (script : list CycleEnv)
  : option Z * State :=
  (code <- main argv script ;;
   match code with
   | None => ret None
   | Some v => fns <- get_atexit_fns ;; run_atexit fns ;; ret (Some v)
   end) initial_state.

End Loops.

(** ** Vocabulary of the specification *)

(** The combined vendor/device id of a PCI record, as the scan computes it. *)
Definition combined_id (dev : Pci.pci_dev) : Z :=
  u32 (Z.lor (Z.shiftl (Pci.device_id dev) 16) (Pci.vendor_id dev)).

(** A PCI record equals a reported identity on all four fields. *)
Definition identity_equal (dev : Pci.pci_dev) (id : Nvml.nvmlPciInfo_t) : Prop :=
  combined_id dev = Nvml.pciDeviceId id
  /\ u32 (Pci.domain dev) = Nvml.domain id
  /\ Pci.bus dev = Nvml.bus id
  /\ Pci.dev dev = Nvml.device id.

(** Two PCI records differ in one of the four compared fields. *)
Definition field_changed (d d' : Pci.pci_dev) : Prop :=
  combined_id d <> combined_id d'
  \/ u32 (Pci.domain d) <> u32 (Pci.domain d')
  \/ Pci.bus d <> Pci.bus d'
  \/ Pci.dev d <> Pci.dev d'.

(** The events that make the program wait. *)
Definition is_delay (ev : event) : bool :=
  match ev with
  | Select _ | Sleep _ => true
  | _ => false
  end.

Definition is_stdout (ev : event) : bool :=
  match ev with
  | Stdout _ => true
  | _ => false
  end.

(** The events of the bounded wait for console input. *)
Definition wait_events (e : CycleEnv) : list event :=
  Select (REFRESH_DURATION * 1000 * 1000)
  :: (if 0 <? select_result e then [ReadStdin] else []).

(** The wait ended because a key was read. *)
Definition keystroke (e : CycleEnv) : bool :=
  (0 <? select_result e) && (0 <? read_result e).

(** The flags that only select a mode. *)
Definition is_mode_flag (a : string) : bool :=
  String.eqb a "--json" || String.eqb a "--once".

(** What one mode flag does to the context. *)
Definition apply_flag (c : Context) (a : string) : Context :=
  if String.eqb a "--json" then with_output_format c FORMAT_JSON
  else if String.eqb a "--once" then with_output_mode c MODE_ONCE
  else c.

Definition with_ctx (s : State) (c : Context) : State :=
  mkState c (refresh_counter s) (atexit_fns s) (trace s).

(** What a computation may change: it extends the trace and leaves the
    resources held, the device count, the selected mode and format and the
    functions registered for exit as they are. *)
Definition extends (tr tr' : list event) : Prop :=
  exists added, tr' = tr ++ added.

Definition keeps (s s' : State) : Prop :=
  initialized (ctx s') = initialized (ctx s)
  /\ pacc (ctx s') = pacc (ctx s)
  /\ device_count (ctx s') = device_count (ctx s)
  /\ output_mode (ctx s') = output_mode (ctx s)
  /\ output_format (ctx s') = output_format (ctx s)
  /\ atexit_fns s' = atexit_fns s
  /\ extends (trace s) (trace s').

Definition preserving {A} (m : M A) : Prop :=
  forall s, keeps s (snd (m s)).

(** The events of a start-up that succeeds, and of the exit after it. *)
Definition terminal_events : list event :=
  [Tcgetattr; Atexit reset_terminal_fn; Tcsetattr false;
   Stdout CURSOR_HIDE; Fflush; Atexit restore_cursor_fn].

Definition init_events : list event :=
  [Geteuid; PciAlloc; PciInit; PciScanBus; NvmlInit; NvmlDeviceGetCount;
   Signal SIGINT; Signal SIGTERM; Signal SIGHUP].

Definition exit_events (f : OutputFormat) : list event :=
  [NvmlShutdown; PciCleanup]
  ++ (if is_table f then [Stdout CURSOR_SHOW; Fflush; Tcsetattr true] else []).

(** The system lets the program start: the terminal can be switched (needed
    for the table only), the user is root, the PCI and management libraries
    initialise and at least one device is counted. *)
Definition startup_ok (env : Env) (f : OutputFormat) : Prop :=
  (f = FORMAT_TABLE -> 0 <= tcgetattr_result env /\ 0 <= tcsetattr_result env)
  /\ geteuid env = 0
  /\ pci_alloc_ok env = true
  /\ nvmlInit env = NVML_SUCCESS
  /\ fst (nvmlDeviceGetCount env) = NVML_SUCCESS
  /\ u32 (snd (nvmlDeviceGetCount env)) <> 0.

(** The state in which [main] starts sampling, for the context [c0] left by
    the argument loop. *)
Definition ready_state (env : Env) (c0 : Context) : State :=
  mkState
    (mkCtx NVML_SUCCESS (u32 (snd (nvmlDeviceGetCount env))) 1
           (Some (pci_devices env)) (output_buffer c0) (buffer_pos c0)
           (output_mode c0) (output_format c0))
    0
    (if is_table (output_format c0)
     then [restore_cursor_fn; reset_terminal_fn] else [])
    ((if is_table (output_format c0) then terminal_events else [])
     ++ init_events).

(** The cycle function of a format. *)
Definition monitor_temperatures (env : Env) (f : OutputFormat) (e : CycleEnv)
  : M Z :=
  match f with
  | FORMAT_TABLE => monitor_temperatures_table env e
  | FORMAT_JSON => monitor_temperatures_json env e
  end.

(** A computation that writes nothing to standard output. *)
Definition silent {A} (m : M A) : Prop :=
  forall s, exists added,
    trace (snd (m s)) = trace s ++ added
    /\ forallb (fun ev => negb (is_stdout ev)) added = true.

(** ** Sample worlds *)

(** A graphics card at 0000:01:00.0 with its registers at 0xF6000000,
    behind another device. *)
Definition sample_gpu : Pci.pci_dev :=
  Pci.mk 0x10DE 0x2204 0 1 0 0xF6000000.
Definition sample_bridge : Pci.pci_dev :=
  Pci.mk 0x8086 0x1234 0 0 2 0xF7000000.
Definition sample_id : Nvml.nvmlPciInfo_t :=
  Nvml.mk 0x220410DE 0 1 0.

Definition sample_env (count : Z) : Env :=
  mkEnv 4096 0 true [sample_bridge; sample_gpu] 0 (0, count)
        (fun _ => "error") 0 0.

(** A cycle in which the junction register holds 0x3200 (50 degrees) and
    the VRAM register 965 (30 degrees).  Handle lookup succeeds for the
    indices below [devices]; [ind] is the value read in place of a missing
    return value, [sel] and [rd] are the results of [select] and [read]. *)
Definition sample_cycle (devices ind sel rd : Z) : CycleEnv :=
  mkCycle true
    (fun i => if i <? devices then (0, 100 + i) else (999, 0))
    (fun _ => (0, 45))
    (fun _ => (0, sample_id))
    (fun _ _ => true)
    (fun _ _ _ => true)
    (fun a => if a =? 0xF602046C then 0x3200
              else if a =? 0xF600E2A8 then 965 else 0)
    "error" (fun _ _ => ind) 1700000000 sel rd.

(** The same cycle, but with 0 read in place of the missing return value
    of the read of the hotspot register and 1 in place of that of the read
    of the VRAM register. *)
Definition sample_cycle_late (devices : Z) : CycleEnv :=
  mkCycle true
    (fun i => if i <? devices then (0, 100 + i) else (999, 0))
    (fun _ => (0, 45))
    (fun _ => (0, sample_id))
    (fun _ _ => true)
    (fun _ _ _ => true)
    (fun a => if a =? 0xF602046C then 0x3200
              else if a =? 0xF600E2A8 then 965 else 0)
    "error"
    (fun _ offset => if offset =? VRAM_REGISTER_OFFSET then 1 else 0)
    1700000000 0 0.

(** A termination signal has arrived: the flag reads 0 at the loop head. *)
Definition sample_stop : CycleEnv :=
  mkCycle false (fun _ => (999, 0)) (fun _ => (999, 0))
          (fun _ => (999, sample_id)) (fun _ _ => false)
          (fun _ _ _ => false) (fun _ => 0)
          "error" (fun _ _ => 0) 1700000002 0 0.


(** ** Vocabulary of the further properties *)

(** Properties of the events a computation adds to the trace that hold of no
    events and of two runs of events put together. *)
Class Additive (P : list event -> Prop) : Prop := {
  additive_nil : P [];
  additive_app : forall a b, P a -> P b -> P (a ++ b)
}.

(** All events are of a kind [Q]. *)
Definition all_events (Q : event -> bool) (l : list event) : Prop :=
  forallb Q l = true.

(** A computation takes every state to one related to it by [R]. *)
Definition respects (R : State -> State -> Prop) {A} (m : M A) : Prop :=
  forall s, R s (snd (m s)).

(** Relations that hold along a sequence of steps when they hold of each. *)
Class Composable (R : State -> State -> Prop) : Prop := {
  composable_refl : forall s, R s s;
  composable_trans : forall a b c, R a b -> R b c -> R a c
}.

(** The relation allows an event to happen. *)
Definition allows (R : State -> State -> Prop) (ev : event) : Prop :=
  forall s, R s (add_trace s [ev]).

(** The trace has grown by events that satisfy [P]. *)
Definition adds (P : list event -> Prop) (s s' : State) : Prop :=
  exists added, trace s' = trace s ++ added /\ P added.

(** The functions registered for exit are the same. *)
Definition same_exit_functions (s s' : State) : Prop :=
  atexit_fns s' = atexit_fns s.

Definition both (R1 R2 : State -> State -> Prop) (s s' : State) : Prop :=
  R1 s s' /\ R2 s s'.

(** The events of sampling one device: management-library queries, the
    filling of PCI records, accesses to physical memory and diagnostics. *)
Definition is_sampling_event (ev : event) : bool :=
  match ev with
  | NvmlDeviceGetHandleByIndex _ | NvmlDeviceGetTemperature _
  | NvmlDeviceGetPciInfo _ | PciFillInfo _
  | Open _ _ | Mmap _ _ _ | Load32 _ | Munmap _ | Close
  | Stderr _ => true
  | _ => false
  end.

(** Only [ctx->result] and the trace have changed, the trace by events of
    sampling. *)
Definition sampling_step (s s' : State) : Prop :=
  exists r added,
    s' = add_trace (with_ctx s (with_result (ctx s) r)) added
    /\ all_events is_sampling_event added.

(** Everything but the calls that change or register the restoring of the
    terminal. *)
Definition no_terminal_event (ev : event) : bool :=
  match ev with
  | Tcgetattr | Tcsetattr _ | Atexit _ => false
  | _ => true
  end.

(** Everything but the use of the PCI library, the management library and
    physical memory. *)
Definition unprivileged_event (ev : event) : bool :=
  match ev with
  | PciAlloc | PciInit | PciScanBus | PciFillInfo _ | PciCleanup
  | NvmlInit | NvmlShutdown | NvmlDeviceGetCount
  | NvmlDeviceGetHandleByIndex _ | NvmlDeviceGetTemperature _
  | NvmlDeviceGetPciInfo _
  | Open _ _ | Mmap _ _ _ | Load32 _ | Munmap _ | Close => false
  | _ => true
  end.

Definition is_stderr (ev : event) : bool :=
  match ev with
  | Stderr _ => true
  | _ => false
  end.

(** The part of [main] from the call of [init_monitoring] on. *)
Definition main_monitoring (env : Env) (script : list CycleEnv)
  : M (option Z) :=
  r <- init_monitoring env ;;
  if r <? 0 then cleanup_context ;; ret (Some 1)
  else
    res <- main_run env script ;;
    match res with
    | None => ret None
    | Some result =>
        cleanup_context ;;
        ret (Some (if result =? 0 then 0 else 1))
    end.

(** The values the sampling functions return, without what they do: the
    return code and the contents of the locations written to.  They depend
    on the answers of the system and, in the state of the program, on the
    list of PCI records only. *)
Definition read_register_temp_value (env : Env) (e : CycleEnv)
  (dev : Pci.pci_dev) (offset temp : Z) : option Z * Z :=
  if negb (open_ok e dev offset) then (Some (-1), temp)
  else if negb (mmap_ok e dev offset (base_offset env dev offset))
  then (Some (-1), temp)
  else (None, decode_temp offset (reg_value env e dev offset) temp).

Definition get_gpu_temps_read_value (env : Env) (e : CycleEnv)
  (dev : Pci.pci_dev) (gpu : GpuDevice) : Z * GpuDevice :=
  let jr := read_register_temp_value env e dev HOTSPOT_REGISTER_OFFSET
              (junction_temp gpu) in
  let gpu := set_junction_temp gpu (snd jr) in
  if negb (int_result e dev HOTSPOT_REGISTER_OFFSET (fst jr) =? 0)
  then (-1, gpu)
  else
    let vr := read_register_temp_value env e dev VRAM_REGISTER_OFFSET
                (vram_temp gpu) in
    let gpu := set_vram_temp gpu (snd vr) in
    if negb (int_result e dev VRAM_REGISTER_OFFSET (fst vr) =? 0)
    then (-1, gpu)
    else (0, gpu).

(** Both calls of [read_register_temp] for the record [dev] go through
    and both callers read 0 in place of the missing return value. *)
Definition registers_read (env : Env) (e : CycleEnv) (dev : Pci.pci_dev)
  : Prop :=
  open_ok e dev HOTSPOT_REGISTER_OFFSET = true
  /\ mmap_ok e dev HOTSPOT_REGISTER_OFFSET
       (base_offset env dev HOTSPOT_REGISTER_OFFSET) = true
  /\ indeterminate e dev HOTSPOT_REGISTER_OFFSET = 0
  /\ open_ok e dev VRAM_REGISTER_OFFSET = true
  /\ mmap_ok e dev VRAM_REGISTER_OFFSET
       (base_offset env dev VRAM_REGISTER_OFFSET) = true
  /\ indeterminate e dev VRAM_REGISTER_OFFSET = 0.

Fixpoint get_gpu_temps_scan_value (env : Env) (e : CycleEnv)
  (devs : list Pci.pci_dev) (gpu : GpuDevice) : Z * GpuDevice :=
  match devs with
  | [] => (-1, gpu)
  | dev :: next =>
      if pci_mismatch dev (pci_info gpu)
      then get_gpu_temps_scan_value env e next gpu
      else get_gpu_temps_read_value env e dev gpu
  end.

Definition get_device_handle_value (e : CycleEnv) (index : Z)
  (device : nvmlDevice_t) : Z * nvmlDevice_t :=
  let (r, d) := nvmlDeviceGetHandleByIndex e index in
  if negb (NVML_SUCCESS =? r) then (-1, device) else (0, d).

Definition get_gpu_temp_value (e : CycleEnv) (device : nvmlDevice_t)
  (temp : Z) : Z * Z :=
  let (r, t) := nvmlDeviceGetTemperature e device in
  if negb (NVML_SUCCESS =? r) then (-1, temp) else (0, u32 t).

Definition get_device_pci_info_value (e : CycleEnv) (device : nvmlDevice_t)
  (pci_info : Nvml.nvmlPciInfo_t) : Z * Nvml.nvmlPciInfo_t :=
  let (r, p) := nvmlDeviceGetPciInfo e device in
  if negb (NVML_SUCCESS =? r) then (-1, pci_info) else (0, p).

Definition get_gpu_temps_value (env : Env) (e : CycleEnv)
  (devs : list Pci.pci_dev) (index : Z) (gpu : GpuDevice) : Z * GpuDevice :=
  let h := get_device_handle_value e index (device gpu) in
  let gpu := mkGpu (snd h) (pci_info gpu) (gpu_temp gpu)
                   (junction_temp gpu) (vram_temp gpu) in
  if fst h <? 0 then (-1, gpu)
  else
    let t := get_gpu_temp_value e (device gpu) (gpu_temp gpu) in
    let gpu := mkGpu (device gpu) (pci_info gpu) (snd t)
                     (junction_temp gpu) (vram_temp gpu) in
    if fst t <? 0 then (-1, gpu)
    else
      let p := get_device_pci_info_value e (device gpu) (pci_info gpu) in
      let gpu := mkGpu (device gpu) (snd p) (gpu_temp gpu)
                       (junction_temp gpu) (vram_temp gpu) in
      if fst p <? 0 then (-1, gpu)
      else get_gpu_temps_scan_value env e devs gpu.

(** Descriptors opened and closed, windows mapped and unmapped. *)
Definition opened (l : list event) : nat :=
  List.length (filter (fun ev => match ev with Open _ true => true | _ => false end) l).
Definition closed (l : list event) : nat :=
  List.length (filter (fun ev => match ev with Close => true | _ => false end) l).
Definition mapped (l : list event) : nat :=
  List.length (filter (fun ev => match ev with Mmap _ _ true => true | _ => false end) l).
Definition unmapped (l : list event) : nat :=
  List.length (filter (fun ev => match ev with Munmap _ => true | _ => false end) l).

Definition balanced (l : list event) : Prop :=
  opened l = closed l /\ mapped l = unmapped l.

(** The text written to standard output by a run of events. *)
Fixpoint stdout_text (l : list event) : string :=
  match l with
  | [] => EmptyString
  | Stdout s :: r => s ++ stdout_text r
  | _ :: r => stdout_text r
  end.

(** The record of one device in the output of [monitor_temperatures_json]
    and the text that opens the output of a cycle. *)
Definition json_record_text (index : Z) (gpu : GpuDevice) : string :=
  "{" ++ DQ ++ "index" ++ DQ ++ ":" ++ fmt_u index
  ++ "," ++ DQ ++ "core" ++ DQ ++ ":" ++ fmt_u (gpu_temp gpu)
  ++ "," ++ DQ ++ "junction" ++ DQ ++ ":" ++ fmt_u (junction_temp gpu)
  ++ "," ++ DQ ++ "vram" ++ DQ ++ ":" ++ fmt_u (vram_temp gpu)
  ++ "}".

Definition json_opening_text (now : Z) : string :=
  "{" ++ DQ ++ "timestamp" ++ DQ ++ ":" ++ fmt_d now
  ++ "," ++ DQ ++ "gpus" ++ DQ ++ ":[".

(** A text without zero bytes, as [printf] formats produce them. *)
Definition no_nul (t : string) : bool :=
  forallb (fun c => negb (Ascii.eqb c zero)) (list_ascii_of_string t).

(** The output buffer holds the text [t] from its start, and the write
    position is at the end of [t], within the buffer. *)
Definition buffer_holds (c : Context) (t : string) : Prop :=
  List.length (output_buffer c) = Z.to_nat BUFFER_SIZE
  /\ buffer_pos c = strlen t
  /\ strlen t < BUFFER_SIZE
  /\ no_nul t = true
  /\ firstn (String.length t) (output_buffer c) = list_ascii_of_string t.

(** The output buffer has its full size, the write position is before its
    last byte and a zero byte ends the text in it. *)
Definition buffer_terminated (c : Context) : Prop :=
  List.length (output_buffer c) = Z.to_nat BUFFER_SIZE
  /\ 0 <= buffer_pos c < BUFFER_SIZE
  /\ In zero (output_buffer c).

(** The texts of a table frame around the rows: the line with the refresh
    marker and the column heads, and the sequence that moves the cursor up
    again. *)
Definition table_header_text (rc : Z) : string :=
  (NL ++ (if rc =? 0 then "* " else "  "))
  ++ (SEPARATOR ++ "  CORE  " ++ SEPARATOR ++ "  JUNC  "
      ++ SEPARATOR ++ "  VRAM  " ++ SEPARATOR ++ NL).

Definition cursor_up_text (lines : Z) : string :=
  ESC ++ "[" ++ fmt_d lines ++ "A".






(** The calls that set up and shut down the two libraries. *)
Definition is_library_call (ev : event) : bool :=
  match ev with
  | PciAlloc | PciCleanup | NvmlInit | NvmlShutdown => true
  | _ => false
  end.

(** The process gets as far as the initialisation of the libraries: the
    arguments are mode flags, the terminal could be switched if the table
    was asked for, and the user is root. *)
Definition reaches_libraries (env : Env) (argv : list string) : bool :=
  forallb is_mode_flag (tl argv)
  && (existsb (String.eqb "--json") (tl argv)
      || negb (tcgetattr_result env <? 0) && negb (tcsetattr_result env <? 0))
  && (geteuid env =? 0).

(** The calls that set up and shut down the libraries in a run that gets
    as far as their initialisation. *)
Definition library_calls (env : Env) : list event :=
  PciAlloc
  :: (if pci_alloc_ok env
      then NvmlInit
           :: (if NVML_SUCCESS =? nvmlInit env then [NvmlShutdown] else [])
           ++ [PciCleanup]
      else []).

(** The calls that reach a device: the queries of the management library
    about one device, the filling of PCI records and the accesses to
    physical memory. *)
Definition is_device_access (ev : event) : bool :=
  match ev with
  | NvmlDeviceGetHandleByIndex _ | NvmlDeviceGetTemperature _
  | NvmlDeviceGetPciInfo _ | PciFillInfo _
  | Open _ _ | Mmap _ _ _ | Load32 _ | Munmap _ | Close => true
  | _ => false
  end.

(** The events of the wait for console input. *)
Definition is_input_event (ev : event) : bool :=
  match ev with
  | Select _ | ReadStdin => true
  | _ => false
  end.

(** What the table loop writes when it ends normally, for [n] devices. *)
Definition table_exit_events (n : Z) : list event :=
  [Stdout (ESC ++ "[" ++ fmt_d (s32 (u32 (n + 2))) ++ "B"); Stdout NL; Fflush].

(** * Properties *)

(** ** Machine arithmetic *)

Lemma u32_small (z : Z) : 0 <= z < 2 ^ 32 -> u32 z = z.
Proof. intros H. unfold u32. now apply Z.mod_small. Qed.

Lemma u32_range (z : Z) : 0 <= u32 z < 2 ^ 32.
Proof. unfold u32. apply Z.mod_pos_bound. lia. Qed.

Lemma u64_small (z : Z) : 0 <= z < 2 ^ 64 -> u64 z = z.
Proof. intros H. unfold u64. now apply Z.mod_small. Qed.

Lemma s32_small (z : Z) : - 2 ^ 31 <= z < 2 ^ 31 -> s32 z = z.
Proof.
  unfold s32.
  change (2 ^ 31) with 2147483648. change (2 ^ 32) with 4294967296.
  intros H. rewrite Z.mod_small; lia.
Qed.

Lemma land_byte_range (z : Z) : 0 <= Z.land z 0xff <= 255.
Proof.
  assert (Z.land z 0xff = z mod 256) as ->
    by (apply (Z.land_ones z 8); lia).
  pose proof (Z.mod_pos_bound z 256). lia.
Qed.

Lemma land_12_div_32_range (z : Z) : 0 <= Z.land z 0xfff / 0x20 <= 127.
Proof.
  assert (Z.land z 0xfff = z mod 4096) as ->
    by (apply (Z.land_ones z 12); lia).
  pose proof (Z.mod_pos_bound z 4096).
  split.
  - apply Z.div_pos; lia.
  - enough (z mod 4096 / 32 < 128) by lia.
    apply Z.div_lt_upper_bound; lia.
Qed.

(** Masking with the complement of [2^k - 1] rounds down to a multiple of
    [2^k]. *)
Lemma land_lnot_page (a k : Z) :
  0 <= k -> Z.land a (Z.lnot (2 ^ k - 1)) = 2 ^ k * (a / 2 ^ k).
Proof.
  intros Hk.
  rewrite <- Z.ldiff_land.
  rewrite Z.sub_1_r, <- Z.ones_equiv.
  rewrite Z.ldiff_ones_r by assumption.
  rewrite Z.shiftl_mul_pow2, Z.shiftr_div_pow2 by assumption.
  apply Z.mul_comm.
Qed.

(** ** The state monad *)

Lemma add_trace_app (s : State) (l1 l2 : list event) :
  add_trace (add_trace s l1) l2 = add_trace s (l1 ++ l2).
Proof. unfold add_trace; simpl. now rewrite <- app_assoc. Qed.

Lemma add_trace_nil (s : State) : add_trace s [] = s.
Proof. destruct s; unfold add_trace; simpl. now rewrite app_nil_r. Qed.

Ltac step :=
  unfold eprintf, printf, fflush_stdout;
  unfold bind, ret, emit, get_ctx, set_ctx;
  cbn beta iota.

(** ** Register reader *)

Lemma reg_addr_range (dev : Pci.pci_dev) (offset : Z) :
  0 <= reg_addr dev offset < 2 ^ 32.
Proof. apply u32_range. Qed.

(** When the base address and its sum with the offset fit in 32 bits the
    target is that sum. *)
Lemma reg_addr_sum (dev : Pci.pci_dev) (offset : Z) :
  0 <= Pci.base_addr0 dev -> 0 <= offset ->
  Pci.base_addr0 dev + offset < 2 ^ 32 ->
  reg_addr dev offset = Pci.base_addr0 dev + offset.
Proof.
  intros Hb Ho Hs. unfold reg_addr.
  assert (Z.land (Pci.base_addr0 dev) 0xFFFFFFFF = Pci.base_addr0 dev mod 2 ^ 32)
    as -> by (apply (Z.land_ones _ 32); lia).
  change (2 ^ 32) with 4294967296 in *.
  rewrite (Z.mod_small (Pci.base_addr0 dev)) by lia.
  rewrite u64_small by (change (2 ^ 64) with 18446744073709551616; lia).
  apply u32_small; change (2 ^ 32) with 4294967296; lia.
Qed.

Lemma base_offset_floor (env : Env) (dev : Pci.pci_dev) (offset k : Z) :
  0 <= k -> PG_SZ env = 2 ^ k ->
  base_offset env dev offset
  = PG_SZ env * (reg_addr dev offset / PG_SZ env).
Proof.
  intros Hk Hpg. unfold base_offset. rewrite Hpg.
  rewrite land_lnot_page by assumption.
  pose proof (reg_addr_range dev offset) as Hr.
  assert (0 < 2 ^ k) as Hp by (apply Z.pow_pos_nonneg; lia).
  pose proof (Z.mul_div_le (reg_addr dev offset) (2 ^ k) Hp).
  assert (0 <= reg_addr dev offset / 2 ^ k) by (apply Z.div_pos; lia).
  apply u32_small. nia.
Qed.

Lemma window_offset_mod (env : Env) (dev : Pci.pci_dev) (offset k : Z) :
  0 <= k -> PG_SZ env = 2 ^ k ->
  u32 (reg_addr dev offset - base_offset env dev offset)
  = reg_addr dev offset - base_offset env dev offset
  /\ 0 <= reg_addr dev offset - base_offset env dev offset < PG_SZ env.
Proof.
  intros Hk Hpg.
  rewrite (base_offset_floor env dev offset k Hk Hpg).
  pose proof (reg_addr_range dev offset) as Hr.
  assert (0 < PG_SZ env) as Hp by (rewrite Hpg; apply Z.pow_pos_nonneg; lia).
  pose proof (Z.mod_pos_bound (reg_addr dev offset) (PG_SZ env) Hp) as Hm.
  assert (PG_SZ env <> 0) as Hnz by lia.
  pose proof (Z.div_mod (reg_addr dev offset) (PG_SZ env) Hnz) as Hd.
  pose proof (Z.mod_le (reg_addr dev offset) (PG_SZ env) (proj1 Hr) Hp) as Hle.
  assert (reg_addr dev offset - PG_SZ env * (reg_addr dev offset / PG_SZ env)
          = reg_addr dev offset mod PG_SZ env) as -> by lia.
  split; [apply u32_small; lia | lia].
Qed.

(** What [read_register_temp] does on each of its three paths. *)
Lemma read_register_temp_open_fails env e dev offset temp s :
  open_ok e dev offset = false ->
  read_register_temp env e dev offset temp s
  = ((Some (-1), temp),
     add_trace s [Open MEM_PATH false;
                  Stderr ("Failed to open " ++ MEM_PATH ++ ": "
                          ++ strerror_errno e ++ NL)]).
Proof.
  intros Ho. unfold read_register_temp. step. rewrite Ho. cbn.
  now rewrite add_trace_app.
Qed.

Lemma read_register_temp_mmap_fails env e dev offset temp s :
  open_ok e dev offset = true ->
  mmap_ok e dev offset (base_offset env dev offset) = false ->
  read_register_temp env e dev offset temp s
  = ((Some (-1), temp),
     add_trace s [Open MEM_PATH true;
                  Mmap (PG_SZ env) (base_offset env dev offset) false;
                  Stderr ("Failed to map memory: " ++ strerror_errno e ++ NL);
                  Close]).
Proof.
  intros Ho Hm. unfold read_register_temp. step. rewrite Ho. cbn.
  rewrite Hm. cbn. now rewrite !add_trace_app.
Qed.

Lemma read_register_temp_mapped env e dev offset temp s :
  open_ok e dev offset = true ->
  mmap_ok e dev offset (base_offset env dev offset) = true ->
  read_register_temp env e dev offset temp s
  = ((None,
      decode_temp offset (reg_value env e dev offset) temp),
     add_trace s [Open MEM_PATH true;
                  Mmap (PG_SZ env) (base_offset env dev offset) true;
                  Load32 (u32 (reg_addr dev offset - base_offset env dev offset));
                  Munmap (PG_SZ env);
                  Close]).
Proof.
  intros Ho Hm. unfold read_register_temp. step. rewrite Ho. cbn.
  rewrite Hm. cbn. now rewrite !add_trace_app.
Qed.

Lemma decode_temp_hotspot (raw temp : Z) :
  decode_temp HOTSPOT_REGISTER_OFFSET raw temp = Z.land (Z.shiftr raw 8) 0xFF.
Proof. reflexivity. Qed.

Lemma decode_temp_vram (raw temp : Z) :
  decode_temp VRAM_REGISTER_OFFSET raw temp = Z.land raw 0xFFF / 32.
Proof. reflexivity. Qed.

(** C1.  For every raw word the junction/hotspot decoding is
    [(raw >> 8) & 0xFF], a value between 0 and 255, and the VRAM decoding is
    [(raw & 0xFFF) / 32], a value between 0 and 127; and these are the values
    a read of the respective register stores, whatever 32-bit word [raw] the
    register holds, when its page has been mapped. *)
Theorem C1_register_decode :
  forall raw temp,
    (decode_temp HOTSPOT_REGISTER_OFFSET raw temp = Z.land (Z.shiftr raw 8) 0xFF
     /\ 0 <= decode_temp HOTSPOT_REGISTER_OFFSET raw temp <= 255)
    /\ (decode_temp VRAM_REGISTER_OFFSET raw temp = Z.land raw 0xFFF / 32
        /\ 0 <= decode_temp VRAM_REGISTER_OFFSET raw temp <= 127)
    /\ (forall env e dev s,
           0 <= raw < 2 ^ 32 ->
           (open_ok e dev HOTSPOT_REGISTER_OFFSET = true ->
            mmap_ok e dev HOTSPOT_REGISTER_OFFSET
              (base_offset env dev HOTSPOT_REGISTER_OFFSET) = true ->
            reg_value env e dev HOTSPOT_REGISTER_OFFSET = raw ->
            snd (fst (read_register_temp env e dev
                        HOTSPOT_REGISTER_OFFSET temp s))
            = Z.land (Z.shiftr raw 8) 0xFF)
           /\ (open_ok e dev VRAM_REGISTER_OFFSET = true ->
               mmap_ok e dev VRAM_REGISTER_OFFSET
                 (base_offset env dev VRAM_REGISTER_OFFSET) = true ->
               reg_value env e dev VRAM_REGISTER_OFFSET = raw ->
               snd (fst (read_register_temp env e dev
                           VRAM_REGISTER_OFFSET temp s))
               = Z.land raw 0xFFF / 32)).
Proof.
  intros raw temp.
  split; [rewrite decode_temp_hotspot; split;
          [reflexivity | apply land_byte_range]|].
  split; [rewrite decode_temp_vram; split;
          [reflexivity | apply land_12_div_32_range]|].
  intros env e dev s _. split; intros Hopen Hmap Hraw.
  - rewrite read_register_temp_mapped by assumption. cbn [fst snd].
    now rewrite Hraw.
  - rewrite read_register_temp_mapped by assumption. cbn [fst snd].
    now rewrite Hraw.
Qed.

Lemma C1_register_decode_witness :
  snd (fst (read_register_temp (sample_env 1) (sample_cycle 1 0 0 0) sample_gpu
              HOTSPOT_REGISTER_OFFSET 0 initial_state)) = 50
  /\ snd (fst (read_register_temp (sample_env 1) (sample_cycle 1 0 0 0) sample_gpu
                 VRAM_REGISTER_OFFSET 0 initial_state)) = 30.
Proof.
  assert (0 <= 0x3200 < 2 ^ 32) as Hj by (split; [easy | reflexivity]).
  assert (0 <= 965 < 2 ^ 32) as Hv by (split; [easy | reflexivity]).
  split.
  - apply (proj1 (proj2 (proj2 (C1_register_decode 0x3200 0))
                    (sample_env 1) (sample_cycle 1 0 0 0) sample_gpu
                    initial_state Hj));
      reflexivity.
  - apply (proj2 (proj2 (proj2 (C1_register_decode 965 0))
                    (sample_env 1) (sample_cycle 1 0 0 0) sample_gpu
                    initial_state Hv));
      reflexivity.
Defined.

(** C4.  The value [read_register_temp] returns: [-1] exactly when the
    accessor cannot be opened or the page cannot be mapped, and no value at
    all when the mapping succeeds, since control then reaches the end of the
    function without a [return] statement. *)
Theorem C4_read_register_temp_result :
  forall env e dev offset temp s,
    fst (fst (read_register_temp env e dev offset temp s))
    = if open_ok e dev offset
         && mmap_ok e dev offset (base_offset env dev offset)
      then None else Some (-1).
Proof.
  intros env e dev offset temp s.
  destruct (open_ok e dev offset) eqn:Ho.
  - destruct (mmap_ok e dev offset (base_offset env dev offset)) eqn:Hm.
    + now rewrite read_register_temp_mapped.
    + now rewrite read_register_temp_mmap_fails.
  - now rewrite read_register_temp_open_fails.
Qed.

(** On the path where the mapping succeeds the window is unmapped, the
    accessor closed and the decoded temperature stored. *)
Lemma read_register_temp_releases env e dev offset temp s :
  open_ok e dev offset = true ->
  mmap_ok e dev offset (base_offset env dev offset) = true ->
  let r := read_register_temp env e dev offset temp s in
  snd (fst r) = decode_temp offset (reg_value env e dev offset) temp
  /\ exists before, trace (snd r) = before ++ [Munmap (PG_SZ env); Close].
Proof.
  intros Ho Hm r. subst r. rewrite read_register_temp_mapped by assumption.
  split; [reflexivity|].
  exists (trace s ++ [Open MEM_PATH true;
                      Mmap (PG_SZ env) (base_offset env dev offset) true;
                      Load32 (u32 (reg_addr dev offset
                                   - base_offset env dev offset))]).
  cbn. now rewrite <- app_assoc.
Qed.

(** With both reads mapped and decoded, the sampler still reports failure
    when the value it finds in place of the missing return value is not 0. *)
Lemma sampler_fails_after_successful_reads :
  let r := get_gpu_temps (sample_env 1) (sample_cycle 1 1 0 0) 0 GpuDevice_zero
             (mkState (with_pacc Context_zero
                         (Some (pci_devices (sample_env 1)))) 0 [] [])
  in fst (fst r) = -1
     /\ junction_temp (snd (fst r)) = 50
     /\ In (Mmap 4096 0xF6020000 true) (trace (snd r))
     /\ ~ In (Mmap 4096 0xF600E000 true) (trace (snd r)).
Proof.
  vm_compute. repeat split; try reflexivity.
  - do 6 right. left. reflexivity.
  - intros H. repeat (destruct H as [H | H]; [discriminate H|]). exact H.
Qed.

(** With both pages mapped the sampler's verdict rests on the value found
    in place of the missing return value: success if it is 0, failure
    otherwise. *)
Lemma get_gpu_temps_read_mapped env e dev gpu s :
  open_ok e dev HOTSPOT_REGISTER_OFFSET = true ->
  mmap_ok e dev HOTSPOT_REGISTER_OFFSET
    (base_offset env dev HOTSPOT_REGISTER_OFFSET) = true ->
  open_ok e dev VRAM_REGISTER_OFFSET = true ->
  mmap_ok e dev VRAM_REGISTER_OFFSET
    (base_offset env dev VRAM_REGISTER_OFFSET) = true ->
  fst (fst (get_gpu_temps_read env e dev gpu s))
  = if (indeterminate e dev HOTSPOT_REGISTER_OFFSET =? 0)
       && (indeterminate e dev VRAM_REGISTER_OFFSET =? 0)
    then 0 else -1.
Proof.
  intros Hoj Hj Hov Hv. unfold get_gpu_temps_read. unfold bind at 1.
  rewrite read_register_temp_mapped by assumption.
  cbn [fst snd int_result].
  destruct (indeterminate e dev HOTSPOT_REGISTER_OFFSET =? 0);
    cbn [negb andb]; [|reflexivity].
  unfold bind at 1.
  rewrite read_register_temp_mapped by assumption.
  cbn [fst snd int_result].
  destruct (indeterminate e dev VRAM_REGISTER_OFFSET =? 0); reflexivity.
Qed.

(** C5 (as amended).  With [target] the 32-bit sum of the low 32 bits of the
    base address and the register offset (the plain sum whenever that fits
    in 32 bits) and a page size that is a power of two, the window mapped by
    [read_register_temp] starts at the page floor of [target], is one page
    long, and the word is read at [target - page_floor target] within it,
    that is, at physical address [target]. *)
Theorem C5_window_page_floor :
  forall env e dev offset temp s k,
    0 <= k -> PG_SZ env = 2 ^ k ->
    open_ok e dev offset = true ->
    let target := reg_addr dev offset in
    let page_floor := PG_SZ env * (target / PG_SZ env) in
    (0 <= Pci.base_addr0 dev -> 0 <= offset ->
     Pci.base_addr0 dev + offset < 2 ^ 32 ->
     target = Pci.base_addr0 dev + offset)
    /\ 0 <= target - page_floor < PG_SZ env
    /\ (mmap_ok e dev offset page_floor = true ->
        trace (snd (read_register_temp env e dev offset temp s))
        = trace s ++ [Open MEM_PATH true;
                      Mmap (PG_SZ env) page_floor true;
                      Load32 (target - page_floor);
                      Munmap (PG_SZ env);
                      Close]
        /\ reg_value env e dev offset = u32 (phys_word e target))
    /\ (mmap_ok e dev offset page_floor = false ->
        trace (snd (read_register_temp env e dev offset temp s))
        = trace s ++ [Open MEM_PATH true;
                      Mmap (PG_SZ env) page_floor false;
                      Stderr ("Failed to map memory: "
                              ++ strerror_errno e ++ NL);
                      Close]).
Proof.
  intros env e dev offset temp s k Hk Hpg Hopen target page_floor.
  pose proof (base_offset_floor env dev offset k Hk Hpg) as Hfloor.
  destruct (window_offset_mod env dev offset k Hk Hpg) as [Hw Hrange].
  fold target in Hfloor, Hw, Hrange. fold page_floor in Hfloor.
  rewrite Hfloor in Hw, Hrange.
  split; [apply reg_addr_sum|].
  split; [exact Hrange|].
  split; intros Hmap.
  - rewrite read_register_temp_mapped by (rewrite ?Hfloor; assumption).
    unfold reg_value. fold target. rewrite Hfloor, Hw. cbn [snd trace add_trace].
    split; [reflexivity|].
    f_equal. f_equal. lia.
  - rewrite read_register_temp_mmap_fails by (rewrite ?Hfloor; assumption).
    rewrite Hfloor. reflexivity.
Qed.

Lemma C5_window_page_floor_witness :
  reg_addr sample_gpu HOTSPOT_REGISTER_OFFSET = 0xF602046C
  /\ trace (snd (read_register_temp (sample_env 1) (sample_cycle 1 0 0 0)
                   sample_gpu HOTSPOT_REGISTER_OFFSET 0 initial_state))
     = [Open MEM_PATH true; Mmap 4096 0xF6020000 true; Load32 0x46C;
        Munmap 4096; Close].
Proof.
  pose proof (C5_window_page_floor (sample_env 1) (sample_cycle 1 0 0 0)
                sample_gpu HOTSPOT_REGISTER_OFFSET 0 initial_state 12
                ltac:(lia) eq_refl eq_refl) as H.
  cbv zeta in H. destruct H as (Hsum & _ & Hok & _).
  split.
  - rewrite Hsum; first [reflexivity | easy].
  - apply Hok. reflexivity.
Defined.

(** C5, as stated, fails for a base address beyond 32 bits: with region 0 at
    4 GiB the target [base + offset] is 0x10002046C, whose page floor is
    0x100020000, and the window is mapped at 0x20000. *)
Lemma C5_counterexample :
  let dev := Pci.mk 0x10DE 0x2204 0 1 0 0x100000000 in
  let target := Pci.base_addr0 dev + HOTSPOT_REGISTER_OFFSET in
  trace (snd (read_register_temp (sample_env 1) (sample_cycle 1 0 0 0)
                dev HOTSPOT_REGISTER_OFFSET 0 initial_state))
  = [Open MEM_PATH true; Mmap 4096 0x20000 true; Load32 0x46C;
     Munmap 4096; Close]
  /\ 4096 * (target / 4096) = 0x100020000
  /\ 4096 * (target / 4096) <> 0x20000.
Proof.
  cbv zeta. split; [reflexivity|]. split; [reflexivity|].
  vm_compute. discriminate.
Qed.

(** ** Colour bands *)

Lemma get_temp_color_red (temp warn danger : Z) :
  danger <= temp -> get_temp_color temp warn danger = COLOR_RED.
Proof.
  intros H. unfold get_temp_color.
  destruct (Z.leb_spec danger temp); [reflexivity | lia].
Qed.

Lemma get_temp_color_yellow (temp warn danger : Z) :
  warn <= temp < danger -> get_temp_color temp warn danger = COLOR_YELLOW.
Proof.
  intros H. unfold get_temp_color.
  destruct (Z.leb_spec danger temp); [lia|].
  destruct (Z.leb_spec warn temp); [reflexivity | lia].
Qed.

Lemma get_temp_color_green (temp warn danger : Z) :
  temp < warn -> temp < danger -> get_temp_color temp warn danger = COLOR_GREEN.
Proof.
  intros H1 H2. unfold get_temp_color.
  destruct (Z.leb_spec danger temp); [lia|].
  destruct (Z.leb_spec warn temp); [lia | reflexivity].
Qed.

Lemma colors_distinct :
  COLOR_GREEN <> COLOR_YELLOW /\ COLOR_YELLOW <> COLOR_RED
  /\ COLOR_GREEN <> COLOR_RED.
Proof. repeat split; discriminate. Qed.

(** C7.  The colour of a temperature is chosen by inclusive lower bounds.
    Core: green (normal) below 70, yellow (warn) from 70, red (danger) from
    85.  Junction and VRAM: green below 80, yellow from 80, red from 95.
    The three colours are distinct sequences, so 69, 70 and 85 degrees of
    core temperature are shown as normal, warn and danger. *)
Theorem C7_temp_bands :
  forall temp,
    ((temp < 70 ->
      get_temp_color temp GPU_TEMP_WARN GPU_TEMP_DANGER = COLOR_GREEN)
     /\ (70 <= temp < 85 ->
         get_temp_color temp GPU_TEMP_WARN GPU_TEMP_DANGER = COLOR_YELLOW)
     /\ (85 <= temp ->
         get_temp_color temp GPU_TEMP_WARN GPU_TEMP_DANGER = COLOR_RED))
    /\ ((temp < 80 ->
         get_temp_color temp JUNCTION_TEMP_WARN JUNCTION_TEMP_DANGER = COLOR_GREEN)
        /\ (80 <= temp < 95 ->
            get_temp_color temp JUNCTION_TEMP_WARN JUNCTION_TEMP_DANGER
            = COLOR_YELLOW)
        /\ (95 <= temp ->
            get_temp_color temp JUNCTION_TEMP_WARN JUNCTION_TEMP_DANGER
            = COLOR_RED))
    /\ ((temp < 80 ->
         get_temp_color temp VRAM_TEMP_WARN VRAM_TEMP_DANGER = COLOR_GREEN)
        /\ (80 <= temp < 95 ->
            get_temp_color temp VRAM_TEMP_WARN VRAM_TEMP_DANGER = COLOR_YELLOW)
        /\ (95 <= temp ->
            get_temp_color temp VRAM_TEMP_WARN VRAM_TEMP_DANGER = COLOR_RED))
    /\ (COLOR_GREEN <> COLOR_YELLOW /\ COLOR_YELLOW <> COLOR_RED
        /\ COLOR_GREEN <> COLOR_RED).
Proof.
  intros temp.
  unfold GPU_TEMP_WARN, GPU_TEMP_DANGER, JUNCTION_TEMP_WARN,
    JUNCTION_TEMP_DANGER, VRAM_TEMP_WARN, VRAM_TEMP_DANGER.
  repeat match goal with
         | |- _ /\ _ => split
         | |- _ -> _ = COLOR_GREEN => intros ?; apply get_temp_color_green; lia
         | |- _ -> _ = COLOR_YELLOW => intros ?; apply get_temp_color_yellow; lia
         | |- _ -> _ = COLOR_RED => intros ?; apply get_temp_color_red; lia
         end; apply colors_distinct.
Qed.

Lemma C7_temp_bands_witness :
  get_temp_color 69 GPU_TEMP_WARN GPU_TEMP_DANGER = COLOR_GREEN
  /\ get_temp_color 70 GPU_TEMP_WARN GPU_TEMP_DANGER = COLOR_YELLOW
  /\ get_temp_color 85 GPU_TEMP_WARN GPU_TEMP_DANGER = COLOR_RED
  /\ get_temp_color 79 JUNCTION_TEMP_WARN JUNCTION_TEMP_DANGER = COLOR_GREEN
  /\ get_temp_color 80 JUNCTION_TEMP_WARN JUNCTION_TEMP_DANGER = COLOR_YELLOW
  /\ get_temp_color 95 VRAM_TEMP_WARN VRAM_TEMP_DANGER = COLOR_RED.
Proof.
  split; [apply (proj1 (proj1 (C7_temp_bands 69))); lia|].
  split; [apply (proj1 (proj2 (proj1 (C7_temp_bands 70)))); lia|].
  split; [apply (proj2 (proj2 (proj1 (C7_temp_bands 85)))); lia|].
  split; [apply (proj1 (proj1 (proj2 (C7_temp_bands 79)))); lia|].
  split; [apply (proj1 (proj2 (proj1 (proj2 (C7_temp_bands 80))))); lia|].
  apply (proj2 (proj2 (proj1 (proj2 (proj2 (C7_temp_bands 95)))))); lia.
Defined.

(** The row of the table uses these thresholds for its three columns. *)
Lemma print_gpu_info_text_colors (index : Z) (gpu : GpuDevice) :
  print_gpu_info_text index gpu
  = (fmt_u index ++ " " ++ SEPARATOR ++ " "
    ++ get_temp_color (gpu_temp gpu) 70 85
    ++ fmt_3u (gpu_temp gpu) ++ DEGREE ++ "C" ++ COLOR_RESET ++ "  "
    ++ SEPARATOR ++ " "
    ++ get_temp_color (junction_temp gpu) 80 95
    ++ fmt_3u (junction_temp gpu) ++ DEGREE ++ "C" ++ COLOR_RESET ++ "  "
    ++ SEPARATOR ++ " "
    ++ get_temp_color (vram_temp gpu) 80 95
    ++ fmt_3u (vram_temp gpu) ++ DEGREE ++ "C" ++ COLOR_RESET ++ "  "
    ++ SEPARATOR ++ NL)%string.
Proof. reflexivity. Qed.

(** ** Output buffer *)

Lemma upd_nth_length {A} (l : list A) (n : nat) (a : A) :
  List.length (upd_nth l n a) = List.length l.
Proof.
  revert n. induction l as [|x l IH]; intros [|n]; simpl; auto.
Qed.

Lemma upd_nth_firstn {A} (l : list A) (n p : nat) (a : A) :
  (p <= n)%nat -> firstn p (upd_nth l n a) = firstn p l.
Proof.
  revert n p. induction l as [|x l IH]; intros n p Hp.
  - destruct n; reflexivity.
  - destruct n as [|n].
    + assert (p = 0%nat) as -> by lia. reflexivity.
    + destruct p as [|p]; [reflexivity|].
      simpl. f_equal. apply IH. lia.
Qed.

Lemma store_byte_length (buf : list ascii) (st : Z * ascii) :
  List.length (store_byte buf st) = List.length buf.
Proof.
  destruct st as [i c]. unfold store_byte.
  destruct (_ && _); [apply upd_nth_length | reflexivity].
Qed.

Lemma store_byte_firstn (buf : list ascii) (st : Z * ascii) (p : Z) :
  0 <= p <= fst st ->
  firstn (Z.to_nat p) (store_byte buf st) = firstn (Z.to_nat p) buf.
Proof.
  destruct st as [i c]. simpl. intros H. unfold store_byte.
  destruct (_ && _); [|reflexivity].
  apply upd_nth_firstn. lia.
Qed.

Lemma fold_store_length (l : list (Z * ascii)) (buf : list ascii) :
  List.length (fold_left store_byte l buf) = List.length buf.
Proof.
  revert buf. induction l as [|st l IH]; intros buf; simpl; [reflexivity|].
  rewrite IH. apply store_byte_length.
Qed.

Lemma fold_store_firstn (l : list (Z * ascii)) (buf : list ascii) (p : Z) :
  0 <= p -> (forall st, In st l -> p <= fst st) ->
  firstn (Z.to_nat p) (fold_left store_byte l buf) = firstn (Z.to_nat p) buf.
Proof.
  intros Hp. revert buf.
  induction l as [|st l IH]; intros buf H; simpl; [reflexivity|].
  rewrite IH by (intros; apply H; now right).
  apply store_byte_firstn. split; [assumption|]. apply H. now left.
Qed.

Lemma stores_from_In (pos : Z) (l : list ascii) (i : Z) (c : ascii) :
  In (i, c) (stores_from pos l) ->
  pos <= i < pos + Z.of_nat (List.length l).
Proof.
  revert pos. induction l as [|x l IH]; intros pos H; simpl in *.
  - contradiction.
  - destruct H as [H | H].
    + inversion H; subst. lia.
    + apply IH in H. lia.
Qed.

(** The stores of [vsnprintf] stay within [size] bytes from [pos]. *)
Lemma vsnprintf_stores_range (pos size : Z) (s : string) (i : Z) (c : ascii) :
  0 <= size ->
  In (i, c) (vsnprintf_stores pos size s) -> pos <= i < pos + size.
Proof.
  intros Hsize. unfold vsnprintf_stores.
  destruct (Z.eqb_spec size 0) as [|Hnz]; [contradiction|].
  intros H. apply in_app_or in H.
  assert (0 <= strlen s) as Hlen by (unfold strlen; lia).
  destruct H as [H | [H | []]].
  - apply stores_from_In in H.
    pose proof (firstn_le_length
                  (Z.to_nat (Z.min (strlen s) (size - 1)))
                  (list_ascii_of_string s)) as Hf.
    lia.
  - inversion H; subst. lia.
Qed.

Lemma remaining_exact (c : Context) :
  0 <= buffer_pos c <= BUFFER_SIZE ->
  s32 (u64 (BUFFER_SIZE - buffer_pos c)) = BUFFER_SIZE - buffer_pos c
  /\ u64 (s32 (u64 (BUFFER_SIZE - buffer_pos c))) = BUFFER_SIZE - buffer_pos c.
Proof.
  unfold BUFFER_SIZE. intros H.
  assert (u64 (1024 - buffer_pos c) = 1024 - buffer_pos c) as E1
    by (apply u64_small; change (2 ^ 64) with 18446744073709551616; lia).
  assert (s32 (1024 - buffer_pos c) = 1024 - buffer_pos c) as E2
    by (apply s32_small; change (2 ^ 31) with 2147483648; lia).
  rewrite E1, E2, E1. split; reflexivity.
Qed.

Lemma s32_range (z : Z) : - 2 ^ 31 <= s32 z < 2 ^ 31.
Proof.
  unfold s32.
  change (2 ^ 31) with 2147483648. change (2 ^ 32) with 4294967296.
  pose proof (Z.mod_pos_bound (z + 2147483648) 4294967296). lia.
Qed.

Lemma vsnprintf_result_cases (s : string) :
  (vsnprintf_result s = strlen s /\ strlen s < 2 ^ 31)
  \/ (vsnprintf_result s = -1 /\ 2 ^ 31 <= strlen s).
Proof.
  unfold vsnprintf_result.
  destruct (Z.ltb_spec (strlen s) (2 ^ 31)); [left | right]; split;
    first [reflexivity | assumption].
Qed.

Lemma buffer_append_ctx_inv (c : Context) (s : string) :
  0 <= buffer_pos c <= BUFFER_SIZE ->
  List.length (output_buffer c) = Z.to_nat BUFFER_SIZE ->
  0 <= buffer_pos (buffer_append_ctx c s) <= BUFFER_SIZE
  /\ List.length (output_buffer (buffer_append_ctx c s)) = Z.to_nat BUFFER_SIZE.
Proof.
  intros Hpos Hlen.
  destruct (remaining_exact c Hpos) as [Hrem _].
  unfold buffer_append_ctx. rewrite Hrem.
  destruct ((0 <? vsnprintf_result s)
            && (vsnprintf_result s <? BUFFER_SIZE - buffer_pos c)) eqn:Hfit;
    cbn [buffer_pos output_buffer with_buffer];
    rewrite fold_store_length; (split; [|assumption]); [|assumption].
  apply andb_prop in Hfit. destruct Hfit as [H0 H1].
  apply Z.ltb_lt in H0. apply Z.ltb_lt in H1.
  rewrite u64_small
    by (change (2 ^ 64) with 18446744073709551616;
        unfold BUFFER_SIZE in *; lia).
  lia.
Qed.

(** C10.  A call of [buffer_append] on a context whose write position is
    within the 1024-byte buffer leaves it within the buffer, stores bytes
    only at indices of the buffer from the write position on, keeps the
    text accumulated so far, and leaves the write position where it was when
    the formatted text does not fit in the remaining space; a non-empty text
    that fits advances the position by its length. *)
Theorem C10_buffer_append_bounded :
  forall c s,
    0 <= buffer_pos c <= BUFFER_SIZE ->
    List.length (output_buffer c) = Z.to_nat BUFFER_SIZE ->
    let c' := buffer_append_ctx c s in
    let remaining := BUFFER_SIZE - buffer_pos c in
    0 <= buffer_pos c' <= BUFFER_SIZE
    /\ List.length (output_buffer c') = Z.to_nat BUFFER_SIZE
    /\ (forall i b, In (i, b) (buffer_append_stores c s) ->
                    buffer_pos c <= i < BUFFER_SIZE)
    /\ firstn (Z.to_nat (buffer_pos c)) (output_buffer c')
       = firstn (Z.to_nat (buffer_pos c)) (output_buffer c)
    /\ (remaining <= strlen s -> buffer_pos c' = buffer_pos c)
    /\ (0 < strlen s < remaining ->
        buffer_pos c' = buffer_pos c + strlen s).
Proof.
  intros c s Hpos Hlen c' remaining.
  destruct (remaining_exact c Hpos) as [Hrem Hsize].
  assert (forall i b, In (i, b) (buffer_append_stores c s) ->
                      buffer_pos c <= i < BUFFER_SIZE) as Hstores.
  { intros i b Hin. unfold buffer_append_stores in Hin.
    rewrite Hsize in Hin.
    apply vsnprintf_stores_range in Hin; lia. }
  assert (0 <= strlen s) as Hs by (unfold strlen; lia).
  destruct (vsnprintf_result_cases s) as [[Hw Hsmall] | [Hw Hbig]].
  - subst c'. unfold buffer_append_ctx. rewrite Hrem, Hw. fold remaining.
    destruct ((0 <? strlen s) && (strlen s <? remaining)) eqn:Hfit;
      cbn [buffer_pos output_buffer with_buffer].
    + apply andb_prop in Hfit. destruct Hfit as [H0 H1].
      apply Z.ltb_lt in H0. apply Z.ltb_lt in H1.
      assert (u64 (buffer_pos c + strlen s) = buffer_pos c + strlen s) as ->
        by (apply u64_small; change (2 ^ 64) with 18446744073709551616;
            unfold BUFFER_SIZE in *; subst remaining; lia).
      subst remaining.
      split; [lia|].
      split; [now rewrite fold_store_length|].
      split; [exact Hstores|].
      split.
      { apply fold_store_firstn; [lia|].
        intros [i b] Hin. apply Hstores in Hin. simpl. lia. }
      split; [intros Hbig; lia | intros _; reflexivity].
    + subst remaining.
      split; [lia|].
      split; [now rewrite fold_store_length|].
      split; [exact Hstores|].
      split.
      { apply fold_store_firstn; [lia|].
        intros [i b] Hin. apply Hstores in Hin. simpl. lia. }
      split; [reflexivity|].
      intros Hfits. exfalso.
      apply andb_false_iff in Hfit.
      destruct Hfit as [Hfit | Hfit]; apply Z.ltb_ge in Hfit; lia.
  - subst c'. unfold buffer_append_ctx. rewrite Hrem, Hw.
    cbn [Z.ltb Z.compare andb buffer_pos output_buffer with_buffer].
    subst remaining.
    split; [lia|].
    split; [now rewrite fold_store_length|].
    split; [exact Hstores|].
    split.
    { apply fold_store_firstn; [lia|].
      intros [i b] Hin. apply Hstores in Hin. simpl. lia. }
    split; [reflexivity|].
    intros Hfits. exfalso. unfold BUFFER_SIZE in *.
    change (2 ^ 31) with 2147483648 in Hbig. lia.
Qed.

Lemma C10_buffer_append_bounded_witness :
  let c := Context_zero in
  let s := "  CORE  " in
  let c' := buffer_append_ctx c s in
  let remaining := BUFFER_SIZE - buffer_pos c in
  0 <= buffer_pos c' <= BUFFER_SIZE
  /\ List.length (output_buffer c') = Z.to_nat BUFFER_SIZE
  /\ (forall i b, In (i, b) (buffer_append_stores c s) ->
                  buffer_pos c <= i < BUFFER_SIZE)
  /\ firstn (Z.to_nat (buffer_pos c)) (output_buffer c')
     = firstn (Z.to_nat (buffer_pos c)) (output_buffer c)
  /\ (remaining <= strlen s -> buffer_pos c' = buffer_pos c)
  /\ (0 < strlen s < remaining ->
      buffer_pos c' = buffer_pos c + strlen s).
Proof.
  apply (C10_buffer_append_bounded Context_zero "  CORE  ").
  - vm_compute. split; discriminate.
  - reflexivity.
Defined.

(** The write position stays within the buffer over any sequence of calls
    of [buffer_append]. *)
Lemma buffer_append_sequence (l : list string) (c : Context) :
  0 <= buffer_pos c <= BUFFER_SIZE ->
  List.length (output_buffer c) = Z.to_nat BUFFER_SIZE ->
  let c' := fold_left buffer_append_ctx l c in
  0 <= buffer_pos c' <= BUFFER_SIZE
  /\ List.length (output_buffer c') = Z.to_nat BUFFER_SIZE.
Proof.
  revert c. induction l as [|s l IH]; intros c Hpos Hlen; simpl.
  - split; assumption.
  - destruct (buffer_append_ctx_inv c s Hpos Hlen) as [H1 H2].
    apply IH; assumption.
Qed.

(** ** Device correlator *)

Lemma pci_mismatch_false_iff (d : Pci.pci_dev) (id : Nvml.nvmlPciInfo_t) :
  pci_mismatch d id = false <-> identity_equal d id.
Proof.
  unfold pci_mismatch, identity_equal, combined_id.
  rewrite !orb_false_iff, !negb_false_iff, !Z.eqb_eq. tauto.
Qed.

Lemma pci_mismatch_true_iff (d : Pci.pci_dev) (id : Nvml.nvmlPciInfo_t) :
  pci_mismatch d id = true <-> ~ identity_equal d id.
Proof.
  rewrite <- pci_mismatch_false_iff.
  destruct (pci_mismatch d id); split; congruence.
Qed.

Lemma field_changed_not_equal (d d' : Pci.pci_dev) (id : Nvml.nvmlPciInfo_t) :
  identity_equal d id -> field_changed d d' -> ~ identity_equal d' id.
Proof.
  unfold identity_equal, field_changed.
  intros (H1 & H2 & H3 & H4) Hc (E1 & E2 & E3 & E4).
  destruct Hc as [Hc | [Hc | [Hc | Hc]]]; apply Hc; congruence.
Qed.

(** For 16-bit vendor and device ids the combined id is
    [device_id * 65536 + vendor_id], so it determines both. *)
Lemma combined_id_fields (d : Pci.pci_dev) :
  0 <= Pci.vendor_id d < 2 ^ 16 ->
  0 <= Pci.device_id d < 2 ^ 16 ->
  combined_id d = Pci.device_id d * 65536 + Pci.vendor_id d.
Proof.
  intros Hv Hd. unfold combined_id.
  change (2 ^ 16) with 65536 in *.
  assert (Z.land (Z.shiftl (Pci.device_id d) 16) (Pci.vendor_id d) = 0) as Hdisj.
  { apply Z.bits_inj'. intros n Hn.
    rewrite Z.land_spec, Z.bits_0.
    destruct (Z.lt_ge_cases n 16) as [Hlow | Hhigh].
    - rewrite Z.shiftl_spec_low by assumption. reflexivity.
    - assert (Z.testbit (Pci.vendor_id d) n = false) as ->.
      { destruct (Z.eq_dec (Pci.vendor_id d) 0) as [-> | Hnz].
        - apply Z.bits_0.
        - apply Z.bits_above_log2; [lia|].
          assert (Z.log2 (Pci.vendor_id d) < 16)
            by (apply Z.log2_lt_pow2; change (2 ^ 16) with 65536; lia).
          lia. }
      apply andb_false_r. }
  rewrite <- Z.lxor_lor, <- Z.add_nocarry_lxor by assumption.
  rewrite Z.shiftl_mul_pow2 by lia. change (2 ^ 16) with 65536.
  apply u32_small. change (2 ^ 32) with 4294967296. lia.
Qed.

Lemma combined_id_injective (d d' : Pci.pci_dev) :
  0 <= Pci.vendor_id d < 2 ^ 16 -> 0 <= Pci.device_id d < 2 ^ 16 ->
  0 <= Pci.vendor_id d' < 2 ^ 16 -> 0 <= Pci.device_id d' < 2 ^ 16 ->
  combined_id d = combined_id d' ->
  Pci.vendor_id d = Pci.vendor_id d' /\ Pci.device_id d = Pci.device_id d'.
Proof.
  intros Hv Hd Hv' Hd' H.
  rewrite !combined_id_fields in H by assumption.
  change (2 ^ 16) with 65536 in *. lia.
Qed.

(** The first record equal to the identity, when there is one. *)
Lemma first_equal_record (devs : list Pci.pci_dev) (id : Nvml.nvmlPciInfo_t) :
  (exists d, In d devs /\ identity_equal d id) ->
  exists l1 d l2,
    devs = l1 ++ d :: l2 /\ identity_equal d id
    /\ forall x, In x l1 -> ~ identity_equal x id.
Proof.
  induction devs as [|a devs IH]; intros (d & Hin & Heq).
  - contradiction.
  - destruct (pci_mismatch a id) eqn:Ha.
    + apply pci_mismatch_true_iff in Ha.
      destruct Hin as [-> | Hin]; [contradiction|].
      destruct IH as (l1 & d1 & l2 & -> & Hd1 & Hl1); [now exists d|].
      exists (a :: l1), d1, l2.
      split; [reflexivity|]. split; [assumption|].
      intros x [<- | Hx]; auto.
    + apply pci_mismatch_false_iff in Ha.
      exists [], a, devs.
      split; [reflexivity|]. split; [assumption|].
      intros x [].
Qed.

Section Scan.

Variable env : Env.
Variable e : CycleEnv.

Lemma scan_no_equal_record (devs : list Pci.pci_dev) (gpu : GpuDevice)
  (s : State) :
  (forall d, In d devs -> ~ identity_equal d (pci_info gpu)) ->
  get_gpu_temps_scan env e devs gpu s
  = ((-1, gpu), add_trace s (map PciFillInfo devs)).
Proof.
  revert s. induction devs as [|a devs IH]; intros s H.
  - simpl. now rewrite add_trace_nil.
  - simpl. step.
    assert (pci_mismatch a (pci_info gpu) = true) as ->
      by (apply pci_mismatch_true_iff, H; now left).
    rewrite IH by (intros; apply H; now right).
    now rewrite add_trace_app.
Qed.

Lemma scan_first_equal_record (l1 : list Pci.pci_dev) (d : Pci.pci_dev)
  (l2 : list Pci.pci_dev) (gpu : GpuDevice) (s : State) :
  (forall x, In x l1 -> ~ identity_equal x (pci_info gpu)) ->
  identity_equal d (pci_info gpu) ->
  get_gpu_temps_scan env e (l1 ++ d :: l2) gpu s
  = get_gpu_temps_read env e d gpu (add_trace s (map PciFillInfo (l1 ++ [d]))).
Proof.
  revert s. induction l1 as [|a l1 IH]; intros s H Hd.
  - simpl. step.
    assert (pci_mismatch d (pci_info gpu) = false) as ->
      by now apply pci_mismatch_false_iff.
    reflexivity.
  - simpl. step.
    assert (pci_mismatch a (pci_info gpu) = true) as ->
      by (apply pci_mismatch_true_iff, H; now left).
    rewrite IH by (try assumption; intros; apply H; now right).
    now rewrite add_trace_app.
Qed.

(** Every path of [read_register_temp] starts by opening the accessor and
    only adds to the trace. *)
Lemma read_register_temp_trace (dev : Pci.pci_dev) (offset temp : Z)
  (s : State) :
  exists rest,
    trace (snd (read_register_temp env e dev offset temp s))
    = trace s ++ Open MEM_PATH (open_ok e dev offset) :: rest.
Proof.
  destruct (open_ok e dev offset) eqn:Ho.
  - destruct (mmap_ok e dev offset (base_offset env dev offset)) eqn:Hm.
    + rewrite read_register_temp_mapped by assumption. eexists. reflexivity.
    + rewrite read_register_temp_mmap_fails by assumption.
      eexists. reflexivity.
  - rewrite read_register_temp_open_fails by assumption. eexists. reflexivity.
Qed.

Lemma get_gpu_temps_read_trace (d : Pci.pci_dev) (gpu : GpuDevice)
  (s : State) :
  exists rest,
    trace (snd (get_gpu_temps_read env e d gpu s))
    = trace s ++ Open MEM_PATH (open_ok e d HOTSPOT_REGISTER_OFFSET) :: rest.
Proof.
  unfold get_gpu_temps_read. step.
  destruct (read_register_temp_trace d HOTSPOT_REGISTER_OFFSET
              (junction_temp gpu) s) as [r1 H1].
  destruct (read_register_temp env e d HOTSPOT_REGISTER_OFFSET
              (junction_temp gpu) s) as [jr s1].
  simpl in H1.
  destruct (negb (int_result e d HOTSPOT_REGISTER_OFFSET (fst jr) =? 0)).
  - exists r1. exact H1.
  - destruct (read_register_temp_trace d VRAM_REGISTER_OFFSET
                (vram_temp (set_junction_temp gpu (snd jr))) s1) as [r2 H2].
    destruct (read_register_temp env e d VRAM_REGISTER_OFFSET
                (vram_temp (set_junction_temp gpu (snd jr))) s1) as [vr s2].
    simpl in H2.
    exists (r1 ++ Open MEM_PATH (open_ok e d VRAM_REGISTER_OFFSET) :: r2).
    destruct (negb (int_result e d VRAM_REGISTER_OFFSET (fst vr) =? 0)); simpl;
      rewrite H2, H1, <- app_assoc; reflexivity.
Qed.

End Scan.

Section Sampler.

Variable env : Env.
Variable e : CycleEnv.

(** When the three management-library queries succeed, the sampler goes on
    to scan the PCI records for the identity reported. *)
Lemma get_gpu_temps_queries_ok (index : Z) (gpu : GpuDevice) (s : State)
  (d : nvmlDevice_t) (t : Z) (id : Nvml.nvmlPciInfo_t) :
  nvmlDeviceGetHandleByIndex e index = (NVML_SUCCESS, d) ->
  nvmlDeviceGetTemperature e d = (NVML_SUCCESS, t) ->
  nvmlDeviceGetPciInfo e d = (NVML_SUCCESS, id) ->
  get_gpu_temps env e index gpu s
  = get_gpu_temps_scan env e (devices_of (ctx s))
      (mkGpu d id (u32 t) (junction_temp gpu) (vram_temp gpu))
      (add_trace
         (mkState (with_result (with_result (ctx s) NVML_SUCCESS) NVML_SUCCESS)
                  (refresh_counter s) (atexit_fns s) (trace s))
         [NvmlDeviceGetHandleByIndex index;
          NvmlDeviceGetTemperature d;
          NvmlDeviceGetPciInfo d]).
Proof.
  intros Hh Ht Hp.
  unfold get_gpu_temps, get_device_handle, get_gpu_temp, get_device_pci_info.
  step. rewrite Hh. cbn. rewrite Ht. cbn. rewrite Hp. cbn.
  unfold add_trace; cbn. rewrite <- !app_assoc. reflexivity.
Qed.

(** C2 (as amended).  The scan of [get_gpu_temps] skips a PCI record unless
    its combined vendor/device id, domain, bus and slot all equal the
    reported identity.  Registers are read if and only if some record is
    equal on all four fields, and then those of the first such record in
    list order; if none is, the sampler returns -1 without touching a
    register.  A record with one of the four fields changed is skipped, so
    the sampler fails whenever no other record of the list is equal on all
    four. *)
Theorem C2_correlation_exact :
  forall (devs : list Pci.pci_dev) (gpu : GpuDevice) (s : State),
    let id := pci_info gpu in
    let r := get_gpu_temps_scan env e devs gpu s in
    (forall d, pci_mismatch d id = false <-> identity_equal d id)
    /\ ((exists d, In d devs /\ identity_equal d id) <->
        (exists added opened,
            trace (snd r) = trace s ++ added
            /\ In (Open MEM_PATH opened) added))
    /\ (forall l1 d l2,
           devs = l1 ++ d :: l2 ->
           identity_equal d id ->
           (forall x, In x l1 -> ~ identity_equal x id) ->
           r = get_gpu_temps_read env e d gpu
                 (add_trace s (map PciFillInfo (l1 ++ [d])))
           /\ exists rest,
               trace (snd r)
               = trace s ++ map PciFillInfo (l1 ++ [d])
                 ++ Open MEM_PATH (open_ok e d HOTSPOT_REGISTER_OFFSET)
                    :: rest)
    /\ ((forall d, In d devs -> ~ identity_equal d id) ->
        r = ((-1, gpu), add_trace s (map PciFillInfo devs)))
    /\ (forall d d' later,
           devs = d' :: later ->
           identity_equal d id ->
           field_changed d d' ->
           r = get_gpu_temps_scan env e later gpu
                 (add_trace s [PciFillInfo d']))
    /\ (forall l1 d d' l2,
           devs = l1 ++ d' :: l2 ->
           identity_equal d id ->
           field_changed d d' ->
           (forall x, In x (l1 ++ l2) -> ~ identity_equal x id) ->
           r = ((-1, gpu), add_trace s (map PciFillInfo devs)))
    /\ (forall index gpu0 dv t,
           nvmlDeviceGetHandleByIndex e index = (NVML_SUCCESS, dv) ->
           nvmlDeviceGetTemperature e dv = (NVML_SUCCESS, t) ->
           nvmlDeviceGetPciInfo e dv = (NVML_SUCCESS, id) ->
           (forall d, In d (devices_of (ctx s)) -> ~ identity_equal d id) ->
           fst (fst (get_gpu_temps env e index gpu0 s)) = -1).
Proof.
  intros devs gpu s id r.
  assert (forall l, (forall d, In d l -> ~ identity_equal d id) ->
                    forall ev opened, In ev (map PciFillInfo l) ->
                                      ev <> Open MEM_PATH opened) as Hfill.
  { intros l _ ev opened Hin. apply in_map_iff in Hin.
    destruct Hin as (x & <- & _). discriminate. }
  split; [intros d; apply pci_mismatch_false_iff|].
  split.
  { split.
    - intros Hex.
      destruct (first_equal_record devs id Hex) as (l1 & d & l2 & -> & Hd & Hl1).
      subst r. rewrite scan_first_equal_record by assumption.
      destruct (get_gpu_temps_read_trace env e d gpu
                  (add_trace s (map PciFillInfo (l1 ++ [d])))) as [rest Hrest].
      exists (map PciFillInfo (l1 ++ [d])
              ++ Open MEM_PATH (open_ok e d HOTSPOT_REGISTER_OFFSET) :: rest),
        (open_ok e d HOTSPOT_REGISTER_OFFSET).
      split.
      + rewrite Hrest. cbn. now rewrite <- app_assoc.
      + apply in_or_app. right. now left.
    - intros (added & opened & Htr & Hin).
      destruct (existsb (fun d => negb (pci_mismatch d id)) devs) eqn:Hex.
      + apply existsb_exists in Hex. destruct Hex as (d & Hd & Hm).
        exists d. split; [assumption|].
        apply pci_mismatch_false_iff. now apply negb_true_iff.
      + exfalso.
        assert (forall d, In d devs -> ~ identity_equal d id) as Hnone.
        { intros d Hd. apply pci_mismatch_true_iff.
          rewrite <- negb_false_iff.
          rewrite <- not_true_iff_false in Hex.
          apply not_true_iff_false. intros Hc. apply Hex.
          apply existsb_exists. now exists d. }
        subst r. rewrite scan_no_equal_record in Htr by assumption.
        cbn in Htr. apply app_inv_head in Htr. subst added.
        now apply (Hfill devs Hnone _ opened Hin). }
  split.
  { intros l1 d l2 -> Hd Hl1. subst r.
    rewrite scan_first_equal_record by assumption.
    split; [reflexivity|].
    destruct (get_gpu_temps_read_trace env e d gpu
                (add_trace s (map PciFillInfo (l1 ++ [d])))) as [rest Hrest].
    exists rest. rewrite Hrest. cbn [trace add_trace].
    now rewrite <- app_assoc. }
  split.
  { intros Hnone. subst r. now apply scan_no_equal_record. }
  split.
  { intros d d' later -> Hd Hch. subst r. cbn [get_gpu_temps_scan]. step.
    assert (pci_mismatch d' (pci_info gpu) = true) as ->
      by (apply pci_mismatch_true_iff; now apply (field_changed_not_equal d)).
    reflexivity. }
  split.
  { intros l1 d d' l2 -> Hd Hch Hothers. subst r.
    apply scan_no_equal_record.
    intros x Hx. apply in_app_or in Hx.
    destruct Hx as [Hx | [<- | Hx]].
    - apply Hothers, in_or_app. now left.
    - now apply (field_changed_not_equal d).
    - apply Hothers, in_or_app. now right. }
  intros index gpu0 dv t Hh Ht Hp Hnone.
  rewrite (get_gpu_temps_queries_ok index gpu0 s dv t id Hh Ht Hp).
  now rewrite scan_no_equal_record.
Qed.

End Sampler.

Lemma C2_correlation_exact_witness :
  let gpu := mkGpu 100 sample_id 45 0 0 in
  let moved := Pci.mk 0x10DE 0x2204 0 2 0 0xF6000000 in
  get_gpu_temps_scan (sample_env 1) (sample_cycle 1 0 0 0)
    [sample_bridge; moved] gpu initial_state
  = ((-1, gpu), add_trace initial_state (map PciFillInfo [sample_bridge; moved]))
  /\ get_gpu_temps_scan (sample_env 1) (sample_cycle 1 0 0 0)
       [sample_bridge; sample_gpu; sample_gpu] gpu initial_state
     = get_gpu_temps_read (sample_env 1) (sample_cycle 1 0 0 0) sample_gpu gpu
         (add_trace initial_state (map PciFillInfo [sample_bridge; sample_gpu])).
Proof.
  intros gpu moved.
  assert (identity_equal sample_gpu sample_id) as Heq
    by (repeat split; reflexivity).
  assert (forall x, In x [sample_bridge] -> ~ identity_equal x sample_id) as Hb.
  { intros x [<- | []] (H & _). discriminate H. }
  split.
  - apply (proj1 (proj2 (proj2 (proj2 (proj2 (proj2
             (C2_correlation_exact (sample_env 1) (sample_cycle 1 0 0 0)
                [sample_bridge; moved] gpu initial_state))))))
             [sample_bridge] sample_gpu moved [] eq_refl Heq).
    + right. right. left. discriminate.
    + exact Hb.
  - apply (proj1 (proj1 (proj2 (proj2
             (C2_correlation_exact (sample_env 1) (sample_cycle 1 0 0 0)
                [sample_bridge; sample_gpu; sample_gpu] gpu initial_state)))
             [sample_bridge] sample_gpu [sample_gpu] eq_refl Heq Hb)).
Defined.

(** C2, as stated, fails on a list with two records equal to the identity:
    with the bus of the first one changed, correlation still succeeds, with
    the second. *)
Lemma C2_counterexample :
  let gpu := mkGpu 100 sample_id 45 0 0 in
  let moved := Pci.mk 0x10DE 0x2204 0 2 0 0xF6000000 in
  let before := get_gpu_temps_scan (sample_env 1) (sample_cycle 1 0 0 0)
                  [sample_gpu; sample_gpu] gpu initial_state in
  let after := get_gpu_temps_scan (sample_env 1) (sample_cycle 1 0 0 0)
                 [moved; sample_gpu] gpu initial_state in
  identity_equal sample_gpu sample_id
  /\ field_changed sample_gpu moved
  /\ fst (fst before) = 0
  /\ fst (fst after) = 0
  /\ junction_temp (snd (fst after)) = 50
  /\ In (Open MEM_PATH true) (trace (snd after)).
Proof.
  cbv zeta.
  split; [repeat split; reflexivity|].
  split; [right; right; left; discriminate|].
  split; [reflexivity|]. split; [reflexivity|]. split; [reflexivity|].
  vm_compute. right. right. now left.
Qed.

(** ** Command line *)

Lemma main_args_mode_flags (prog : string) (pre rest : list string)
  (s : State) :
  forallb is_mode_flag pre = true ->
  main_args prog (pre ++ rest) s
  = main_args prog rest (with_ctx s (fold_left apply_flag pre (ctx s))).
Proof.
  revert s. induction pre as [|a pre IH]; intros s H.
  - destruct s; reflexivity.
  - simpl in H. apply andb_prop in H. destruct H as [Ha Hpre].
    simpl app. cbn [main_args fold_left]. unfold is_mode_flag in Ha.
    destruct (String.eqb a "--json") eqn:Hj.
    + replace (apply_flag (ctx s) a)
        with (with_output_format (ctx s) FORMAT_JSON)
        by (unfold apply_flag; now rewrite Hj).
      step. rewrite IH by assumption. reflexivity.
    + simpl in Ha.
      replace (apply_flag (ctx s) a)
        with (with_output_mode (ctx s) MODE_ONCE)
        by (unfold apply_flag; now rewrite Hj, Ha).
      rewrite Ha. step. rewrite IH by assumption. reflexivity.
Qed.

Lemma main_args_help (prog : string) (post : list string) (s : State) :
  main_args prog ("--help" :: post) s
  = (Some 0, add_trace s [Stderr (usage_text prog)]).
Proof. reflexivity. Qed.

Lemma main_args_unknown (prog a : string) (post : list string) (s : State) :
  is_mode_flag a = false -> a <> "--help" ->
  main_args prog (a :: post) s
  = (Some 1, add_trace s [Stderr ("Unknown argument: " ++ a ++ NL);
                          Stderr (usage_text prog)]).
Proof.
  intros Hm Hh. unfold is_mode_flag in Hm.
  apply orb_false_iff in Hm. destruct Hm as [Hj Ho].
  apply String.eqb_neq in Hh.
  cbn [main_args]. rewrite Hj, Ho, Hh.
  unfold print_usage. step. now rewrite add_trace_app.
Qed.

(** Every argument list either consists of mode flags only or has a first
    argument that is not a mode flag. *)
Lemma first_deciding_argument (args : list string) :
  forallb is_mode_flag args = true
  \/ exists pre a post,
      args = pre ++ a :: post
      /\ forallb is_mode_flag pre = true /\ is_mode_flag a = false.
Proof.
  induction args as [|x args IH].
  - now left.
  - destruct (is_mode_flag x) eqn:Hx.
    + destruct IH as [IH | (pre & a & post & -> & Hpre & Ha)].
      * left. simpl. now rewrite Hx.
      * right. exists (x :: pre), a, post. simpl. rewrite Hx. auto.
    + right. exists [], x, args. auto.
Qed.

Section CommandLine.

Variable env : Env.

(** The process when the argument loop returns: nothing has been set up and
    nothing is registered to run at exit. *)
Lemma process_deciding_argument (prog : string) (pre : list string)
  (a : string) (post : list string) (script : list CycleEnv)
  (code : Z) (out : list event) :
  forallb is_mode_flag pre = true ->
  (forall s, main_args prog (a :: post) s = (Some code, add_trace s out)) ->
  process env (prog :: pre ++ a :: post) script
  = (Some code,
     mkState (fold_left apply_flag pre Context_zero) 0 [] out).
Proof.
  intros Hpre Hdecide.
  unfold process, main. step. cbn [hd tl].
  rewrite main_args_mode_flags by assumption.
  rewrite Hdecide. reflexivity.
Qed.

(** C8 (as amended).  The first argument that is neither [--json] nor
    [--once] decides.  If it is [--help], the usage text is printed (to
    standard error) and the process exits with 0; if it is anything else,
    the argument is reported, the usage text is printed to standard error and
    the process exits with 1.  In both cases nothing else has happened: no
    initialisation and no sampling.  Hence a list with [--help] and no
    unknown flag exits with 0, and a list with an unknown flag and no
    [--help] exits with 1. *)
Theorem C8_first_argument_decides :
  forall (prog : string) (args : list string) (script : list CycleEnv),
    let r := process env (prog :: args) script in
    (forall pre a post,
        args = pre ++ a :: post ->
        forallb is_mode_flag pre = true ->
        is_mode_flag a = false ->
        (a = "--help" ->
         fst r = Some 0 /\ trace (snd r) = [Stderr (usage_text prog)])
        /\ (a <> "--help" ->
            fst r = Some 1
            /\ trace (snd r) = [Stderr ("Unknown argument: " ++ a ++ NL);
                                Stderr (usage_text prog)]))
    /\ (In "--help" args ->
        (forall x, In x args -> is_mode_flag x = true \/ x = "--help") ->
        fst r = Some 0 /\ trace (snd r) = [Stderr (usage_text prog)])
    /\ ((exists x, In x args /\ is_mode_flag x = false /\ x <> "--help") ->
        ~ In "--help" args ->
        fst r = Some 1
        /\ exists a, trace (snd r) = [Stderr ("Unknown argument: " ++ a ++ NL);
                                      Stderr (usage_text prog)]).
Proof.
  intros prog args script r.
  assert (forall pre a post,
             args = pre ++ a :: post ->
             forallb is_mode_flag pre = true ->
             is_mode_flag a = false ->
             (a = "--help" ->
              fst r = Some 0 /\ trace (snd r) = [Stderr (usage_text prog)])
             /\ (a <> "--help" ->
                 fst r = Some 1
                 /\ trace (snd r) = [Stderr ("Unknown argument: " ++ a ++ NL);
                                     Stderr (usage_text prog)])) as Hfirst.
  { intros pre a post -> Hpre Ha. subst r. split.
    - intros ->.
      rewrite (process_deciding_argument prog pre "--help" post script 0
                 [Stderr (usage_text prog)] Hpre);
        [split; reflexivity | intros s; apply main_args_help].
    - intros Hh.
      rewrite (process_deciding_argument prog pre a post script 1
                 [Stderr ("Unknown argument: " ++ a ++ NL);
                  Stderr (usage_text prog)] Hpre);
        [split; reflexivity | intros s; now apply main_args_unknown]. }
  split; [exact Hfirst|]. split.
  - intros Hin Hall.
    destruct (first_deciding_argument args)
      as [Hmode | (pre & a & post & Hargs & Hpre & Ha)].
    + rewrite forallb_forall in Hmode. apply Hmode in Hin. discriminate Hin.
    + assert (a = "--help") as Hhelp.
      { destruct (Hall a) as [Hm | Hh];
          [subst args; apply in_or_app; right; now left | congruence | exact Hh]. }
      now apply (Hfirst pre a post Hargs Hpre Ha).
  - intros (x & Hx & Hxm & Hxh) Hnohelp.
    destruct (first_deciding_argument args)
      as [Hmode | (pre & a & post & Hargs & Hpre & Ha)].
    + rewrite forallb_forall in Hmode. apply Hmode in Hx. congruence.
    + assert (a <> "--help") as Hh.
      { intros ->. apply Hnohelp. subst args.
        apply in_or_app. right. now left. }
      destruct (proj2 (Hfirst pre a post Hargs Hpre Ha) Hh) as [H1 H2].
      split; [exact H1 | now exists a].
Qed.

End CommandLine.

Lemma C8_first_argument_decides_witness :
  let r := process (sample_env 1) ["gputemps"; "--json"; "--help"; "--once"] [] in
  fst r = Some 0 /\ trace (snd r) = [Stderr (usage_text "gputemps")].
Proof.
  apply (proj1 (proj1 (C8_first_argument_decides (sample_env 1) "gputemps"
                         ["--json"; "--help"; "--once"] [])
                  ["--json"] "--help" ["--once"] eq_refl eq_refl eq_refl)).
  reflexivity.
Defined.

(** C8, as stated, fails on a list that holds both [--help] and an unknown
    flag: whichever comes first decides. *)
Lemma C8_counterexample :
  In "--help" ["--bogus"; "--help"]
  /\ fst (process (sample_env 1) ["gputemps"; "--bogus"; "--help"] []) = Some 1
  /\ In "--bogus" ["--help"; "--bogus"]
  /\ fst (process (sample_env 1) ["gputemps"; "--help"; "--bogus"] []) = Some 0.
Proof.
  split; [right; now left|]. split; [reflexivity|].
  split; [right; now left|]. reflexivity.
Qed.

(** ** What sampling leaves unchanged *)

Lemma extends_refl (tr : list event) : extends tr tr.
Proof. exists []. now rewrite app_nil_r. Qed.

Lemma extends_trans (a b c : list event) :
  extends a b -> extends b c -> extends a c.
Proof.
  intros [x ->] [y ->]. exists (x ++ y). now rewrite app_assoc.
Qed.

Lemma extends_app (tr l : list event) : extends tr (tr ++ l).
Proof. now exists l. Qed.

Lemma keeps_refl (s : State) : keeps s s.
Proof. unfold keeps. repeat split; apply extends_refl. Qed.

Lemma keeps_trans (a b c : State) : keeps a b -> keeps b c -> keeps a c.
Proof.
  unfold keeps.
  intros (A1 & A2 & A3 & A4 & A5 & A6 & A7) (B1 & B2 & B3 & B4 & B5 & B6 & B7).
  repeat split; try congruence. eapply extends_trans; eassumption.
Qed.

Lemma keeps_add_trace (s : State) (l : list event) : keeps s (add_trace s l).
Proof. unfold keeps. repeat split. apply extends_app. Qed.

Lemma preserving_ret {A} (a : A) : preserving (ret a).
Proof. intros s. apply keeps_refl. Qed.

Lemma preserving_bind {A B} (m : M A) (k : A -> M B) :
  preserving m -> (forall a, preserving (k a)) -> preserving (bind m k).
Proof.
  intros Hm Hk s. unfold bind.
  specialize (Hm s). destruct (m s) as [a s1]. simpl in Hm.
  eapply keeps_trans; [exact Hm | apply Hk].
Qed.

Lemma preserving_emit (ev : event) : preserving (emit ev).
Proof. intros s. apply keeps_add_trace. Qed.

Lemma preserving_if {A} (b : bool) (m1 m2 : M A) :
  preserving m1 -> preserving m2 -> preserving (if b then m1 else m2).
Proof. now destruct b. Qed.

(** Storing a result code or touching the output buffer keeps the rest. *)
Lemma preserving_set_result (r : nvmlReturn_t) :
  preserving (c <- get_ctx ;; set_ctx (with_result c r)).
Proof. intros s. unfold keeps. repeat split. apply extends_refl. Qed.

Lemma preserving_buffer_append (text : string) :
  preserving (buffer_append text).
Proof.
  intros s. unfold buffer_append, buffer_append_ctx, keeps. step. cbn [snd ctx].
  destruct (_ && _); repeat split; apply extends_refl.
Qed.

Lemma preserving_get_ctx {A} (k : Context -> M A) :
  (forall c, preserving (k c)) -> preserving (c <- get_ctx ;; k c).
Proof. intros H s. unfold bind, get_ctx. apply H. Qed.

Lemma preserving_reset_buffer {A} (rest : M A) :
  preserving rest ->
  preserving (c <- get_ctx ;;
              set_ctx (with_buffer c (output_buffer c) 0) ;; rest).
Proof.
  intros H s. unfold bind, get_ctx, set_ctx.
  eapply keeps_trans; [|apply H].
  unfold keeps. repeat split. apply extends_refl.
Qed.

Lemma preserving_get_refresh_counter : preserving get_refresh_counter.
Proof. intros s. apply keeps_refl. Qed.

Lemma preserving_set_refresh_counter (n : Z) :
  preserving (set_refresh_counter n).
Proof. intros s. unfold keeps. repeat split. apply extends_refl. Qed.

Ltac preserve :=
  repeat first
    [ apply preserving_ret
    | apply preserving_emit
    | apply preserving_buffer_append
    | apply preserving_bind; [|intros ?]
    | apply preserving_if
    | progress unfold eprintf, printf, fflush_stdout, print_gpu_info ].

Section Preservation.

Variable env : Env.
Variable e : CycleEnv.

Lemma preserving_get_device_handle (index : Z) (d : nvmlDevice_t) :
  preserving (get_device_handle env e index d).
Proof.
  intros s. unfold get_device_handle. step.
  destruct (nvmlDeviceGetHandleByIndex e index) as [r h].
  destruct (negb (NVML_SUCCESS =? r)); cbn;
    (eapply keeps_trans; [apply keeps_add_trace|]);
    unfold keeps; repeat split; cbn; first [apply extends_refl | apply extends_app].
Qed.

Lemma preserving_get_device_pci_info (d : nvmlDevice_t)
  (p : Nvml.nvmlPciInfo_t) :
  preserving (get_device_pci_info env e d p).
Proof.
  intros s. unfold get_device_pci_info. step.
  destruct (nvmlDeviceGetPciInfo e d) as [r h].
  destruct (negb (NVML_SUCCESS =? r)); cbn;
    (eapply keeps_trans; [apply keeps_add_trace|]);
    unfold keeps; repeat split; cbn; first [apply extends_refl | apply extends_app].
Qed.

Lemma preserving_get_gpu_temp (d : nvmlDevice_t) (t : Z) :
  preserving (get_gpu_temp env e d t).
Proof.
  unfold get_gpu_temp.
  destruct (nvmlDeviceGetTemperature e d) as [r h]. preserve.
Qed.

Lemma preserving_read_register_temp (dev : Pci.pci_dev) (offset temp : Z) :
  preserving (read_register_temp env e dev offset temp).
Proof. unfold read_register_temp. preserve. Qed.

Lemma preserving_get_gpu_temps_read (dev : Pci.pci_dev) (gpu : GpuDevice) :
  preserving (get_gpu_temps_read env e dev gpu).
Proof.
  unfold get_gpu_temps_read.
  apply preserving_bind; [apply preserving_read_register_temp | intros jr].
  cbv zeta. apply preserving_if; [apply preserving_ret|].
  apply preserving_bind; [apply preserving_read_register_temp | intros vr].
  preserve.
Qed.

Lemma preserving_get_gpu_temps_scan (devs : list Pci.pci_dev)
  (gpu : GpuDevice) :
  preserving (get_gpu_temps_scan env e devs gpu).
Proof.
  induction devs as [|d devs IH]; simpl.
  - apply preserving_ret.
  - apply preserving_bind; [apply preserving_emit | intros _].
    apply preserving_if; [exact IH | apply preserving_get_gpu_temps_read].
Qed.

Lemma preserving_get_gpu_temps (index : Z) (gpu : GpuDevice) :
  preserving (get_gpu_temps env e index gpu).
Proof.
  unfold get_gpu_temps.
  apply preserving_bind; [apply preserving_get_device_handle | intros h].
  cbv zeta. apply preserving_if; [apply preserving_ret|].
  apply preserving_bind; [apply preserving_get_gpu_temp | intros t].
  apply preserving_if; [apply preserving_ret|].
  apply preserving_bind; [apply preserving_get_device_pci_info | intros p].
  apply preserving_if; [apply preserving_ret|].
  apply preserving_get_ctx. intros c. apply preserving_get_gpu_temps_scan.
Qed.

Lemma preserving_table_rows (n : nat) (i valid_readings : Z) :
  preserving (table_rows env e n i valid_readings).
Proof.
  revert i valid_readings. induction n as [|n IH]; intros i v; simpl.
  - apply preserving_ret.
  - apply preserving_bind; [apply preserving_get_gpu_temps | intros r].
    apply preserving_if; [apply preserving_ret|].
    apply preserving_bind; [preserve | intros _]. apply IH.
Qed.

Lemma preserving_json_rows (n : nat) (i first : Z) :
  preserving (json_rows env e n i first).
Proof.
  revert i first. induction n as [|n IH]; intros i f; simpl.
  - apply preserving_ret.
  - apply preserving_bind; [apply preserving_get_gpu_temps | intros r].
    apply preserving_if; [apply preserving_ret|].
    apply preserving_bind; [preserve | intros _].
    apply preserving_bind; [preserve | intros _]. apply IH.
Qed.

Lemma preserving_monitor_temperatures_json :
  preserving (monitor_temperatures_json env e).
Proof.
  unfold monitor_temperatures_json.
  apply preserving_bind; [apply preserving_emit | intros _].
  cbv zeta.
  apply preserving_bind; [preserve | intros _].
  apply preserving_get_ctx. intros c.
  apply preserving_bind; [apply preserving_json_rows | intros ok].
  preserve.
Qed.

Lemma preserving_monitor_temperatures_table :
  preserving (monitor_temperatures_table env e).
Proof.
  unfold monitor_temperatures_table.
  apply preserving_reset_buffer.
  apply preserving_bind; [apply preserving_get_refresh_counter | intros rc].
  cbv zeta.
  apply preserving_bind; [apply preserving_set_refresh_counter | intros _].
  apply preserving_bind; [preserve | intros _].
  apply preserving_bind; [preserve | intros _].
  apply preserving_get_ctx. intros c.
  apply preserving_bind; [apply preserving_table_rows | intros rows].
  destruct rows as [v|]; [|apply preserving_ret].
  apply preserving_bind; [preserve | intros _].
  apply preserving_get_ctx. intros c1. preserve.
Qed.

Lemma preserving_monitor_temperatures (f : OutputFormat) :
  preserving (monitor_temperatures env f e).
Proof.
  destruct f;
    [apply preserving_monitor_temperatures_table
    | apply preserving_monitor_temperatures_json].
Qed.

End Preservation.

(** ** Start-up *)

Lemma apply_flag_fields (c : Context) (a : string) :
  apply_flag c a
  = mkCtx (result c) (device_count c) (initialized c) (pacc c)
          (output_buffer c) (buffer_pos c)
          (output_mode (apply_flag c a)) (output_format (apply_flag c a)).
Proof.
  unfold apply_flag.
  destruct (String.eqb a "--json"); [destruct c; reflexivity|].
  destruct (String.eqb a "--once"); destruct c; reflexivity.
Qed.

Lemma apply_flags_fields (args : list string) (c : Context) :
  fold_left apply_flag args c
  = mkCtx (result c) (device_count c) (initialized c) (pacc c)
          (output_buffer c) (buffer_pos c)
          (output_mode (fold_left apply_flag args c))
          (output_format (fold_left apply_flag args c)).
Proof.
  revert c. induction args as [|a args IH]; intros c; simpl.
  - destruct c; reflexivity.
  - rewrite IH at 1. rewrite (apply_flag_fields c a) at 1 2 3 4 5 6.
    reflexivity.
Qed.

Lemma apply_flags_once (args : list string) (c : Context) :
  output_mode c = MODE_ONCE \/ In "--once" args ->
  output_mode (fold_left apply_flag args c) = MODE_ONCE.
Proof.
  revert c. induction args as [|a args IH]; intros c H; simpl.
  - destruct H as [H | []]. exact H.
  - apply IH. unfold apply_flag.
    destruct (String.eqb a "--json") eqn:Hj.
    + apply String.eqb_eq in Hj. subst a.
      destruct H as [H | [H | H]]; [now left | discriminate H | now right].
    + destruct (String.eqb a "--once") eqn:Ho; [now left|].
      apply String.eqb_neq in Ho.
      destruct H as [H | [H | H]]; [now left | congruence | now right].
Qed.

Lemma apply_flags_json (args : list string) (c : Context) :
  output_format (fold_left apply_flag args c) = FORMAT_JSON
  <-> output_format c = FORMAT_JSON \/ In "--json" args.
Proof.
  revert c. induction args as [|a args IH]; intros c; simpl.
  - tauto.
  - rewrite IH. unfold apply_flag.
    destruct (String.eqb a "--json") eqn:Hj.
    + apply String.eqb_eq in Hj. subst a. simpl. tauto.
    + apply String.eqb_neq in Hj.
      destruct (String.eqb a "--once"); simpl; split;
        intros [H | H]; auto; destruct H as [H | H]; auto; congruence.
Qed.

Lemma main_startup (env : Env) (prog : string) (args : list string)
  (script : list CycleEnv) :
  forallb is_mode_flag args = true ->
  startup_ok env (output_format (fold_left apply_flag args Context_zero)) ->
  main env (prog :: args) script initial_state
  = (res <- main_run env script ;;
     match res with
     | None => ret None
     | Some result =>
         cleanup_context ;;
         ret (Some (if result =? 0 then 0 else 1))
     end) (ready_state env (fold_left apply_flag args Context_zero)).
Proof.
  intros Hargs (Hterm & Heuid & Hpci & Hnvml & Hcount & Hdev).
  unfold main. step. cbn [hd tl].
  rewrite <- (app_nil_r args) at 1.
  rewrite main_args_mode_flags by assumption.
  cbn [main_args]. unfold ret at 1. cbn [ctx with_ctx initial_state].
  unfold ready_state.
  pose proof (apply_flags_fields args Context_zero) as Hshape.
  set (c0 := fold_left apply_flag args Context_zero) in *.
  cbn [result device_count initialized pacc output_buffer buffer_pos
         Context_zero] in Hshape.
  remember (output_mode c0) as m eqn:Hm.
  remember (output_format c0) as f eqn:Hf.
  clearbody c0. clear Hm Hf. subst c0.
  cbn [output_format output_mode output_buffer buffer_pos].
  destruct (nvmlDeviceGetCount env) as [r n] eqn:Hcnt. simpl in Hcount, Hdev.
  subst r. apply Z.eqb_neq in Hdev.
  unfold setup_terminal, init_monitoring, check_root_privileges, init_pci,
    init_nvml, get_device_count, atexit.
  destruct f.
  - destruct (Hterm eq_refl) as [Hg Hs].
    apply Z.ltb_ge in Hg. apply Z.ltb_ge in Hs.
    cbn [output_format is_table ctx].
    step. rewrite Hg. cbn. rewrite Hs. cbn. rewrite Heuid, Hpci. cbn.
    rewrite Hnvml. cbn. rewrite Hcnt. cbn. rewrite Hdev. cbn.
    reflexivity.
  - cbn [output_format is_table ctx].
    step. rewrite Heuid, Hpci. cbn.
    rewrite Hnvml. cbn. rewrite Hcnt. cbn. rewrite Hdev. cbn.
    reflexivity.
Qed.

Lemma cleanup_context_ready (s : State) (devs : list Pci.pci_dev) :
  initialized (ctx s) = 1 ->
  pacc (ctx s) = Some devs ->
  cleanup_context s
  = (tt, add_trace (with_ctx s (with_pacc (with_initialized (ctx s) 0) None))
                   [NvmlShutdown; PciCleanup]).
Proof.
  intros Hi Hp. unfold cleanup_context. step. rewrite Hi. cbn.
  rewrite Hp. cbn. unfold add_trace, with_ctx. cbn.
  now rewrite <- app_assoc.
Qed.

Lemma run_atexit_table (s : State) :
  run_atexit [restore_cursor_fn; reset_terminal_fn] s
  = (tt, add_trace s [Stdout CURSOR_SHOW; Fflush; Tcsetattr true]).
Proof.
  cbn [run_atexit]. unfold restore_cursor, reset_terminal. step.
  now rewrite !add_trace_app.
Qed.


(** ** The refresh loops *)

Lemma handle_input_wait (e : CycleEnv) (s : State) :
  handle_input e (REFRESH_DURATION * 1000) s
  = ((if keystroke e then 1 else 0), add_trace s (wait_events e)).
Proof.
  unfold handle_input, keystroke, wait_events. step.
  destruct (0 <? select_result e); cbn;
    [destruct (0 <? read_result e); cbn; now rewrite add_trace_app
    | reflexivity].
Qed.

(** A cycle that fails ends either loop with -1. *)
Lemma run_monitoring_loop_failure env e later s :
  running e = true ->
  fst (monitor_temperatures_table env e s) <> 0 ->
  run_monitoring_loop env (e :: later) s
  = (Some (-1), snd (monitor_temperatures_table env e s)).
Proof.
  intros Hrun Hfail. cbn [run_monitoring_loop]. rewrite Hrun. unfold bind at 1.
  destruct (monitor_temperatures_table env e s) as [r s1]. simpl in *.
  apply Z.eqb_neq in Hfail. now rewrite Hfail.
Qed.

Lemma run_json_loop_failure env e later s :
  running e = true ->
  fst (monitor_temperatures_json env e s) <> 0 ->
  run_json_loop env (e :: later) s
  = (Some (-1), snd (monitor_temperatures_json env e s)).
Proof.
  intros Hrun Hfail. cbn [run_json_loop]. rewrite Hrun. unfold bind at 1.
  destruct (monitor_temperatures_json env e s) as [r s1]. simpl in *.
  apply Z.eqb_neq in Hfail. now rewrite Hfail.
Qed.

(** C6 (as amended).  After a cycle that succeeds, both loops wait once for
    console input, for at most one second, and a keystroke ends either loop.
    When the wait ends without a keystroke the table loop starts the next
    cycle at once, whereas the records loop first sleeps for one more
    second. *)
Theorem C6_inter_cycle_delay :
  forall env e later s s1,
    running e = true ->
    wait_events e
    = Select 1000000 :: (if 0 <? select_result e then [ReadStdin] else [])
    /\ (monitor_temperatures_table env e s = (0, s1) ->
        run_monitoring_loop env (e :: later) s
        = if keystroke e
          then run_monitoring_loop_exit (add_trace s1 (wait_events e))
          else run_monitoring_loop env later (add_trace s1 (wait_events e)))
    /\ (monitor_temperatures_json env e s = (0, s1) ->
        run_json_loop env (e :: later) s
        = if keystroke e
          then (Some 0, add_trace s1 (wait_events e))
          else run_json_loop env later
                 (add_trace s1 (wait_events e ++ [Sleep REFRESH_DURATION]))).
Proof.
  intros env e later s s1 Hrun.
  split; [reflexivity|]. split; intros Hcycle.
  - cbn [run_monitoring_loop]. rewrite Hrun. unfold bind at 1.
    rewrite Hcycle. cbn [Z.eqb negb]. unfold bind at 1.
    rewrite handle_input_wait.
    destruct (keystroke e); reflexivity.
  - cbn [run_json_loop]. rewrite Hrun. unfold bind at 1.
    rewrite Hcycle. cbn [Z.eqb negb]. unfold bind at 1.
    rewrite handle_input_wait.
    destruct (keystroke e); cbn [Z.eqb negb]; [reflexivity|].
    step. now rewrite add_trace_app.
Qed.

Lemma C6_inter_cycle_delay_witness :
  let s := ready_state (sample_env 1)
             (with_output_format Context_zero FORMAT_JSON) in
  let e := sample_cycle 1 0 0 0 in
  let s1 := snd (monitor_temperatures_json (sample_env 1) e s) in
  run_json_loop (sample_env 1) [e; sample_stop] s
  = run_json_loop (sample_env 1) [sample_stop]
      (add_trace s1 (wait_events e ++ [Sleep REFRESH_DURATION])).
Proof.
  intros s e s1.
  apply (proj2 (proj2 (C6_inter_cycle_delay (sample_env 1) e [sample_stop]
                         s s1 eq_refl))).
  vm_compute. reflexivity.
Defined.

(** C6, as stated, fails for the records loop: in a world where two cycles
    succeed, no key is pressed and then a signal arrives, it waits and then
    sleeps after each cycle, while the table loop only waits. *)
Lemma C6_counterexample :
  let script := [sample_cycle 1 0 0 0; sample_cycle 1 0 0 0; sample_stop] in
  filter is_delay
    (trace (snd (process (sample_env 1) ["gputemps"; "--json"] script)))
  = [Select 1000000; Sleep 1; Select 1000000; Sleep 1]
  /\ filter is_delay
       (trace (snd (process (sample_env 1) ["gputemps"] script)))
     = [Select 1000000; Select 1000000].
Proof. vm_compute. split; reflexivity. Qed.

(** ** What a failed cycle writes *)

Lemma silent_ret {A} (a : A) : silent (ret a).
Proof. intros s. exists []. split; [now rewrite app_nil_r | reflexivity]. Qed.

Lemma silent_bind {A B} (m : M A) (k : A -> M B) :
  silent m -> (forall a, silent (k a)) -> silent (bind m k).
Proof.
  intros Hm Hk s. unfold bind.
  destruct (Hm s) as (l1 & H1 & Q1). destruct (m s) as [a s1]. simpl in H1.
  destruct (Hk a s1) as (l2 & H2 & Q2).
  exists (l1 ++ l2). split.
  - now rewrite H2, H1, app_assoc.
  - rewrite forallb_app, Q1, Q2. reflexivity.
Qed.

Lemma silent_emit (ev : event) : is_stdout ev = false -> silent (emit ev).
Proof.
  intros H s. exists [ev]. split; [reflexivity|]. simpl. now rewrite H.
Qed.

Lemma silent_if {A} (b : bool) (m1 m2 : M A) :
  silent m1 -> silent m2 -> silent (if b then m1 else m2).
Proof. now destruct b. Qed.

Lemma silent_get_ctx : silent get_ctx.
Proof. intros s. exists []. split; [now rewrite app_nil_r | reflexivity]. Qed.

Lemma silent_set_ctx (c : Context) : silent (set_ctx c).
Proof. intros s. exists []. split; [cbn; now rewrite app_nil_r | reflexivity]. Qed.

Lemma silent_get_refresh_counter : silent get_refresh_counter.
Proof. intros s. exists []. split; [now rewrite app_nil_r | reflexivity]. Qed.

Lemma silent_set_refresh_counter (n : Z) : silent (set_refresh_counter n).
Proof. intros s. exists []. split; [cbn; now rewrite app_nil_r | reflexivity]. Qed.

Ltac quiet :=
  repeat first
    [ apply silent_ret
    | apply silent_get_ctx
    | apply silent_set_ctx
    | apply silent_get_refresh_counter
    | apply silent_set_refresh_counter
    | apply silent_emit; reflexivity
    | apply silent_bind; [|intros ?]
    | apply silent_if
    | match goal with
      | |- silent (let (_, _) := ?p in _) => destruct p
      end
    | progress unfold eprintf, buffer_append, print_gpu_info ].

Section Silence.

Variable env : Env.
Variable e : CycleEnv.

Lemma silent_get_gpu_temps_scan (devs : list Pci.pci_dev) (gpu : GpuDevice) :
  silent (get_gpu_temps_scan env e devs gpu).
Proof.
  induction devs as [|d devs IH]; simpl.
  - apply silent_ret.
  - apply silent_bind; [apply silent_emit; reflexivity | intros _].
    apply silent_if; [exact IH|].
    unfold get_gpu_temps_read, read_register_temp. quiet.
Qed.

Lemma silent_get_gpu_temps (index : Z) (gpu : GpuDevice) :
  silent (get_gpu_temps env e index gpu).
Proof.
  unfold get_gpu_temps, get_device_handle, get_gpu_temp, get_device_pci_info.
  quiet. apply silent_get_gpu_temps_scan.
Qed.

(** A device that cannot be sampled ends the loop over the devices at
    once: no later device is looked up and nothing is written. *)
Lemma table_rows_failure (k : nat) (i v : Z) (s : State) :
  fst (fst (get_gpu_temps env e i GpuDevice_zero s)) <> 0 ->
  table_rows env e (S k) i v s
  = (None, snd (get_gpu_temps env e i GpuDevice_zero s)).
Proof.
  intros H. cbn [table_rows]. unfold bind at 1.
  destruct (get_gpu_temps env e i GpuDevice_zero s) as [r s1]. simpl in *.
  apply Z.eqb_neq in H. now rewrite H.
Qed.

Lemma json_rows_failure (k : nat) (i first : Z) (s : State) :
  fst (fst (get_gpu_temps env e i GpuDevice_zero s)) <> 0 ->
  json_rows env e (S k) i first s
  = (false, snd (get_gpu_temps env e i GpuDevice_zero s)).
Proof.
  intros H. cbn [json_rows]. unfold bind at 1.
  destruct (get_gpu_temps env e i GpuDevice_zero s) as [r s1]. simpl in *.
  apply Z.eqb_neq in H. now rewrite H.
Qed.

Lemma silent_table_rows (n : nat) (i v : Z) :
  silent (table_rows env e n i v).
Proof.
  revert i v. induction n as [|n IH]; intros i v; simpl.
  - apply silent_ret.
  - apply silent_bind; [apply silent_get_gpu_temps | intros r].
    apply silent_if; [apply silent_ret|].
    apply silent_bind; [quiet | intros _]. apply IH.
Qed.

(** The table cycle writes to standard output only when every device has
    been sampled: a cycle that returns a failure has written nothing. *)
Lemma table_cycle_failure_writes_nothing (s : State) :
  fst (monitor_temperatures_table env e s) <> 0 ->
  exists added,
    trace (snd (monitor_temperatures_table env e s)) = trace s ++ added
    /\ forallb (fun ev => negb (is_stdout ev)) added = true.
Proof.
  intros Hfail.
  unfold monitor_temperatures_table in *.
  unfold buffer_append in *.
  unfold bind, get_ctx, set_ctx, get_refresh_counter, set_refresh_counter in *.
  cbn beta iota in *.
  match goal with
  | |- context [table_rows env e ?n ?i ?v ?st] =>
      destruct (silent_table_rows n i v st) as (added & Htr & Hq);
      destruct (table_rows env e n i v st) as [[v'|] s1]
  end.
  - exfalso. apply Hfail. reflexivity.
  - exists added. split; [exact Htr | exact Hq].
Qed.

End Silence.

(** The records cycle has written the opening of its record before it
    samples the first device, so a cycle that fails leaves it on standard
    output. *)
Lemma json_cycle_writes_opening (env : Env) (e : CycleEnv) (s : State) :
  exists rest,
    trace (snd (monitor_temperatures_json env e s))
    = trace s
      ++ TimeNull
      :: Stdout ("{" ++ DQ ++ "timestamp" ++ DQ ++ ":" ++ fmt_d (time_now e)
                 ++ "," ++ DQ ++ "gpus" ++ DQ ++ ":[")
      :: rest.
Proof.
  unfold monitor_temperatures_json. unfold printf, fflush_stdout.
  unfold bind, emit, get_ctx, ret. cbn beta iota.
  match goal with
  | |- context [json_rows env e ?n ?i ?f ?st] =>
      destruct (preserving_json_rows env e n i f st)
        as (_ & _ & _ & _ & _ & _ & added & Hadd);
      destruct (json_rows env e n i f st) as [ok s1]
  end.
  cbn [snd trace add_trace] in Hadd.
  destruct ok; cbn [negb snd trace add_trace]; rewrite Hadd;
    rewrite <- !app_assoc; cbn [app]; eexists; reflexivity.
Qed.

(** ** A failing cycle *)

Lemma apply_flags_once_iff (args : list string) (c : Context) :
  output_mode (fold_left apply_flag args c) = MODE_ONCE
  <-> output_mode c = MODE_ONCE \/ In "--once" args.
Proof.
  split; [|apply apply_flags_once].
  revert c. induction args as [|a args IH]; intros c H; simpl in *.
  - now left.
  - apply IH in H. unfold apply_flag in H.
    destruct (String.eqb a "--json") eqn:Hj.
    + destruct H as [H | H]; [left; exact H | right; now right].
    + destruct (String.eqb a "--once") eqn:Ho.
      * apply String.eqb_eq in Ho. right. now left.
      * destruct H as [H | H]; [left; exact H | right; now right].
Qed.

(** In continuous mode a first cycle that fails ends the process with exit
    code 1, after the shutdown: the cycle is not tried again. *)
Lemma process_continuous_failure (env : Env) (prog : string)
  (args : list string) (e : CycleEnv) (later : list CycleEnv) :
  forallb is_mode_flag args = true ->
  ~ In "--once" args ->
  let c0 := fold_left apply_flag args Context_zero in
  let fmt := output_format c0 in
  startup_ok env fmt ->
  running e = true ->
  let cycle := monitor_temperatures env fmt e (ready_state env c0) in
  fst cycle <> 0 ->
  process env (prog :: args) (e :: later)
  = (Some 1,
     add_trace
       (with_ctx (snd cycle)
          (with_pacc (with_initialized (ctx (snd cycle)) 0) None))
       (exit_events fmt)).
Proof.
  intros Hargs Honce c0 fmt Hstart Hrun cycle Hfail.
  assert (output_mode c0 = MODE_CONTINUOUS) as Hmode.
  { destruct (output_mode c0) eqn:Hm; [reflexivity|].
    exfalso. apply apply_flags_once_iff in Hm.
    destruct Hm as [Hm | Hm]; [discriminate Hm | now apply Honce]. }
  pose proof (preserving_monitor_temperatures env e fmt (ready_state env c0))
    as Hkeep.
  fold cycle in Hkeep.
  destruct Hkeep as (Hinit & Hpacc & _ & _ & _ & Hfns & _).
  cbn [ready_state ctx initialized pacc atexit_fns] in Hinit, Hpacc, Hfns.
  unfold process. unfold bind at 1.
  rewrite main_startup by assumption. fold c0.
  unfold bind at 1. unfold main_run. unfold bind at 1. unfold get_ctx at 1.
  cbn [ctx ready_state output_format output_mode]. rewrite Hmode. fold fmt.
  fold (ready_state env c0).
  assert (match fmt with
          | FORMAT_TABLE => run_monitoring_loop env (e :: later)
          | FORMAT_JSON => run_json_loop env (e :: later)
          end (ready_state env c0) = (Some (-1), snd cycle)) as ->.
  { subst cycle. unfold monitor_temperatures in *.
    destruct fmt;
      [apply run_monitoring_loop_failure | apply run_json_loop_failure];
      assumption. }
  unfold bind at 1.
  rewrite (cleanup_context_ready (snd cycle) (pci_devices env) Hinit Hpacc).
  unfold ret at 1. unfold bind at 1. unfold get_atexit_fns at 1.
  cbn [atexit_fns add_trace with_ctx]. rewrite Hfns.
  unfold exit_events. fold fmt.
  clearbody cycle. clearbody fmt.
  destruct fmt; cbn [is_table].
  - unfold bind. rewrite run_atexit_table. unfold ret.
    unfold add_trace, with_ctx. cbn. now rewrite <- app_assoc.
  - unfold bind, ret. cbn [run_atexit]. unfold ret.
    unfold add_trace, with_ctx. cbn. reflexivity.
Qed.

(** C3.  Two devices are counted and the handle lookup for the second one
    fails.  In continuous records mode the process exits with 1 and samples
    no further device, but the opening of the record and the reading of
    device 0 have already been written to standard output; in continuous
    table mode, in the same world, nothing of the cycle is written. *)
Theorem C3_failed_cycle_output :
  let script := [sample_cycle 1 0 0 0; sample_cycle 1 0 0 0] in
  let json := process (sample_env 2) ["gputemps"; "--json"] script in
  let table := process (sample_env 2) ["gputemps"] script in
  fst json = Some 1
  /\ filter is_stdout (trace (snd json))
     = [Stdout ("{" ++ DQ ++ "timestamp" ++ DQ ++ ":1700000000,"
                ++ DQ ++ "gpus" ++ DQ ++ ":[");
        Stdout ("{" ++ DQ ++ "index" ++ DQ ++ ":0," ++ DQ ++ "core" ++ DQ
                ++ ":45," ++ DQ ++ "junction" ++ DQ ++ ":50," ++ DQ ++ "vram"
                ++ DQ ++ ":30}")]
  /\ fst table = Some 1
  /\ filter is_stdout (trace (snd table))
     = [Stdout CURSOR_HIDE; Stdout CURSOR_SHOW]
  /\ ~ In (NvmlDeviceGetHandleByIndex 2) (trace (snd json))
  /\ ~ In (Select 1000000) (trace (snd json)).
Proof.
  vm_compute. repeat split; try reflexivity;
    intros H; repeat (destruct H as [H | H]; [discriminate H|]); exact H.
Qed.


(** * Further properties *)

(** ** Shutdown *)

(** X1.  [cleanup_context] shuts the management library down exactly when
    it is initialised and releases the PCI handle exactly when there is one;
    afterwards neither is held, and a second call does nothing. *)
Theorem cleanup_context_idempotent :
  forall s,
    let s1 := snd (cleanup_context s) in
    trace s1
    = trace s
      ++ (if initialized (ctx s) =? 0 then [] else [NvmlShutdown])
      ++ (match pacc (ctx s) with Some _ => [PciCleanup] | None => [] end)
    /\ initialized (ctx s1) = 0
    /\ pacc (ctx s1) = None
    /\ cleanup_context s1 = (tt, s1).
Proof.
  intros s. unfold cleanup_context. step.
  destruct s as [c rc fns tr]. destruct c as [r n i p b pos m f].
  cbn [ctx initialized pacc].
  destruct (i =? 0) eqn:Hi; destruct p as [devs|];
    cbn; rewrite ?Hi; cbn; rewrite ?app_nil_r, <- ?app_assoc;
    repeat split; try reflexivity.
  all: apply Z.eqb_eq in Hi; subst i; reflexivity.
Qed.

(** ** Initialisation *)

(** X2.  [init_monitoring] returns 0 or -1.  It returns 0 exactly when the
    user is root, the PCI access structure can be allocated, the management
    library initialises and counts at least one device; it then has made
    exactly the calls of a start-up, the last of which install the three
    signal handlers.  When it fails no signal handler has been installed. *)
Theorem init_monitoring_result :
  forall env s,
    let r := init_monitoring env s in
    exists added,
      trace (snd r) = trace s ++ added
      /\ (fst r = 0 \/ fst r = -1)
      /\ (fst r = 0 <->
          geteuid env = 0 /\ pci_alloc_ok env = true
          /\ nvmlInit env = NVML_SUCCESS
          /\ fst (nvmlDeviceGetCount env) = NVML_SUCCESS
          /\ u32 (snd (nvmlDeviceGetCount env)) <> 0)
      /\ (fst r = 0 ->
          added = init_events
          /\ initialized (ctx (snd r)) = 1
          /\ pacc (ctx (snd r)) = Some (pci_devices env)
          /\ device_count (ctx (snd r)) = u32 (snd (nvmlDeviceGetCount env)))
      /\ (fst r <> 0 -> forall signum, ~ In (Signal signum) added).
Proof.
  intros env s r. subst r.
  unfold init_monitoring, check_root_privileges, init_pci, init_nvml,
    get_device_count.
  step.
  destruct (Z.eqb_spec (geteuid env) 0) as [Heuid | Heuid]; cbn -[Z.eqb].
  2: { eexists. split; [unfold add_trace; cbn -[Z.eqb]; rewrite <- ?app_assoc; reflexivity|].
       split; [now right|]. split; [split; [discriminate | tauto]|].
       split; [discriminate|].
       intros _ sig [H | [H | []]]; discriminate H. }
  destruct (pci_alloc_ok env) eqn:Hpci; cbn -[Z.eqb].
  2: { eexists. split; [unfold add_trace; cbn -[Z.eqb]; rewrite <- ?app_assoc; reflexivity|].
       split; [now right|].
       split; [split; [discriminate | intros (_ & H & _); discriminate H]|].
       split; [discriminate|].
       intros _ sig H. cbn in H.
       repeat (destruct H as [H | H]; [discriminate H|]). exact H. }
  destruct (Z.eqb_spec NVML_SUCCESS (nvmlInit env)) as [Hnvml | Hnvml]; cbn -[Z.eqb].
  2: { eexists. split; [unfold add_trace; cbn -[Z.eqb]; rewrite <- ?app_assoc; reflexivity|].
       split; [now right|].
       split; [split; [discriminate | intros (_ & _ & H & _); congruence]|].
       split; [discriminate|].
       intros _ sig H. cbn in H.
       repeat (destruct H as [H | H]; [discriminate H|]). exact H. }
  destruct (nvmlDeviceGetCount env) as [rc n]. cbn [fst snd].
  destruct (Z.eqb_spec NVML_SUCCESS rc) as [Hrc | Hrc]; cbn -[Z.eqb].
  2: { eexists. split; [unfold add_trace; cbn -[Z.eqb]; rewrite <- ?app_assoc; reflexivity|].
       split; [now right|].
       split; [split; [discriminate | intros (_ & _ & _ & H & _); congruence]|].
       split; [discriminate|].
       intros _ sig H. cbn in H.
       repeat (destruct H as [H | H]; [discriminate H|]). exact H. }
  destruct (Z.eqb_spec (u32 n) 0) as [Hn | Hn]; cbn -[Z.eqb].
  { eexists. split; [unfold add_trace; cbn -[Z.eqb]; rewrite <- ?app_assoc; reflexivity|].
    split; [now right|].
    split; [split; [discriminate | intros (_ & _ & _ & _ & H); congruence]|].
    split; [discriminate|].
    intros _ sig H. cbn in H.
    repeat (destruct H as [H | H]; [discriminate H|]). exact H. }
  eexists. split; [unfold add_trace; cbn -[Z.eqb]; rewrite <- ?app_assoc; reflexivity|].
  split; [now left|].
  split; [split; [intros _; repeat split; congruence | reflexivity]|].
  split; [|congruence].
  intros _. repeat split; reflexivity.
Qed.

(** ** Command line *)

Lemma main_args_all_mode_flags (prog : string) (args : list string)
  (s : State) :
  forallb is_mode_flag args = true ->
  main_args prog args s
  = (None, with_ctx s (fold_left apply_flag args (ctx s))).
Proof.
  intros H. rewrite <- (app_nil_r args) at 1.
  now rewrite main_args_mode_flags.
Qed.

(** What the argument loop returns, for every argument list. *)
Lemma main_args_outcome (prog : string) (args : list string) (s : State) :
  (forallb is_mode_flag args = true
   /\ main_args prog args s
      = (None, with_ctx s (fold_left apply_flag args (ctx s))))
  \/ (exists pre a post code,
         args = pre ++ a :: post
         /\ forallb is_mode_flag pre = true
         /\ is_mode_flag a = false
         /\ code = (if String.eqb a "--help" then 0 else 1)
         /\ exists out,
             main_args prog args s
             = (Some code,
                add_trace (with_ctx s (fold_left apply_flag pre (ctx s))) out)
             /\ all_events is_stderr out).
Proof.
  destruct (first_deciding_argument args)
    as [Hall | (pre & a & post & -> & Hpre & Ha)].
  - left. split; [assumption | now apply main_args_all_mode_flags].
  - right. exists pre, a, post, (if String.eqb a "--help" then 0 else 1).
    repeat (split; [assumption || reflexivity|]).
    rewrite main_args_mode_flags by assumption.
    destruct (String.eqb a "--help") eqn:Hh.
    + apply String.eqb_eq in Hh. subst a.
      eexists. split; [apply main_args_help | reflexivity].
    + apply String.eqb_neq in Hh.
      eexists. split; [now apply main_args_unknown | reflexivity].
Qed.

(** X3.  The argument loop goes on to the start-up exactly when every
    argument is [--json] or [--once].  It then has printed nothing, the
    format is records exactly when [--json] occurs and the mode is one-shot
    exactly when [--once] occurs, however often and in whatever order the
    flags are given.  Otherwise it returns 0 or 1 and has written to
    standard error only. *)
Theorem main_args_flags :
  forall prog args s,
    let r := main_args prog args s in
    (fst r = None <-> forallb is_mode_flag args = true)
    /\ (fst r = None ->
        trace (snd r) = trace s
        /\ (output_format (ctx (snd r)) = FORMAT_JSON <->
            output_format (ctx s) = FORMAT_JSON \/ In "--json" args)
        /\ (output_mode (ctx (snd r)) = MODE_ONCE <->
            output_mode (ctx s) = MODE_ONCE \/ In "--once" args))
    /\ (forall code, fst r = Some code ->
        (code = 0 \/ code = 1)
        /\ exists out,
            trace (snd r) = trace s ++ out
            /\ all_events is_stderr out).
Proof.
  intros prog args s r. subst r.
  destruct (main_args_outcome prog args s)
    as [[Hall Hr] | (pre & a & post & code & Hargs & Hpre & Ha & Hcode
                     & out & Hr & Hout)];
    rewrite Hr; cbn [fst snd].
  - split; [tauto|]. split; [|discriminate].
    intros _. cbn [with_ctx trace ctx].
    split; [reflexivity|].
    split; [apply apply_flags_json | apply apply_flags_once_iff].
  - split.
    { split; [discriminate|]. intros Hall. exfalso.
      subst args. rewrite forallb_app in Hall. cbn in Hall.
      rewrite Ha, andb_false_r in Hall. discriminate Hall. }
    split; [discriminate|].
    intros c [= <-]. split.
    + subst code. destruct (String.eqb a "--help"); auto.
    + exists out. split; [reflexivity | exact Hout].
Qed.

(** ** Exit *)

Lemma cleanup_context_releases (s : State) :
  initialized (ctx (snd (cleanup_context s))) = 0
  /\ pacc (ctx (snd (cleanup_context s))) = None
  /\ atexit_fns (snd (cleanup_context s)) = atexit_fns s.
Proof.
  unfold cleanup_context. step.
  destruct s as [c rc fns tr]. destruct c as [r n i p b pos m f].
  cbn [ctx initialized pacc].
  destruct (i =? 0) eqn:Hi; destruct p as [devs|]; cbn;
    repeat split; try reflexivity.
  all: apply Z.eqb_eq in Hi; subst i; reflexivity.
Qed.

Lemma run_atexit_ctx (fns : list atexit_fn) (s : State) :
  ctx (snd (run_atexit fns s)) = ctx s.
Proof.
  revert s. induction fns as [|f fns IH]; intros s; [reflexivity|].
  destruct f; cbn [run_atexit]; unfold reset_terminal, restore_cursor; step;
    rewrite IH; reflexivity.
Qed.

(** X4.  Whenever the process exits, its exit code is 0 or 1. *)
Theorem process_exit_code :
  forall env argv script code s,
    process env argv script = (Some code, s) -> code = 0 \/ code = 1.
Proof.
  intros env argv script code s H.
  unfold process in H. unfold bind at 1 in H.
  destruct (main env argv script initial_state) as [[c|] s0] eqn:Hmain;
    [|discriminate H].
  assert (c = code) as ->.
  { unfold bind, ret, get_atexit_fns in H.
    destruct (run_atexit (atexit_fns s0) s0). now inversion H. }
  clear H. unfold main in Hmain.
  unfold bind at 1 in Hmain. unfold set_ctx at 1 in Hmain.
  unfold bind at 1 in Hmain.
  match type of Hmain with
  | context [main_args ?p ?a ?st] =>
      pose proof (main_args_outcome p a st) as Hargs;
      destruct (main_args p a st) as [[c0|] s1]
  end.
  - inversion Hmain; subst.
    destruct Hargs as [[_ Hr] | (pre & a & post & code0 & _ & _ & _ & Hcode
                                 & out & Hr & _)];
      [discriminate Hr|].
    inversion Hr; subst. destruct (String.eqb a "--help"); auto.
  - clear Hargs. unfold bind at 1 in Hmain. unfold get_ctx at 1 in Hmain.
    unfold bind at 1 in Hmain.
    destruct (is_table (output_format (ctx s1))).
    + unfold bind at 1 in Hmain.
      destruct (setup_terminal env s1) as [r s2].
      destruct (r <? 0).
      * unfold bind, ret in Hmain. destruct (cleanup_context s2).
        inversion Hmain. now right.
      * unfold printf, fflush_stdout in Hmain.
        unfold bind at 1 2 3 4, emit, atexit, ret at 1 in Hmain.
        cbn beta iota in Hmain.
        unfold bind at 1 in Hmain.
        destruct (init_monitoring env _) as [r1 s3].
        destruct (r1 <? 0).
        -- unfold bind, ret in Hmain. destruct (cleanup_context s3).
           inversion Hmain. now right.
        -- unfold bind at 1 in Hmain.
           destruct (main_run env script s3) as [[res|] s4];
             [|discriminate Hmain].
           unfold bind, ret in Hmain. destruct (cleanup_context s4).
           inversion Hmain. destruct (res =? 0); auto.
    + unfold ret at 1 in Hmain. unfold bind at 1 in Hmain.
      destruct (init_monitoring env s1) as [r1 s3].
      destruct (r1 <? 0).
      * unfold bind, ret in Hmain. destruct (cleanup_context s3).
        inversion Hmain. now right.
      * unfold bind at 1 in Hmain.
        destruct (main_run env script s3) as [[res|] s4];
          [|discriminate Hmain].
        unfold bind, ret in Hmain. destruct (cleanup_context s4).
        inversion Hmain. destruct (res =? 0); auto.
Qed.

Lemma process_exit_code_witness : 0 = 0 \/ 0 = 1.
Proof.
  apply (process_exit_code (sample_env 1) ["gputemps"; "--json"; "--once"]
           [sample_cycle 1 0 0 0] 0
           (snd (process (sample_env 1) ["gputemps"; "--json"; "--once"]
                   [sample_cycle 1 0 0 0]))).
  vm_compute. reflexivity.
Defined.

Lemma apply_flags_resources (args : list string) (c : Context) :
  initialized (fold_left apply_flag args c) = initialized c
  /\ pacc (fold_left apply_flag args c) = pacc c.
Proof. rewrite apply_flags_fields. split; reflexivity. Qed.

(** X5.  Whenever the process exits, on whatever path, the management
    library session is closed and the PCI handle released: no exit leaves
    either of them held. *)
Theorem process_releases_resources :
  forall env argv script code s,
    process env argv script = (Some code, s) ->
    initialized (ctx s) = 0 /\ pacc (ctx s) = None.
Proof.
  intros env argv script code s H.
  unfold process in H. unfold bind at 1 in H.
  destruct (main env argv script initial_state) as [[c|] s0] eqn:Hmain;
    [|discriminate H].
  assert (ctx s = ctx s0) as ->.
  { unfold bind, ret, get_atexit_fns in H.
    pose proof (run_atexit_ctx (atexit_fns s0) s0) as Hc.
    destruct (run_atexit (atexit_fns s0) s0). inversion H; subst.
    exact Hc. }
  clear H. unfold main in Hmain.
  unfold bind at 1 in Hmain. unfold set_ctx at 1 in Hmain.
  unfold bind at 1 in Hmain.
  match type of Hmain with
  | context [main_args ?p ?a ?st] =>
      destruct (main_args_outcome p a st)
        as [[_ Hr] | (pre & a0 & post & code0 & _ & _ & _ & _ & out & Hr & _)];
      rewrite Hr in Hmain; clear Hr
  end.
  2: { inversion Hmain; subst. cbn [ctx add_trace with_ctx].
       apply apply_flags_resources. }
  unfold bind at 1 in Hmain. unfold get_ctx at 1 in Hmain.
  unfold bind at 1 in Hmain.
  match type of Hmain with
  | context [is_table ?f] => destruct (is_table f)
  end.
  - unfold bind at 1 in Hmain.
    match type of Hmain with
    | context [setup_terminal env ?st] =>
        destruct (setup_terminal env st) as [r s2]
    end.
    destruct (r <? 0).
    + unfold bind, ret in Hmain.
      pose proof (cleanup_context_releases s2) as (Hi & Hp & _).
      destruct (cleanup_context s2). inversion Hmain; subst. now split.
    + unfold printf, fflush_stdout in Hmain.
      unfold bind at 1 2 3 4, emit, atexit, ret at 1 in Hmain.
      cbn beta iota in Hmain.
      unfold bind at 1 in Hmain.
      destruct (init_monitoring env _) as [r1 s3].
      destruct (r1 <? 0).
      * unfold bind, ret in Hmain.
        pose proof (cleanup_context_releases s3) as (Hi & Hp & _).
        destruct (cleanup_context s3). inversion Hmain; subst. now split.
      * unfold bind at 1 in Hmain.
        destruct (main_run env script s3) as [[res|] s4];
          [|discriminate Hmain].
        unfold bind, ret in Hmain.
        pose proof (cleanup_context_releases s4) as (Hi & Hp & _).
        destruct (cleanup_context s4). inversion Hmain; subst. now split.
  - unfold ret at 1 in Hmain. unfold bind at 1 in Hmain.
    destruct (init_monitoring env _) as [r1 s3].
    destruct (r1 <? 0).
    + unfold bind, ret in Hmain.
      pose proof (cleanup_context_releases s3) as (Hi & Hp & _).
      destruct (cleanup_context s3). inversion Hmain; subst. now split.
    + unfold bind at 1 in Hmain.
      destruct (main_run env script s3) as [[res|] s4];
        [|discriminate Hmain].
      unfold bind, ret in Hmain.
      pose proof (cleanup_context_releases s4) as (Hi & Hp & _).
      destruct (cleanup_context s4). inversion Hmain; subst. now split.
Qed.

Lemma process_releases_resources_witness :
  let s := snd (process (sample_env 2) ["gputemps"; "--json"]
                  [sample_cycle 1 0 0 0]) in
  initialized (ctx s) = 0 /\ pacc (ctx s) = None.
Proof.
  apply (process_releases_resources (sample_env 2) ["gputemps"; "--json"]
           [sample_cycle 1 0 0 0] 1).
  vm_compute. reflexivity.
Defined.

(** ** Relations between the states before and after *)

#[export] Instance all_events_additive (Q : event -> bool) :
  Additive (all_events Q).
Proof.
  split; [reflexivity|].
  unfold all_events. intros a b Ha Hb. now rewrite forallb_app, Ha, Hb.
Qed.

Lemma filter_length_app {A} (f : A -> bool) (a b : list A) :
  List.length (filter f (a ++ b))
  = (List.length (filter f a) + List.length (filter f b))%nat.
Proof. now rewrite filter_app, length_app. Qed.

#[export] Instance balanced_additive : Additive balanced.
Proof.
  split; [split; reflexivity|].
  unfold balanced, opened, closed, mapped, unmapped.
  intros a b [Ha1 Ha2] [Hb1 Hb2].
  rewrite !filter_length_app. split; congruence.
Qed.

#[export] Instance adds_composable (P : list event -> Prop) `{Additive P} :
  Composable (adds P).
Proof.
  split.
  - intros s. exists []. split; [now rewrite app_nil_r | apply additive_nil].
  - intros a b c (l1 & H1 & Q1) (l2 & H2 & Q2). exists (l1 ++ l2). split.
    + now rewrite H2, H1, app_assoc.
    + now apply additive_app.
Qed.

#[export] Instance same_exit_functions_composable :
  Composable same_exit_functions.
Proof.
  split; unfold same_exit_functions; [reflexivity | congruence].
Qed.

#[export] Instance both_composable (R1 R2 : State -> State -> Prop)
  `{Composable R1} `{Composable R2} : Composable (both R1 R2).
Proof.
  split.
  - intros s. split; apply composable_refl.
  - intros a b c [A1 A2] [B1 B2].
    split; eapply composable_trans; eassumption.
Qed.

#[export] Instance sampling_step_composable : Composable sampling_step.
Proof.
  split.
  - intros [[r n i p b pos m f] rc fns tr]. exists r, [].
    split; [|reflexivity].
    unfold add_trace, with_ctx, with_result. cbn. now rewrite app_nil_r.
  - intros a b c (r1 & l1 & -> & Q1) (r2 & l2 & -> & Q2).
    exists r2, (l1 ++ l2). split.
    + unfold add_trace, with_ctx, with_result. cbn. now rewrite app_assoc.
    + now apply additive_app.
Qed.

Lemma adds_allows (P : list event -> Prop) (ev : event) :
  P [ev] -> allows (adds P) ev.
Proof. intros H s. exists [ev]. split; [reflexivity | exact H]. Qed.

Lemma adds_with_ctx (P : list event -> Prop) `{Additive P} (s : State)
  (c : Context) : adds P s (with_ctx s c).
Proof. exists []. split; [cbn; now rewrite app_nil_r | apply additive_nil]. Qed.

Lemma adds_counter (P : list event -> Prop) `{Additive P} (s : State) (n : Z) :
  adds P s (mkState (ctx s) n (atexit_fns s) (trace s)).
Proof. exists []. split; [cbn; now rewrite app_nil_r | apply additive_nil]. Qed.

Section Respects.

Variable R : State -> State -> Prop.
Context `{Composable R}.

Lemma respects_ret {A} (a : A) : respects R (ret a).
Proof. intros s. apply composable_refl. Qed.

Lemma respects_bind {A B} (m : M A) (k : A -> M B) :
  respects R m -> (forall a, respects R (k a)) -> respects R (bind m k).
Proof.
  intros Hm Hk s. unfold bind.
  specialize (Hm s). destruct (m s) as [a s1]. simpl in Hm.
  eapply composable_trans; [exact Hm | apply Hk].
Qed.

Lemma respects_emit (ev : event) : allows R ev -> respects R (emit ev).
Proof. intros Hev s. apply Hev. Qed.

Lemma respects_if {A} (b : bool) (m1 m2 : M A) :
  respects R m1 -> respects R m2 -> respects R (if b then m1 else m2).
Proof. now destruct b. Qed.

Lemma respects_get_ctx : respects R get_ctx.
Proof. intros s. apply composable_refl. Qed.

Lemma respects_get_refresh_counter : respects R get_refresh_counter.
Proof. intros s. apply composable_refl. Qed.

Lemma respects_get_atexit_fns : respects R get_atexit_fns.
Proof. intros s. apply composable_refl. Qed.

(** A computation that reads the context and goes on from it. *)
Lemma respects_reading_ctx {A} (k : Context -> M A) :
  (forall s, R s (snd (k (ctx s) s))) -> respects R (c <- get_ctx ;; k c).
Proof. intros Hk s. apply Hk. Qed.

(** Storing the result code of a query. *)
Lemma respects_set_result {A} (r : nvmlReturn_t) (rest : M A) (s : State) :
  (forall s r, R s (with_ctx s (with_result (ctx s) r))) ->
  respects R rest ->
  R s (snd ((set_ctx (with_result (ctx s) r) ;; rest) s)).
Proof.
  intros Hr Hrest. unfold bind at 1, set_ctx at 1.
  eapply composable_trans; [apply (Hr s r) | apply Hrest].
Qed.

End Respects.

(** Applies a lemma about [respects], finding the closure of the relation. *)
Ltac re_apply lem := apply lem; [typeclasses eauto | ..].

(** Takes a computation apart, leaving the steps named in [leaf] to be
    dealt with. *)
Ltac walk leaf :=
  repeat first
    [ re_apply respects_ret
    | re_apply respects_get_ctx
    | re_apply respects_get_refresh_counter
    | re_apply respects_get_atexit_fns
    | leaf
    | re_apply respects_bind; [|intros ?]
    | apply respects_if
    | match goal with
      | |- respects _ (let (_, _) := ?p in _) => destruct p
      | |- respects _ (match ?p with Some _ => _ | None => _ end) => destruct p
      end
    | progress unfold eprintf, printf, fflush_stdout, buffer_append,
        print_gpu_info, print_usage ].

Section Walk.

(** The computations of the program respect a relation [R] that allows the
    steps each of them takes. *)

Variable R : State -> State -> Prop.
Context `{Composable R}.
Variable env : Env.

Hypothesis R_stderr : forall t, allows R (Stderr t).
Hypothesis R_stdout : forall t, allows R (Stdout t).
Hypothesis R_fflush : allows R Fflush.
Hypothesis R_time : allows R TimeNull.
Hypothesis R_handle : forall i, allows R (NvmlDeviceGetHandleByIndex i).
Hypothesis R_temperature : forall d, allows R (NvmlDeviceGetTemperature d).
Hypothesis R_pci_info : forall d, allows R (NvmlDeviceGetPciInfo d).
Hypothesis R_fill : forall d, allows R (PciFillInfo d).
Hypothesis R_select : forall t, allows R (Select t).
Hypothesis R_read : allows R ReadStdin.
Hypothesis R_sleep : forall t, allows R (Sleep t).
Hypothesis R_geteuid : allows R Geteuid.
Hypothesis R_pci_alloc : allows R PciAlloc.
Hypothesis R_pci_init : allows R PciInit.
Hypothesis R_pci_scan : allows R PciScanBus.
Hypothesis R_pci_cleanup : allows R PciCleanup.
Hypothesis R_nvml_init : allows R NvmlInit.
Hypothesis R_nvml_shutdown : allows R NvmlShutdown.
Hypothesis R_nvml_count : allows R NvmlDeviceGetCount.
Hypothesis R_signal : forall n, allows R (Signal n).

(** The register reader as a whole: its events come in pairs that a
    relation may allow only together. *)
Hypothesis R_read_register_temp :
  forall e dev offset temp,
    respects R (read_register_temp env e dev offset temp).

Ltac event :=
  apply respects_emit;
  first [ apply R_stderr | apply R_stdout | apply R_fflush | apply R_time
        | apply R_handle | apply R_temperature | apply R_pci_info
        | apply R_fill | apply R_select | apply R_read | apply R_sleep
        | apply R_geteuid | apply R_pci_alloc | apply R_pci_init
        | apply R_pci_scan | apply R_pci_cleanup | apply R_nvml_init
        | apply R_nvml_shutdown | apply R_nvml_count | apply R_signal ].

Section Sampling.

Variable e : CycleEnv.

Hypothesis R_result : forall s r, R s (with_ctx s (with_result (ctx s) r)).

Lemma walk_get_device_handle index device :
  respects R (get_device_handle env e index device).
Proof.
  unfold get_device_handle.
  re_apply respects_bind; [event | intros _].
  apply respects_reading_ctx. intros s.
  destruct (nvmlDeviceGetHandleByIndex e index) as [r d].
  re_apply respects_set_result; [exact R_result|].
  walk ltac:(event).
Qed.

Lemma walk_get_device_pci_info device pci_info :
  respects R (get_device_pci_info env e device pci_info).
Proof.
  unfold get_device_pci_info.
  re_apply respects_bind; [event | intros _].
  apply respects_reading_ctx. intros s.
  destruct (nvmlDeviceGetPciInfo e device) as [r p].
  re_apply respects_set_result; [exact R_result|].
  walk ltac:(event).
Qed.

Lemma walk_get_gpu_temp device temp :
  respects R (get_gpu_temp env e device temp).
Proof. unfold get_gpu_temp. walk ltac:(event). Qed.

Lemma walk_get_gpu_temps_scan devs gpu :
  respects R (get_gpu_temps_scan env e devs gpu).
Proof.
  induction devs as [|d devs IH]; cbn [get_gpu_temps_scan].
  - re_apply respects_ret.
  - re_apply respects_bind; [event | intros _].
    apply respects_if; [exact IH|].
    unfold get_gpu_temps_read.
    walk ltac:(apply R_read_register_temp).
Qed.

Lemma walk_get_gpu_temps index gpu :
  respects R (get_gpu_temps env e index gpu).
Proof.
  unfold get_gpu_temps.
  walk ltac:(first [ apply walk_get_device_handle | apply walk_get_gpu_temp
                   | apply walk_get_device_pci_info
                   | apply walk_get_gpu_temps_scan ]).
Qed.

End Sampling.

(** The rest of the program stores to the context and to the refresh
    counter as well. *)
Hypothesis R_ctx : forall s c, R s (with_ctx s c).
Hypothesis R_counter :
  forall s n, R s (mkState (ctx s) n (atexit_fns s) (trace s)).

Lemma respects_set_ctx (c : Context) : respects R (set_ctx c).
Proof. intros s. apply R_ctx. Qed.

Lemma respects_set_refresh_counter (n : Z) :
  respects R (set_refresh_counter n).
Proof. intros s. apply R_counter. Qed.

Ltac store :=
  first [ apply respects_set_ctx | apply respects_set_refresh_counter ].

Lemma walk_sampler e index gpu :
  respects R (get_gpu_temps env e index gpu).
Proof. apply walk_get_gpu_temps. intros s r. apply R_ctx. Qed.

Lemma walk_table_rows e n i v :
  respects R (table_rows env e n i v).
Proof.
  revert i v. induction n as [|n IH]; intros i v; cbn [table_rows].
  - re_apply respects_ret.
  - walk ltac:(first [store | apply walk_sampler | apply IH]).
Qed.

Lemma walk_json_rows e n i first :
  respects R (json_rows env e n i first).
Proof.
  revert i first. induction n as [|n IH]; intros i f; cbn [json_rows].
  - re_apply respects_ret.
  - walk ltac:(first [event | apply walk_sampler | apply IH]).
Qed.

Lemma walk_monitor_temperatures_table e :
  respects R (monitor_temperatures_table env e).
Proof.
  unfold monitor_temperatures_table.
  walk ltac:(first [event | store | apply walk_table_rows]).
Qed.

Lemma walk_monitor_temperatures_json e :
  respects R (monitor_temperatures_json env e).
Proof.
  unfold monitor_temperatures_json.
  walk ltac:(first [event | apply walk_json_rows]).
Qed.

Lemma walk_handle_input e d : respects R (handle_input e d).
Proof. unfold handle_input. walk ltac:(event). Qed.

Lemma walk_run_monitoring_loop script :
  respects R (run_monitoring_loop env script).
Proof.
  induction script as [|e later IH]; cbn [run_monitoring_loop].
  - re_apply respects_ret.
  - unfold run_monitoring_loop_exit.
    walk ltac:(first [event | apply walk_monitor_temperatures_table
                     | apply walk_handle_input | apply IH]).
Qed.

Lemma walk_run_json_loop script :
  respects R (run_json_loop env script).
Proof.
  induction script as [|e later IH]; cbn [run_json_loop].
  - re_apply respects_ret.
  - walk ltac:(first [event | apply walk_monitor_temperatures_json
                     | apply walk_handle_input | apply IH]).
Qed.

Lemma walk_main_run script : respects R (main_run env script).
Proof.
  unfold main_run. re_apply respects_bind; [re_apply respects_get_ctx | intros c].
  destruct (output_format c), (output_mode c);
    first [ apply walk_run_monitoring_loop | apply walk_run_json_loop
          | destruct script as [|e later]; cbn [once];
            walk ltac:(first [apply walk_monitor_temperatures_table
                             | apply walk_monitor_temperatures_json]) ].
Qed.

Lemma walk_init_monitoring : respects R (init_monitoring env).
Proof.
  unfold init_monitoring, check_root_privileges, init_pci, init_nvml,
    get_device_count.
  walk ltac:(first [event | store]).
Qed.

Lemma walk_cleanup_context : respects R cleanup_context.
Proof. unfold cleanup_context. walk ltac:(first [event | store]). Qed.

Lemma walk_main_args prog args : respects R (main_args prog args).
Proof.
  induction args as [|a args IH]; cbn [main_args].
  - re_apply respects_ret.
  - walk ltac:(first [event | store | apply IH]).
Qed.

(** The part of [main] that follows the setting up of the terminal. *)
Lemma walk_main_monitoring script :
  respects R (main_monitoring env script).
Proof.
  unfold main_monitoring.
  walk ltac:(first [ apply walk_init_monitoring | apply walk_cleanup_context
                   | apply walk_main_run ]).
Qed.

(** The whole program, for relations that allow the terminal to be
    switched as well. *)
Hypothesis R_tcgetattr : allows R Tcgetattr.
Hypothesis R_tcsetattr : forall restore, allows R (Tcsetattr restore).
Hypothesis R_atexit : forall f, respects R (atexit f).

Lemma walk_main argv script : respects R (main env argv script).
Proof.
  unfold main, setup_terminal.
  walk ltac:(first [ event | store | apply R_atexit
                   | apply respects_emit;
                     first [apply R_tcgetattr | apply R_tcsetattr]
                   | apply walk_main_args | apply walk_init_monitoring
                   | apply walk_cleanup_context | apply walk_main_run ]).
Qed.

Lemma walk_run_atexit fns : respects R (run_atexit fns).
Proof.
  induction fns as [|f fns IH]; cbn [run_atexit].
  - re_apply respects_ret.
  - destruct f; unfold reset_terminal, restore_cursor;
      walk ltac:(first [ event | apply respects_emit; apply R_tcsetattr
                       | apply IH ]).
Qed.

Lemma walk_process argv script :
  R initial_state (snd (process env argv script)).
Proof.
  unfold process.
  match goal with
  | |- R _ (snd (?m initial_state)) => enough (respects R m) as Hm by apply Hm
  end.
  walk ltac:(first [apply walk_main | apply walk_run_atexit]).
Qed.

End Walk.

(** ** What sampling may do *)

Lemma all_events_weaken (Q1 Q2 : event -> bool) (l : list event) :
  (forall ev, Q1 ev = true -> Q2 ev = true) ->
  all_events Q1 l -> all_events Q2 l.
Proof.
  unfold all_events. intros Himp H.
  rewrite forallb_forall in *. auto.
Qed.

Lemma sampling_step_allows (ev : event) :
  is_sampling_event ev = true -> allows sampling_step ev.
Proof.
  intros Hev [[r n i p b pos m f] rc fns tr]. exists r, [ev].
  split; [reflexivity|]. unfold all_events. cbn. now rewrite Hev.
Qed.

Lemma sampling_step_result (s : State) (r : nvmlReturn_t) :
  sampling_step s (with_ctx s (with_result (ctx s) r)).
Proof.
  exists r, []. split; [|reflexivity].
  unfold add_trace. cbn. now rewrite app_nil_r.
Qed.

Lemma get_gpu_temps_sampling_step env e index gpu :
  respects sampling_step (get_gpu_temps env e index gpu).
Proof.
  apply (walk_get_gpu_temps sampling_step env);
    try (intros; apply sampling_step_allows; reflexivity).
  - intros e0 dev offset temp. unfold read_register_temp.
    walk ltac:(apply respects_emit; apply sampling_step_allows; reflexivity).
  - apply sampling_step_result.
Qed.

(** X6.  Sampling one device changes nothing of the state of the program
    but [ctx->result], and does nothing but query the management library,
    have PCI records filled, access physical memory and write diagnostics
    to standard error.  The output buffer and its write position, the
    device count, the handles, the mode, the refresh counter and the
    functions registered for exit are as they were, and nothing has been
    written to standard output. *)
Theorem get_gpu_temps_frame :
  forall env e index gpu s,
    exists r added,
      snd (get_gpu_temps env e index gpu s)
      = add_trace (with_ctx s (with_result (ctx s) r)) added
      /\ all_events is_sampling_event added.
Proof.
  intros env e index gpu s. apply get_gpu_temps_sampling_step.
Qed.

(** ** Physical memory *)

Lemma adds_atexit (P : list event -> Prop) (f : atexit_fn) :
  P [Atexit f] -> respects (adds P) (atexit f).
Proof. intros H s. exists [Atexit f]. split; [reflexivity | exact H]. Qed.

Lemma balanced_read_register_temp env e dev offset temp :
  respects (adds balanced) (read_register_temp env e dev offset temp).
Proof.
  intros s.
  destruct (open_ok e dev offset) eqn:Ho.
  - destruct (mmap_ok e dev offset (base_offset env dev offset)) eqn:Hm.
    + rewrite read_register_temp_mapped by assumption.
      eexists. split; [reflexivity | split; reflexivity].
    + rewrite read_register_temp_mmap_fails by assumption.
      eexists. split; [reflexivity | split; reflexivity].
  - rewrite read_register_temp_open_fails by assumption.
    eexists. split; [reflexivity | split; reflexivity].
Qed.

(** X7.  Whatever the system answers and however the run ends, the process
    closes every descriptor of [/dev/mem] it has opened and unmaps every
    window it has mapped: in the events of a run, also of one that is still
    going on, there are as many [close] as successful [open] calls and as
    many [munmap] as successful [mmap] calls. *)
Theorem process_memory_balanced :
  forall env argv script,
    balanced (trace (snd (process env argv script))).
Proof.
  intros env argv script.
  destruct (walk_process (adds balanced) env) with (argv := argv)
    (script := script) as (added & Htr & Hb);
    try (intros; apply adds_allows; split; reflexivity);
    try (intros; first [apply adds_with_ctx | apply adds_counter];
         typeclasses eauto).


  - apply balanced_read_register_temp.
  - rewrite Htr. exact Hb.
Qed.

(** ** The terminal *)

(** [main] once the argument loop has gone through mode flags only. *)
Lemma main_records (env : Env) (argv : list string) (script : list CycleEnv)
  (s : State) :
  forallb is_mode_flag (tl argv) = true ->
  In "--json" (tl argv) ->
  main env argv script s
  = main_monitoring env script
      (with_ctx s (fold_left apply_flag (tl argv) Context_zero)).
Proof.
  intros Hargs Hjson.
  assert (output_format (fold_left apply_flag (tl argv) Context_zero)
          = FORMAT_JSON) as Hf by (apply apply_flags_json; now right).
  unfold main. unfold bind at 1. unfold set_ctx at 1. unfold bind at 1.
  rewrite main_args_all_mode_flags by assumption.
  unfold with_ctx. cbn [ctx refresh_counter atexit_fns trace].
  unfold bind at 1. unfold get_ctx at 1.
  cbn [ctx]. rewrite Hf. cbn [is_table].
  unfold bind at 1. unfold ret at 1. reflexivity.
Qed.

Lemma main_table (env : Env) (argv : list string) (script : list CycleEnv)
  (s : State) :
  forallb is_mode_flag (tl argv) = true ->
  ~ In "--json" (tl argv) ->
  let c0 := fold_left apply_flag (tl argv) Context_zero in
  main env argv script s
  = if tcgetattr_result env <? 0
    then (Some 1, add_trace (with_ctx s c0) [Tcgetattr])
    else if tcsetattr_result env <? 0
    then (Some 1,
          mkState c0 (refresh_counter s) (reset_terminal_fn :: atexit_fns s)
                  (trace s ++ [Tcgetattr; Atexit reset_terminal_fn;
                               Tcsetattr false]))
    else main_monitoring env script
           (mkState c0 (refresh_counter s)
                    (restore_cursor_fn :: reset_terminal_fn :: atexit_fns s)
                    (trace s ++ terminal_events)).
Proof.
  intros Hargs Hjson c0.
  assert (output_format c0 = FORMAT_TABLE) as Hf.
  { destruct (output_format c0) eqn:Hf; [reflexivity|].
    apply apply_flags_json in Hf. destruct Hf as [Hf | Hf];
      [discriminate Hf | contradiction]. }
  destruct (apply_flags_resources (tl argv) Context_zero) as [Hi Hp].
  fold c0 in Hi, Hp. cbn in Hi, Hp.
  unfold main. unfold bind at 1. unfold set_ctx at 1. unfold bind at 1.
  rewrite main_args_all_mode_flags by assumption.
  unfold with_ctx. cbn [ctx refresh_counter atexit_fns trace]. fold c0.
  clearbody c0. unfold bind at 1. unfold get_ctx at 1.
  cbn [ctx]. rewrite Hf. cbn [is_table].
  unfold setup_terminal, cleanup_context, atexit, printf, fflush_stdout.
  unfold bind, emit, ret, get_ctx, set_ctx. cbn beta iota.
  destruct (tcgetattr_result env <? 0).
  - cbn. rewrite Hi. cbn. rewrite Hp. cbn. reflexivity.
  - cbn. destruct (tcsetattr_result env <? 0).
    + cbn. rewrite Hi. cbn. rewrite Hp. cbn. unfold add_trace. cbn.
      rewrite <- !app_assoc. reflexivity.
    + cbn. unfold main_monitoring, bind, add_trace. cbn.
      rewrite <- !app_assoc. reflexivity.
Qed.

(** The process when the argument loop returns. *)
Lemma process_decided (env : Env) (argv : list string)
  (script : list CycleEnv) :
  forallb is_mode_flag (tl argv) = false ->
  exists code c out,
    process env argv script = (Some code, mkState c 0 [] out)
    /\ (code = 0 \/ code = 1)
    /\ all_events is_stderr out.
Proof.
  intros Hargs.
  destruct argv as [|prog args]; [discriminate Hargs|]. cbn [tl] in Hargs.
  destruct (first_deciding_argument args)
    as [Hall | (pre & a & post & -> & Hpre & Ha)]; [congruence|].
  destruct (String.eqb a "--help") eqn:Hh.
  - apply String.eqb_eq in Hh. subst a.
    exists 0, (fold_left apply_flag pre Context_zero),
      [Stderr (usage_text prog)].
    split; [|split; [now left | reflexivity]].
    apply process_deciding_argument; [assumption|].
    intros s. apply main_args_help.
  - apply String.eqb_neq in Hh.
    exists 1, (fold_left apply_flag pre Context_zero),
      [Stderr ("Unknown argument: " ++ a ++ NL); Stderr (usage_text prog)].
    split; [|split; [now right | reflexivity]].
    apply process_deciding_argument; [assumption|].
    intros s. now apply main_args_unknown.
Qed.

Lemma no_terminal_allows (ev : event) :
  no_terminal_event ev = true ->
  allows (both same_exit_functions (adds (all_events no_terminal_event))) ev.
Proof.
  intros Hev s. split; [reflexivity|].
  exists [ev]. split; [reflexivity|]. unfold all_events. cbn. now rewrite Hev.
Qed.

(** From the call of [init_monitoring] on, the program registers nothing
    for exit and leaves the terminal alone. *)
Lemma main_monitoring_no_terminal (env : Env) (script : list CycleEnv) :
  respects (both same_exit_functions (adds (all_events no_terminal_event)))
    (main_monitoring env script).
Proof.
  apply walk_main_monitoring;
    try (intros; apply no_terminal_allows; reflexivity).
  - typeclasses eauto.
  - intros e dev offset temp. unfold read_register_temp.
    walk ltac:(apply respects_emit; apply no_terminal_allows; reflexivity).
  - intros s c. split; [reflexivity | apply adds_with_ctx; typeclasses eauto].
  - intros s n. split; [reflexivity | apply adds_counter; typeclasses eauto].
Qed.

(** X8.  With [--json] among the arguments the process never reads or
    changes the terminal attributes and registers nothing to run at exit,
    whatever else is on the command line and however the run goes. *)
Theorem records_leave_terminal :
  forall env argv script,
    In "--json" (tl argv) ->
    all_events no_terminal_event (trace (snd (process env argv script))).
Proof.
  intros env argv script Hjson.
  destruct (forallb is_mode_flag (tl argv)) eqn:Hargs.
  - unfold process. unfold bind at 1.
    rewrite main_records by assumption.
    destruct (main_monitoring_no_terminal env script
                (with_ctx initial_state
                   (fold_left apply_flag (tl argv) Context_zero)))
      as [Hfns (added & Htr & Hq)].
    destruct (main_monitoring env script _) as [[code|] s1];
      cbn [snd] in Hfns, Htr; unfold same_exit_functions in Hfns;
      cbn in Hfns, Htr.
    + unfold bind, get_atexit_fns. rewrite Hfns. cbn [run_atexit].
      unfold ret. cbn [snd]. rewrite Htr. exact Hq.
    + unfold ret. cbn [snd]. rewrite Htr. exact Hq.
  - destruct (process_decided env argv script Hargs)
      as (code & c & out & -> & _ & Hout).
    cbn [snd trace].
    apply (all_events_weaken is_stderr); [|exact Hout].
    intros [] Hev; try discriminate Hev; reflexivity.
Qed.

Lemma records_leave_terminal_witness :
  all_events no_terminal_event
    (trace (snd (process (sample_env 1) ["gputemps"; "--json"]
                   [sample_cycle 1 0 1 1]))).
Proof.
  apply (records_leave_terminal (sample_env 1) ["gputemps"; "--json"]
           [sample_cycle 1 0 1 1]).
  simpl. left. reflexivity.
Defined.

(** X9.  In table mode the process puts the terminal back before it exits.
    If the attributes cannot be read, nothing about the terminal is changed
    and the exit code is 1.  If they cannot be set, the saved attributes are
    set again at exit and the exit code is 1.  Otherwise the run begins with
    the switching of the terminal and the hiding of the cursor and ends,
    whatever happened in between, with the cursor shown again and the saved
    attributes restored, in that order, and in between the terminal
    attributes are not touched. *)
Theorem table_restores_terminal :
  forall env argv script code s,
    forallb is_mode_flag (tl argv) = true ->
    ~ In "--json" (tl argv) ->
    process env argv script = (Some code, s) ->
    if tcgetattr_result env <? 0
    then code = 1 /\ trace s = [Tcgetattr]
    else if tcsetattr_result env <? 0
    then code = 1
         /\ trace s = [Tcgetattr; Atexit reset_terminal_fn; Tcsetattr false;
                       Tcsetattr true]
    else exists body,
        trace s
        = terminal_events ++ body
          ++ [Stdout CURSOR_SHOW; Fflush; Tcsetattr true]
        /\ all_events no_terminal_event body.
Proof.
  intros env argv script code s Hargs Hjson H.
  unfold process in H. unfold bind at 1 in H.
  rewrite main_table in H by assumption.
  destruct (tcgetattr_result env <? 0).
  - cbn in H. inversion H; subst. split; reflexivity.
  - destruct (tcsetattr_result env <? 0).
    + cbn in H. inversion H; subst. split; reflexivity.
    + match type of H with
      | context [main_monitoring env script ?st] =>
          destruct (main_monitoring_no_terminal env script st)
            as [Hfns (added & Htr & Hq)];
          destruct (main_monitoring env script st) as [[c|] s1];
          [|discriminate H]
      end.
      unfold same_exit_functions in Hfns. cbn in Hfns, Htr.
      unfold bind, get_atexit_fns in H. rewrite Hfns in H.
      rewrite run_atexit_table in H. unfold ret in H.
      inversion H; subst. exists added. split; [|exact Hq].
      cbn [add_trace trace]. rewrite Htr. reflexivity.
Qed.

Lemma table_restores_terminal_witness :
  exists body,
    trace (snd (process (sample_env 1) ["gputemps"; "--once"]
                  [sample_cycle 1 0 0 0]))
    = terminal_events ++ body
      ++ [Stdout CURSOR_SHOW; Fflush; Tcsetattr true]
    /\ all_events no_terminal_event body.
Proof.
  apply (table_restores_terminal (sample_env 1) ["gputemps"; "--once"]
           [sample_cycle 1 0 0 0] 0).
  - reflexivity.
  - simpl. intros [H | []]. discriminate H.
  - vm_compute. reflexivity.
Defined.

(** ** Privileges *)

(** Without root privileges the start-up fails at its first check and
    nothing has to be released. *)
Lemma main_monitoring_not_root (env : Env) (script : list CycleEnv)
  (s : State) :
  geteuid env <> 0 ->
  initialized (ctx s) = 0 ->
  pacc (ctx s) = None ->
  main_monitoring env script s
  = (Some 1,
     add_trace s [Geteuid;
                  Stderr ("This program requires root privileges" ++ NL)]).
Proof.
  intros Hroot Hi Hp. apply Z.eqb_neq in Hroot.
  unfold main_monitoring, init_monitoring, check_root_privileges,
    cleanup_context.
  step. rewrite Hroot. cbn. rewrite Hi. cbn. rewrite Hp. cbn.
  unfold add_trace. cbn. rewrite <- !app_assoc. reflexivity.
Qed.

(** X10.  A process that is not run as root always exits, with code 1
    when the arguments are mode flags only, and has used neither the PCI
    library nor the management library nor physical memory. *)
Theorem unprivileged_run :
  forall env argv script,
    geteuid env <> 0 ->
    exists code,
      fst (process env argv script) = Some code
      /\ (forallb is_mode_flag (tl argv) = true -> code = 1)
      /\ all_events unprivileged_event
           (trace (snd (process env argv script))).
Proof.
  intros env argv script Hroot.
  destruct (forallb is_mode_flag (tl argv)) eqn:Hargs.
  - destruct (apply_flags_resources (tl argv) Context_zero) as [Hi Hp].
    cbn [initialized pacc Context_zero] in Hi, Hp.
    assert (exists st, process env argv script = (Some 1, st)
                       /\ all_events unprivileged_event (trace st))
      as (st & -> & Hst).
    { unfold process. unfold bind at 1.
      destruct (in_dec string_dec "--json" (tl argv)) as [Hjson | Hjson].
      - rewrite main_records by assumption.
        rewrite main_monitoring_not_root by assumption.
        cbn. eexists. split; reflexivity.
      - rewrite main_table by assumption.
        destruct (tcgetattr_result env <? 0);
          [cbn; eexists; split; reflexivity|].
        destruct (tcsetattr_result env <? 0);
          [cbn; eexists; split; reflexivity|].
        rewrite main_monitoring_not_root by assumption.
        cbn. eexists. split; reflexivity. }
    exists 1. cbn [fst snd]. repeat split. exact Hst.
  - destruct (process_decided env argv script Hargs)
      as (code & c & out & -> & _ & Hout).
    exists code. cbn [fst snd trace].
    split; [reflexivity|]. split; [discriminate|].
    apply (all_events_weaken is_stderr); [|exact Hout].
    intros [] Hev; try discriminate Hev; reflexivity.
Qed.

Lemma unprivileged_run_witness :
  let env := mkEnv 4096 1000 true [sample_gpu] 0 (0, 1) (fun _ => "error") 0 0 in
  exists code,
    fst (process env ["gputemps"] [sample_cycle 1 0 0 0]) = Some code
    /\ (forallb is_mode_flag (tl ["gputemps"]) = true -> code = 1)
    /\ all_events unprivileged_event
         (trace (snd (process env ["gputemps"] [sample_cycle 1 0 0 0]))).
Proof.
  intros env.
  apply (unprivileged_run env ["gputemps"] [sample_cycle 1 0 0 0]).
  vm_compute. discriminate.
Defined.

(** ** What sampling returns *)

Section SamplerValue.

Variable env : Env.
Variable e : CycleEnv.

Lemma read_register_temp_fst dev offset temp s :
  fst (read_register_temp env e dev offset temp s)
  = read_register_temp_value env e dev offset temp.
Proof.
  unfold read_register_temp_value.
  destruct (open_ok e dev offset) eqn:Ho; cbn [negb].
  - destruct (mmap_ok e dev offset (base_offset env dev offset)) eqn:Hm;
      cbn [negb].
    + now rewrite read_register_temp_mapped.
    + now rewrite read_register_temp_mmap_fails.
  - now rewrite read_register_temp_open_fails.
Qed.

Lemma get_gpu_temps_read_fst dev gpu s :
  fst (get_gpu_temps_read env e dev gpu s)
  = get_gpu_temps_read_value env e dev gpu.
Proof.
  unfold get_gpu_temps_read, get_gpu_temps_read_value.
  unfold bind at 1.
  pose proof (read_register_temp_fst dev HOTSPOT_REGISTER_OFFSET
                (junction_temp gpu) s) as Hj.
  destruct (read_register_temp env e dev HOTSPOT_REGISTER_OFFSET
              (junction_temp gpu) s) as [jr s1].
  cbn [fst] in Hj. subst jr. cbv zeta.
  destruct (negb (int_result e dev _ (fst _) =? 0)); [reflexivity|].
  unfold bind at 1.
  match goal with
  | |- context [read_register_temp env e dev VRAM_REGISTER_OFFSET ?t s1] =>
      pose proof (read_register_temp_fst dev VRAM_REGISTER_OFFSET t s1) as Hv;
      destruct (read_register_temp env e dev VRAM_REGISTER_OFFSET t s1)
        as [vr s2]
  end.
  cbn [fst] in Hv. subst vr.
  destruct (negb (int_result e dev _ (fst _) =? 0)); reflexivity.
Qed.

Lemma get_gpu_temps_scan_fst devs gpu s :
  fst (get_gpu_temps_scan env e devs gpu s)
  = get_gpu_temps_scan_value env e devs gpu.
Proof.
  revert s. induction devs as [|d devs IH]; intros s;
    cbn [get_gpu_temps_scan get_gpu_temps_scan_value]; [reflexivity|].
  unfold bind, emit.
  destruct (pci_mismatch d (pci_info gpu));
    [apply IH | apply get_gpu_temps_read_fst].
Qed.

Lemma get_gpu_temps_fst index gpu s :
  fst (get_gpu_temps env e index gpu s)
  = get_gpu_temps_value env e (devices_of (ctx s)) index gpu.
Proof.
  unfold get_gpu_temps, get_gpu_temps_value, get_device_handle, get_gpu_temp,
    get_device_pci_info, get_device_handle_value, get_gpu_temp_value,
    get_device_pci_info_value.
  step.
  destruct (nvmlDeviceGetHandleByIndex e index) as [r1 d].
  destruct (NVML_SUCCESS =? r1); cbn -[Z.eqb]; [|reflexivity].
  destruct (nvmlDeviceGetTemperature e d) as [r2 t].
  destruct (NVML_SUCCESS =? r2); cbn -[Z.eqb]; [|reflexivity].
  destruct (nvmlDeviceGetPciInfo e d) as [r3 p].
  destruct (NVML_SUCCESS =? r3); cbn -[Z.eqb]; [|reflexivity].
  apply get_gpu_temps_scan_fst.
Qed.

Lemma get_gpu_temps_scan_value_find devs gpu :
  get_gpu_temps_scan_value env e devs gpu
  = match find (fun d => negb (pci_mismatch d (pci_info gpu))) devs with
    | Some dev => get_gpu_temps_read_value env e dev gpu
    | None => (-1, gpu)
    end.
Proof.
  induction devs as [|d devs IH]; cbn [get_gpu_temps_scan_value find];
    [reflexivity|].
  destruct (pci_mismatch d (pci_info gpu)); cbn [negb];
    [exact IH | reflexivity].
Qed.

Lemma get_gpu_temps_read_value_cases dev gpu :
  (registers_read env e dev
   /\ get_gpu_temps_read_value env e dev gpu
      = (0, mkGpu (device gpu) (pci_info gpu) (gpu_temp gpu)
              (Z.land (Z.shiftr
                         (reg_value env e dev HOTSPOT_REGISTER_OFFSET) 8) 0xff)
              (Z.land (reg_value env e dev VRAM_REGISTER_OFFSET) 0x00000fff
               / 0x20)))
  \/ (~ registers_read env e dev
      /\ fst (get_gpu_temps_read_value env e dev gpu) = -1).
Proof.
  unfold registers_read, get_gpu_temps_read_value, read_register_temp_value.
  destruct (open_ok e dev HOTSPOT_REGISTER_OFFSET); cbn [negb];
    [|right; split; [intros (H & _); discriminate H | reflexivity]].
  destruct (mmap_ok e dev HOTSPOT_REGISTER_OFFSET
              (base_offset env dev HOTSPOT_REGISTER_OFFSET));
    cbn [negb fst snd int_result];
    [|right; split; [intros (_ & H & _); discriminate H | reflexivity]].
  destruct (Z.eqb_spec (indeterminate e dev HOTSPOT_REGISTER_OFFSET) 0)
    as [Hj | Hj]; cbn [negb];
    [|right; split; [intros (_ & _ & H & _); contradiction | reflexivity]].
  destruct (open_ok e dev VRAM_REGISTER_OFFSET); cbn [negb];
    [|right; split; [intros (_ & _ & _ & H & _); discriminate H
                    | reflexivity]].
  destruct (mmap_ok e dev VRAM_REGISTER_OFFSET
              (base_offset env dev VRAM_REGISTER_OFFSET));
    cbn [negb fst snd int_result];
    [|right; split; [intros (_ & _ & _ & _ & H & _); discriminate H
                    | reflexivity]].
  destruct (Z.eqb_spec (indeterminate e dev VRAM_REGISTER_OFFSET) 0)
    as [Hv | Hv]; cbn [negb];
    [|right; split; [intros (_ & _ & _ & _ & _ & H); contradiction
                    | reflexivity]].
  left. repeat split; assumption.
Qed.

(** The second call goes through after the first has, and its caller reads
    something other than 0: the sampler fails with both fields written. *)
Lemma get_gpu_temps_read_value_late dev gpu :
  open_ok e dev HOTSPOT_REGISTER_OFFSET = true ->
  mmap_ok e dev HOTSPOT_REGISTER_OFFSET
    (base_offset env dev HOTSPOT_REGISTER_OFFSET) = true ->
  indeterminate e dev HOTSPOT_REGISTER_OFFSET = 0 ->
  open_ok e dev VRAM_REGISTER_OFFSET = true ->
  mmap_ok e dev VRAM_REGISTER_OFFSET
    (base_offset env dev VRAM_REGISTER_OFFSET) = true ->
  indeterminate e dev VRAM_REGISTER_OFFSET <> 0 ->
  get_gpu_temps_read_value env e dev gpu
  = (-1, mkGpu (device gpu) (pci_info gpu) (gpu_temp gpu)
           (Z.land (Z.shiftr
                      (reg_value env e dev HOTSPOT_REGISTER_OFFSET) 8) 0xff)
           (Z.land (reg_value env e dev VRAM_REGISTER_OFFSET) 0x00000fff
            / 0x20)).
Proof.
  intros Ho1 Hm1 Hi1 Ho2 Hm2 Hi2. apply Z.eqb_neq in Hi2.
  unfold get_gpu_temps_read_value, read_register_temp_value.
  rewrite Ho1, Hm1. cbn [negb fst snd int_result].
  rewrite Hi1. cbn [Z.eqb negb].
  rewrite Ho2, Hm2. cbn [negb fst snd int_result].
  rewrite Hi2. reflexivity.
Qed.

(** The first call goes through and its caller reads something other than
    0: the sampler fails before the second call, with the hotspot field
    written. *)
Lemma get_gpu_temps_read_value_early dev gpu :
  open_ok e dev HOTSPOT_REGISTER_OFFSET = true ->
  mmap_ok e dev HOTSPOT_REGISTER_OFFSET
    (base_offset env dev HOTSPOT_REGISTER_OFFSET) = true ->
  indeterminate e dev HOTSPOT_REGISTER_OFFSET <> 0 ->
  get_gpu_temps_read_value env e dev gpu
  = (-1, mkGpu (device gpu) (pci_info gpu) (gpu_temp gpu)
           (Z.land (Z.shiftr
                      (reg_value env e dev HOTSPOT_REGISTER_OFFSET) 8) 0xff)
           (vram_temp gpu)).
Proof.
  intros Ho1 Hm1 Hi1. apply Z.eqb_neq in Hi1.
  unfold get_gpu_temps_read_value, read_register_temp_value.
  rewrite Ho1, Hm1. cbn [negb fst snd int_result].
  rewrite Hi1. reflexivity.
Qed.

(** X11.  The value of [get_gpu_temps]: it returns 0 or -1, and 0 exactly
    when the three queries of the management library succeed, the list of
    PCI records has a record equal to the identity reported, and for each
    of the two calls of [read_register_temp] against the first such record,
    the hotspot one and the VRAM one, each with answers of its own,
    [/dev/mem] can be opened, the page of the register can be mapped and
    the value the caller reads in place of the missing return value is 0.
    The reading then consists of the handle and the identity reported, the
    core temperature reported, bits 8 to 15 of the hotspot register and
    bits 0 to 11 of the VRAM register divided by 32, both of that record.
    When the queries succeed, both registers of the record are read and
    only the value the caller reads for the second call is not 0, the
    sampler returns -1 with that same reading stored; when the value read
    for the first call is not 0, it returns -1 with the hotspot value
    stored and the VRAM field as it was. *)
Theorem get_gpu_temps_result :
  forall index gpu s,
    let r := fst (get_gpu_temps env e index gpu s) in
    let h := nvmlDeviceGetHandleByIndex e index in
    let t := nvmlDeviceGetTemperature e (snd h) in
    let p := nvmlDeviceGetPciInfo e (snd h) in
    let record :=
      find (fun d => negb (pci_mismatch d (snd p))) (devices_of (ctx s)) in
    let queried :=
      fst h = NVML_SUCCESS /\ fst t = NVML_SUCCESS /\ fst p = NVML_SUCCESS in
    let hotspot dev :=
      Z.land (Z.shiftr (reg_value env e dev HOTSPOT_REGISTER_OFFSET) 8) 0xff in
    let vram dev :=
      Z.land (reg_value env e dev VRAM_REGISTER_OFFSET) 0x00000fff / 0x20 in
    (fst r = 0 \/ fst r = -1)
    /\ (fst r = 0 <->
        queried
        /\ exists dev,
            record = Some dev
            /\ open_ok e dev HOTSPOT_REGISTER_OFFSET = true
            /\ mmap_ok e dev HOTSPOT_REGISTER_OFFSET
                 (base_offset env dev HOTSPOT_REGISTER_OFFSET) = true
            /\ indeterminate e dev HOTSPOT_REGISTER_OFFSET = 0
            /\ open_ok e dev VRAM_REGISTER_OFFSET = true
            /\ mmap_ok e dev VRAM_REGISTER_OFFSET
                 (base_offset env dev VRAM_REGISTER_OFFSET) = true
            /\ indeterminate e dev VRAM_REGISTER_OFFSET = 0)
    /\ (forall dev,
          fst r = 0 -> record = Some dev ->
          snd r
          = mkGpu (snd h) (snd p) (u32 (snd t)) (hotspot dev) (vram dev))
    /\ (forall dev,
          queried -> record = Some dev ->
          open_ok e dev HOTSPOT_REGISTER_OFFSET = true ->
          mmap_ok e dev HOTSPOT_REGISTER_OFFSET
            (base_offset env dev HOTSPOT_REGISTER_OFFSET) = true ->
          indeterminate e dev HOTSPOT_REGISTER_OFFSET = 0 ->
          open_ok e dev VRAM_REGISTER_OFFSET = true ->
          mmap_ok e dev VRAM_REGISTER_OFFSET
            (base_offset env dev VRAM_REGISTER_OFFSET) = true ->
          indeterminate e dev VRAM_REGISTER_OFFSET <> 0 ->
          r = (-1, mkGpu (snd h) (snd p) (u32 (snd t))
                     (hotspot dev) (vram dev)))
    /\ (forall dev,
          queried -> record = Some dev ->
          open_ok e dev HOTSPOT_REGISTER_OFFSET = true ->
          mmap_ok e dev HOTSPOT_REGISTER_OFFSET
            (base_offset env dev HOTSPOT_REGISTER_OFFSET) = true ->
          indeterminate e dev HOTSPOT_REGISTER_OFFSET <> 0 ->
          r = (-1, mkGpu (snd h) (snd p) (u32 (snd t))
                     (hotspot dev) (vram_temp gpu))).
Proof.
  intros index gpu s r h t p record queried hotspot vram.
  subst r h t p record queried hotspot vram.
  rewrite get_gpu_temps_fst.
  unfold get_gpu_temps_value, get_device_handle_value, get_gpu_temp_value,
    get_device_pci_info_value.
  destruct (nvmlDeviceGetHandleByIndex e index) as [r1 d]. cbn [fst snd].
  destruct (Z.eqb_spec NVML_SUCCESS r1) as [H1 | H1]; cbn -[Z.eqb].
  2: { split; [now right|].
       split; [split; [intros H; discriminate H
                      | intros ((H & _) & _); congruence]|].
       split; [intros dev H; discriminate H|].
       split; intros dev (H & _); congruence. }
  destruct (nvmlDeviceGetTemperature e d) as [r2 t]. cbn [fst snd].
  destruct (Z.eqb_spec NVML_SUCCESS r2) as [H2 | H2]; cbn -[Z.eqb].
  2: { split; [now right|].
       split; [split; [intros H; discriminate H
                      | intros ((_ & H & _) & _); congruence]|].
       split; [intros dev H; discriminate H|].
       split; intros dev (_ & H & _); congruence. }
  destruct (nvmlDeviceGetPciInfo e d) as [r3 p]. cbn [fst snd].
  destruct (Z.eqb_spec NVML_SUCCESS r3) as [H3 | H3]; cbn -[Z.eqb].
  2: { split; [now right|].
       split; [split; [intros H; discriminate H
                      | intros ((_ & _ & H) & _); congruence]|].
       split; [intros dev H; discriminate H|].
       split; intros dev (_ & _ & H); congruence. }
  rewrite get_gpu_temps_scan_value_find. cbn [pci_info].
  destruct (find (fun d0 => negb (pci_mismatch d0 p)) (devices_of (ctx s)))
    as [dev|].
  2: { split; [now right|].
       split; [split; [intros H; discriminate H
                      | intros (_ & dev & H & _); discriminate H]|].
       split; [intros dev H; discriminate H|].
       split; intros dev _ H; discriminate H. }
  split; [|split; [|split; [|split]]].
  - destruct (get_gpu_temps_read_value_cases dev
                (mkGpu d p (u32 t) (junction_temp gpu) (vram_temp gpu)))
      as [(_ & ->) | (_ & ->)]; [now left | now right].
  - destruct (get_gpu_temps_read_value_cases dev
                (mkGpu d p (u32 t) (junction_temp gpu) (vram_temp gpu)))
      as [(Hok & ->) | (Hno & ->)]; cbn [fst].
    + split; [|reflexivity]. intros _.
      split; [repeat split; congruence|]. exists dev. split; [reflexivity|].
      exact Hok.
    + split; [intros H; discriminate H|].
      intros (_ & dev' & [= <-] & Hok). contradiction.
  - intros dev' H0 [= <-].
    destruct (get_gpu_temps_read_value_cases dev
                (mkGpu d p (u32 t) (junction_temp gpu) (vram_temp gpu)))
      as [(_ & Hv) | (_ & Hv)]; [now rewrite Hv|].
    rewrite Hv in H0. discriminate H0.
  - intros dev' _ [= <-] Ho1 Hm1 Hi1 Ho2 Hm2 Hi2.
    now rewrite get_gpu_temps_read_value_late.
  - intros dev' _ [= <-] Ho1 Hm1 Hi1.
    now rewrite get_gpu_temps_read_value_early.
Qed.

End SamplerValue.

(** With both registers read and decoded, the sampler reports failure when
    the value read in place of the missing return value of the second call
    is not 0; the first call had each answer of its own. *)
Lemma sampler_fails_after_both_registers :
  let r := get_gpu_temps (sample_env 1) (sample_cycle_late 1) 0 GpuDevice_zero
             (mkState (with_pacc Context_zero
                         (Some (pci_devices (sample_env 1)))) 0 [] [])
  in fst r = (-1, mkGpu 100 sample_id 45 50 30)
     /\ In (Mmap 4096 0xF6020000 true) (trace (snd r))
     /\ In (Mmap 4096 0xF600E000 true) (trace (snd r)).
Proof.
  vm_compute. repeat split.
  - do 6 right. left. reflexivity.
  - do 11 right. left. reflexivity.
Qed.

(** ** The output of a records cycle *)

Lemma string_app_assoc (a b c : string) :
  ((a ++ b) ++ c = a ++ (b ++ c))%string.
Proof. induction a as [|x a IH]; cbn; [reflexivity | now rewrite IH]. Qed.

Lemma string_app_nil_r (a : string) : (a ++ EmptyString = a)%string.
Proof. induction a as [|x a IH]; cbn; [reflexivity | now rewrite IH]. Qed.

Lemma stdout_text_app (a b : list event) :
  stdout_text (a ++ b) = (stdout_text a ++ stdout_text b)%string.
Proof.
  induction a as [|ev a IH]; [reflexivity|].
  destruct ev; cbn [app stdout_text]; try exact IH.
  now rewrite IH, string_app_assoc.
Qed.

Lemma stdout_text_sampling (l : list event) :
  all_events is_sampling_event l -> stdout_text l = EmptyString.
Proof.
  unfold all_events. induction l as [|ev l IH]; [reflexivity|].
  cbn [forallb]. intros H. apply andb_prop in H. destruct H as [Hev Hl].
  destruct ev; try discriminate Hev; cbn [stdout_text]; now apply IH.
Qed.

(** The text of the records of the devices [i], [i + 1], ..., each with a
    comma before it. *)
Lemma concat_cons_prefixed (sep x : string) (l : list string) :
  String.concat sep (x :: l)
  = (x ++ fold_right (fun y t => sep ++ y ++ t) EmptyString l)%string.
Proof.
  revert x. induction l as [|y l IH]; intros x.
  - cbn. now rewrite string_app_nil_r.
  - change (String.concat sep (x :: y :: l))
      with (x ++ sep ++ String.concat sep (y :: l))%string.
    now rewrite IH.
Qed.

Lemma prefixed_concat (sep : string) (l : list string) :
  fold_right (fun y t => sep ++ y ++ t)%string EmptyString l
  = match l with
    | [] => EmptyString
    | x :: r => (sep ++ String.concat sep (x :: r))%string
    end.
Proof.
  destruct l as [|x r]; [reflexivity|].
  cbn [fold_right]. now rewrite concat_cons_prefixed.
Qed.

Section RecordsCycle.

Variable env : Env.
Variable e : CycleEnv.

Lemma json_rows_success (m : nat) (i first : Z) (s : State) :
  fst (fst (get_gpu_temps env e i GpuDevice_zero s)) = 0 ->
  json_rows env e (S m) i first s
  = json_rows env e m (u32 (i + 1)) 0
      (add_trace (snd (get_gpu_temps env e i GpuDevice_zero s))
         ((if first =? 0 then [Stdout ","] else [])
          ++ [Stdout (json_record_text i
                        (snd (fst (get_gpu_temps env e i GpuDevice_zero s))))])).
Proof.
  intros H. cbn [json_rows]. unfold bind at 1.
  destruct (get_gpu_temps env e i GpuDevice_zero s) as [r s1].
  cbn [fst snd] in *. rewrite H. cbn [Z.eqb negb].
  unfold printf, bind, emit, ret.
  destruct (first =? 0); cbn [app]; rewrite ?add_trace_app; reflexivity.
Qed.

(** The loop over the devices: [k] devices from [i] on are sampled and
    the next one, if there is one, is not. *)
Lemma json_rows_text (devs : list Pci.pci_dev) (m : nat) :
  forall (k : nat) (i first : Z) (s : State),
    devices_of (ctx s) = devs ->
    0 <= i -> i + Z.of_nat m < 2 ^ 32 ->
    (k <= m)%nat ->
    (forall j, (j < k)%nat ->
       fst (get_gpu_temps_value env e devs (i + Z.of_nat j) GpuDevice_zero)
       = 0) ->
    ((k < m)%nat ->
       fst (get_gpu_temps_value env e devs (i + Z.of_nat k) GpuDevice_zero)
       <> 0) ->
    exists added,
      trace (snd (json_rows env e m i first s)) = trace s ++ added
      /\ fst (json_rows env e m i first s) = (k =? m)%nat
      /\ devices_of (ctx (snd (json_rows env e m i first s))) = devs
      /\ stdout_text added
         = match map (fun j =>
                   json_record_text (i + Z.of_nat j)
                     (snd (get_gpu_temps_value env e devs (i + Z.of_nat j)
                             GpuDevice_zero)))
                  (seq 0 k) with
           | [] => EmptyString
           | x :: l =>
               ((if (first =? 0)%Z then "," else EmptyString)
                ++ String.concat "," (x :: l))%string
           end.
Proof.
  induction m as [|m IH]; intros k i first s Hdevs Hi Hbound Hk Hok Hfail.
  - assert (k = 0%nat) as -> by lia. cbn [json_rows]. exists [].
    unfold ret. cbn [fst snd]. rewrite app_nil_r. repeat split; assumption.
  - pose proof (get_gpu_temps_fst env e i GpuDevice_zero s) as Hval.
    rewrite Hdevs in Hval.
    destruct (get_gpu_temps_sampling_step env e i GpuDevice_zero s)
      as (r & added1 & Hs1 & Hq1).
    destruct k as [|k].
    + assert (fst (get_gpu_temps_value env e devs i GpuDevice_zero) <> 0)
        as Hf by (rewrite <- (Z.add_0_r i); apply Hfail; lia).
      rewrite json_rows_failure by (rewrite Hval; exact Hf).
      cbn [fst snd seq map]. rewrite Hs1. exists added1.
      split; [reflexivity|]. split; [reflexivity|].
      split; [exact Hdevs|]. now apply stdout_text_sampling.
    + assert (fst (get_gpu_temps_value env e devs i GpuDevice_zero) = 0)
        as Hf by (rewrite <- (Z.add_0_r i); apply (Hok 0%nat); lia).
      rewrite json_rows_success by (rewrite Hval; exact Hf).
      rewrite Hval, Hs1.
      assert (u32 (i + 1) = i + 1) as -> by (apply u32_small; lia).
      set (rec := json_record_text i
                    (snd (get_gpu_temps_value env e devs i GpuDevice_zero))).
      set (added2 := (if first =? 0 then [Stdout ","] else [])
                     ++ [Stdout rec]).
      rewrite add_trace_app.
      match goal with
      | |- context [json_rows env e m (i + 1) 0 ?st] => set (s3 := st)
      end.
      assert (stdout_text added2
              = ((if (first =? 0)%Z then "," else EmptyString) ++ rec)%string)
        as Hx3.
      { subst added2. destruct (first =? 0); cbn [stdout_text app];
          now rewrite ?string_app_nil_r. }
      destruct (IH k (i + 1) 0 s3 Hdevs) as (added3 & Ht & Hr & Hd & Hx);
        try lia.
      { intros j Hj. replace (i + 1 + Z.of_nat j) with (i + Z.of_nat (S j))
          by lia. apply Hok. lia. }
      { intros Hlt. replace (i + 1 + Z.of_nat k) with (i + Z.of_nat (S k))
          by lia. apply Hfail. lia. }
      exists (added1 ++ added2 ++ added3).
      split; [rewrite Ht; subst s3; cbn [trace add_trace with_ctx];
              rewrite <- !app_assoc; reflexivity|].
      split; [exact Hr|]. split; [exact Hd|].
      rewrite !stdout_text_app, (stdout_text_sampling _ Hq1), Hx3, Hx.
      cbn [String.append].
      cbn [seq map]. rewrite <- seq_shift, map_map.
      rewrite Z.add_0_r. fold rec.
      rewrite concat_cons_prefixed, string_app_assoc.
      f_equal. f_equal.
      match goal with
      | |- context [map ?f (seq 0 k)] =>
          rewrite (map_ext f
                     (fun j => json_record_text (i + Z.of_nat (S j))
                        (snd (get_gpu_temps_value env e devs
                                (i + Z.of_nat (S j)) GpuDevice_zero))))
            by (intros j; replace (i + 1 + Z.of_nat j)
                  with (i + Z.of_nat (S j)) by lia; reflexivity)
      end.
      symmetry. etransitivity; [apply prefixed_concat | reflexivity].
Qed.

(** The text of a records cycle in which the first [k] devices can be
    sampled. *)
Lemma monitor_temperatures_json_text :
  forall s k,
    let n := Z.to_nat (device_count (ctx s)) in
    let reading i :=
      fst (get_gpu_temps env e (Z.of_nat i) GpuDevice_zero s) in
    let r := monitor_temperatures_json env e s in
    device_count (ctx s) < 2 ^ 32 ->
    (k <= n)%nat ->
    (forall i, (i < k)%nat -> fst (reading i) = 0) ->
    ((k < n)%nat -> fst (reading k) <> 0) ->
    fst r = (if (k =? n)%nat then 0 else -1)
    /\ exists added,
        trace (snd r) = trace s ++ added
        /\ stdout_text added
           = (json_opening_text (time_now e)
              ++ String.concat ","
                   (map (fun i => json_record_text (Z.of_nat i)
                                    (snd (reading i))) (seq 0 k))
              ++ (if (k =? n)%nat then "]}" ++ NL else EmptyString))%string.
Proof.
  intros s k n reading r Hcount Hk Hok Hfail.
  set (s1 := add_trace s [TimeNull; Stdout (json_opening_text (time_now e))]).
  assert (forall i, reading i
                    = get_gpu_temps_value env e (devices_of (ctx s))
                        (Z.of_nat i) GpuDevice_zero) as Hreading
    by (intros i; apply get_gpu_temps_fst).
  destruct (json_rows_text (devices_of (ctx s)) n k 0 1 s1)
    as (added & Htr & Hres & _ & Htext); try reflexivity; try lia.
  { intros j Hj. cbn [Z.add]. rewrite <- Hreading. now apply Hok. }
  { intros Hlt. cbn [Z.add]. rewrite <- Hreading. now apply Hfail. }
  assert (r = (let (ok, s2) := json_rows env e n 0 1 s1 in
               if negb ok then (-1, s2)
               else (0, add_trace s2 [Stdout ("]}" ++ NL); Fflush]))) as ->.
  { subst r. unfold monitor_temperatures_json, printf, fflush_stdout.
    unfold bind, emit, ret, get_ctx. cbn beta iota.
    rewrite add_trace_app.
    match goal with
    | |- context [json_rows env e ?n' 0 1 ?st] =>
        change st with s1
    end.
    change (Z.to_nat (device_count (ctx s1))) with n.
    destruct (json_rows env e n 0 1 s1) as [ok s2].
    destruct ok; cbn [negb]; [|reflexivity].
    now rewrite add_trace_app. }
  destruct (json_rows env e n 0 1 s1) as [ok s2]. cbn [fst snd] in *.
  subst ok.
  assert (stdout_text added
          = String.concat ","
              (map (fun i => json_record_text (Z.of_nat i) (snd (reading i)))
                 (seq 0 k))) as Hrecords.
  { rewrite Htext.
    rewrite (map_ext _ (fun i => json_record_text (Z.of_nat i)
                                  (snd (reading i))))
      by (intros i; rewrite Hreading; reflexivity).
    assert (forall l : list string,
               match l with
               | [] => EmptyString
               | x :: r =>
                   ((if (1 =? 0)%Z then "," else EmptyString)
                    ++ String.concat "," (x :: r))%string
               end = String.concat "," l) as Hm
      by (intros [|x l]; reflexivity).
    apply Hm. }
  destruct (k =? n)%nat; cbn [negb fst snd].
  - split; [reflexivity|].
    exists ([TimeNull; Stdout (json_opening_text (time_now e))] ++ added
            ++ [Stdout ("]}" ++ NL); Fflush]).
    split.
    + cbn [add_trace trace]. rewrite Htr. subst s1. cbn [add_trace trace].
      now rewrite <- !app_assoc.
    + rewrite !stdout_text_app, Hrecords. cbn [stdout_text].
      now rewrite !string_app_nil_r.
  - split; [reflexivity|].
    exists ([TimeNull; Stdout (json_opening_text (time_now e))] ++ added).
    split.
    + rewrite Htr. subst s1. cbn [add_trace trace].
      now rewrite <- !app_assoc.
    + rewrite !stdout_text_app, Hrecords. cbn [stdout_text].
      now rewrite !string_app_nil_r.
Qed.

(** X13.  What a records cycle writes.  The devices are sampled in the
    order of their indices until one fails.  If the first [k] devices can
    be sampled and the next one, if there is one, cannot, the cycle writes
    the opening with the time stamp and the records of these [k] devices
    in index order, separated by commas, with no comma before the first or
    after the last.  When all devices have been sampled it closes the
    array and the object, ends the line and returns 0; otherwise it returns
    -1 and leaves the output without the closing brackets and without a
    line end. *)
Theorem json_cycle_text :
  forall s k,
    let n := Z.to_nat (device_count (ctx s)) in
    let reading i :=
      fst (get_gpu_temps env e (Z.of_nat i) GpuDevice_zero s) in
    let r := monitor_temperatures_json env e s in
    device_count (ctx s) < 2 ^ 32 ->
    (k <= n)%nat ->
    (forall i, (i < k)%nat -> fst (reading i) = 0) ->
    ((k < n)%nat -> fst (reading k) <> 0) ->
    fst r = (if (k =? n)%nat then 0 else -1)
    /\ exists added,
        trace (snd r) = trace s ++ added
        /\ stdout_text added
           = (json_opening_text (time_now e)
              ++ String.concat ","
                   (map (fun i => json_record_text (Z.of_nat i)
                                    (snd (reading i))) (seq 0 k))
              ++ (if (k =? n)%nat then "]}" ++ NL else EmptyString))%string.
Proof. exact monitor_temperatures_json_text. Qed.

End RecordsCycle.

Lemma json_cycle_text_witness :
  let s := mkState (mkCtx 0 2 1 (Some [sample_bridge; sample_gpu])
                      (output_buffer Context_zero) 0 MODE_ONCE FORMAT_JSON)
             0 [] [] in
  let r := monitor_temperatures_json (sample_env 2) (sample_cycle 1 0 0 0) s in
  fst r = -1
  /\ exists added,
      trace (snd r) = trace s ++ added
      /\ stdout_text added
         = (json_opening_text 1700000000
            ++ String.concat ","
                 (map (fun i =>
                         json_record_text (Z.of_nat i)
                           (snd (fst (get_gpu_temps (sample_env 2)
                                        (sample_cycle 1 0 0 0) (Z.of_nat i)
                                        GpuDevice_zero s))))
                    (seq 0 1))
            ++ EmptyString)%string.
Proof.
  intros s r.
  apply (json_cycle_text (sample_env 2) (sample_cycle 1 0 0 0) s 1%nat).
  - reflexivity.
  - vm_compute. lia.
  - intros i Hi. assert (i = 0%nat) as -> by lia. reflexivity.
  - intros _. vm_compute. discriminate.
Defined.

(** ** The text in the output buffer *)

Lemma list_ascii_of_string_app (a b : string) :
  list_ascii_of_string (a ++ b)
  = list_ascii_of_string a ++ list_ascii_of_string b.
Proof. induction a as [|x a IH]; cbn; [reflexivity | now rewrite IH]. Qed.

Lemma string_of_list_ascii_app (a b : list ascii) :
  string_of_list_ascii (a ++ b)
  = (string_of_list_ascii a ++ string_of_list_ascii b)%string.
Proof. induction a as [|x a IH]; cbn; [reflexivity | now rewrite IH]. Qed.

Lemma list_ascii_length (t : string) :
  List.length (list_ascii_of_string t) = String.length t.
Proof. induction t as [|x t IH]; cbn; [reflexivity | now rewrite IH]. Qed.

Lemma string_length_app (a b : string) :
  String.length (a ++ b) = (String.length a + String.length b)%nat.
Proof. induction a as [|x a IH]; cbn; [reflexivity | now rewrite IH]. Qed.

Lemma strlen_app (a b : string) : strlen (a ++ b) = strlen a + strlen b.
Proof. unfold strlen. rewrite string_length_app. lia. Qed.

Lemma no_nul_app (a b : string) :
  no_nul (a ++ b) = no_nul a && no_nul b.
Proof. unfold no_nul. now rewrite list_ascii_of_string_app, forallb_app. Qed.

Lemma upd_nth_firstn_S {A} (l : list A) (n : nat) (a : A) :
  (n < List.length l)%nat ->
  firstn (S n) (upd_nth l n a) = firstn n l ++ [a].
Proof.
  revert n. induction l as [|x l IH]; intros n Hn; [cbn in Hn; lia|].
  destruct n as [|n]; [reflexivity|].
  cbn [upd_nth]. change (firstn (S (S n)) (x :: upd_nth l n a))
    with (x :: firstn (S n) (upd_nth l n a)).
  rewrite IH by (cbn in Hn; lia). reflexivity.
Qed.

Lemma upd_nth_skipn {A} (l : list A) (n k : nat) (a : A) :
  (n < k)%nat -> skipn k (upd_nth l n a) = skipn k l.
Proof.
  revert n k. induction l as [|x l IH]; intros n k Hk.
  - destruct n; reflexivity.
  - destruct k as [|k]; [lia|].
    destruct n as [|n]; [reflexivity|].
    cbn [upd_nth skipn]. apply IH. lia.
Qed.

(** The bytes of a text stored one after the other replace that part of
    the array. *)
Lemma fold_stores_from (l : list ascii) :
  forall (p : nat) (buf : list ascii),
    (p + List.length l <= List.length buf)%nat ->
    fold_left store_byte (stores_from (Z.of_nat p) l) buf
    = firstn p buf ++ l ++ skipn (p + List.length l) buf.
Proof.
  induction l as [|x l IH]; intros p buf Hlen.
  - cbn. rewrite Nat.add_0_r. now rewrite firstn_skipn.
  - cbn [stores_from fold_left List.length] in *.
    replace (Z.of_nat p + 1) with (Z.of_nat (S p)) by lia.
    rewrite IH by (rewrite store_byte_length; lia).
    unfold store_byte.
    assert ((0 <=? Z.of_nat p) && (Z.of_nat p <? Z.of_nat (List.length buf))
            = true) as ->
      by (apply andb_true_intro; split; [apply Z.leb_le | apply Z.ltb_lt]; lia).
    rewrite Nat2Z.id.
    rewrite upd_nth_firstn_S by lia.
    rewrite upd_nth_skipn by lia.
    rewrite <- app_assoc. cbn [app].
    replace (S p + List.length l)%nat with (p + S (List.length l))%nat by lia.
    reflexivity.
Qed.

Lemma stores_from_app (pos : Z) (a b : list ascii) :
  stores_from pos (a ++ b)
  = stores_from pos a ++ stores_from (pos + Z.of_nat (List.length a)) b.
Proof.
  revert pos. induction a as [|x a IH]; intros pos.
  - cbn. now rewrite Z.add_0_r.
  - cbn [app stores_from List.length]. rewrite IH.
    replace (pos + 1 + Z.of_nat (List.length a))
      with (pos + Z.of_nat (S (List.length a))) by lia.
    reflexivity.
Qed.

Lemma cstring_app (a rest : list ascii) :
  forallb (fun c => negb (Ascii.eqb c zero)) a = true ->
  cstring (a ++ zero :: rest) = string_of_list_ascii a.
Proof.
  induction a as [|x a IH]; intros H; [reflexivity|].
  cbn [forallb] in H. apply andb_prop in H. destruct H as [Hx Ha].
  cbn [app cstring string_of_list_ascii].
  apply negb_true_iff in Hx. rewrite Hx. now rewrite IH.
Qed.

Lemma forallb_firstn {A} (f : A -> bool) (n : nat) (l : list A) :
  forallb f l = true -> forallb f (firstn n l) = true.
Proof.
  revert n. induction l as [|x l IH]; intros n H.
  - now rewrite firstn_nil.
  - destruct n as [|n]; [reflexivity|].
    cbn [forallb firstn] in *. apply andb_prop in H. destruct H as [Hx Hl].
    now rewrite Hx, IH.
Qed.

(** The array after [buffer_append]: what was before the write position,
    as much of the new text as there is room for before the last byte, and
    a zero byte. *)
Lemma buffer_append_array_at (c : Context) (s : string) :
  List.length (output_buffer c) = Z.to_nat BUFFER_SIZE ->
  0 <= buffer_pos c < BUFFER_SIZE ->
  let p := Z.to_nat (buffer_pos c) in
  let n := Z.to_nat (Z.min (strlen s) (BUFFER_SIZE - 1 - buffer_pos c)) in
  output_buffer (buffer_append_ctx c s)
  = firstn p (output_buffer c)
    ++ firstn n (list_ascii_of_string s)
    ++ zero :: skipn (p + n + 1) (output_buffer c).
Proof.
  intros Hlen Hpos p n.
  assert (0 <= strlen s) as Hs by (unfold strlen; lia).
  assert (0 <= buffer_pos c <= BUFFER_SIZE) as Hp by lia.
  destruct (remaining_exact c Hp) as [Hrem Hsize].
  assert (output_buffer (buffer_append_ctx c s)
          = fold_left store_byte (buffer_append_stores c s) (output_buffer c))
    as -> by (unfold buffer_append_ctx; destruct (_ && _); reflexivity).
  unfold buffer_append_stores. rewrite Hsize.
  unfold vsnprintf_stores.
  destruct (Z.eqb_spec (BUFFER_SIZE - buffer_pos c) 0) as [Hz | _]; [lia|].
  replace (BUFFER_SIZE - buffer_pos c - 1) with (BUFFER_SIZE - 1 - buffer_pos c)
    by lia.
  fold n.
  assert (List.length (firstn n (list_ascii_of_string s)) = n) as Hn.
  { apply firstn_length_le. rewrite list_ascii_length.
    subst n. unfold strlen in *. lia. }
  assert (buffer_pos c = Z.of_nat p) as Hpp by (subst p; lia).
  rewrite Hpp.
  replace (stores_from (Z.of_nat p) (firstn n (list_ascii_of_string s))
           ++ [(Z.of_nat p + Z.of_nat n, zero)])
    with (stores_from (Z.of_nat p)
            (firstn n (list_ascii_of_string s) ++ [zero]))
    by (rewrite stores_from_app, Hn; reflexivity).
  rewrite fold_stores_from.
  - rewrite length_app, Hn. cbn [List.length].
    rewrite <- app_assoc. cbn [app].
    replace (p + (n + 1))%nat with (p + n + 1)%nat by lia.
    reflexivity.
  - rewrite length_app, Hn, Hlen. cbn [List.length].
    subst n p. unfold BUFFER_SIZE in *. lia.
Qed.

Lemma buffer_append_array (c : Context) (t s : string) :
  buffer_holds c t ->
  let n := Z.to_nat (Z.min (strlen s) (BUFFER_SIZE - 1 - strlen t)) in
  output_buffer (buffer_append_ctx c s)
  = list_ascii_of_string t
    ++ firstn n (list_ascii_of_string s)
    ++ zero :: skipn (String.length t + n + 1) (output_buffer c).
Proof.
  intros (Hlen & Hpos & Hroom & Hnul & Hfirst) n.
  assert (0 <= strlen t) as Ht by (unfold strlen; lia).
  rewrite buffer_append_array_at by (try assumption; lia).
  rewrite Hpos. fold n.
  replace (Z.to_nat (strlen t)) with (String.length t)
    by (unfold strlen; lia).
  now rewrite Hfirst.
Qed.

(** After a call of [buffer_append] the buffer has a zero byte and the
    write position is before its last byte. *)
Lemma buffer_append_terminated (c : Context) (s : string) :
  List.length (output_buffer c) = Z.to_nat BUFFER_SIZE ->
  0 <= buffer_pos c < BUFFER_SIZE ->
  buffer_terminated (buffer_append_ctx c s).
Proof.
  intros Hlen Hpos.
  pose proof (buffer_append_array_at c s Hlen Hpos) as Harr.
  cbv zeta in Harr.
  assert (0 <= buffer_pos c <= BUFFER_SIZE) as Hp by lia.
  destruct (remaining_exact c Hp) as [Hrem _].
  split; [|split].
  - unfold buffer_append_ctx.
    destruct (_ && _); cbn [output_buffer with_buffer];
      now rewrite fold_store_length.
  - unfold buffer_append_ctx. rewrite Hrem.
    destruct ((0 <? vsnprintf_result s)
              && (vsnprintf_result s <? BUFFER_SIZE - buffer_pos c)) eqn:Hfit;
      cbn [buffer_pos with_buffer]; [|exact Hpos].
    apply andb_prop in Hfit. destruct Hfit as [H0 H1].
    apply Z.ltb_lt in H0. apply Z.ltb_lt in H1.
    rewrite u64_small
      by (change (2 ^ 64) with 18446744073709551616;
          unfold BUFFER_SIZE in *; lia).
    lia.
  - rewrite Harr. apply in_or_app. right. apply in_or_app. right. now left.
Qed.

Lemma cstring_length (l : list ascii) :
  In zero l -> (String.length (cstring l) < List.length l)%nat.
Proof.
  induction l as [|x l IH]; intros H; [contradiction|].
  cbn [cstring List.length].
  destruct (Ascii.eqb_spec x zero) as [-> | Hx]; [cbn; lia|].
  destruct H as [H | H]; [congruence|].
  cbn [String.length]. apply IH in H. lia.
Qed.

(** What the buffer reads back as after [buffer_append]. *)
Lemma buffer_append_reads (c : Context) (t s : string) :
  buffer_holds c t ->
  no_nul s = true ->
  let n := Z.to_nat (Z.min (strlen s) (BUFFER_SIZE - 1 - strlen t)) in
  cstring (output_buffer (buffer_append_ctx c s))
  = (t ++ string_of_list_ascii (firstn n (list_ascii_of_string s)))%string.
Proof.
  intros Hholds Hs n.
  pose proof (buffer_append_array c t s Hholds) as Harr. cbv zeta in Harr.
  fold n in Harr.
  destruct Hholds as (Hlen & Hpos & Hroom & Hnul & Hfirst).
  assert (forallb (fun x => negb (Ascii.eqb x zero))
            (list_ascii_of_string t ++ firstn n (list_ascii_of_string s))
          = true) as Hclean.
  { rewrite forallb_app. apply andb_true_intro. split; [exact Hnul|].
    apply forallb_firstn. exact Hs. }
  rewrite Harr, app_assoc, cstring_app by exact Hclean.
  now rewrite string_of_list_ascii_app, string_of_list_ascii_of_string.
Qed.

(** A text that fits is added to the text the buffer holds. *)
Lemma buffer_append_fits (c : Context) (t s : string) :
  buffer_holds c t ->
  no_nul s = true ->
  strlen s <= BUFFER_SIZE - 1 - strlen t ->
  buffer_holds (buffer_append_ctx c s) (t ++ s)
  /\ cstring (output_buffer (buffer_append_ctx c s)) = (t ++ s)%string.
Proof.
  intros Hholds Hs Hfit.
  pose proof (buffer_append_reads c t s Hholds Hs) as Hread.
  pose proof (buffer_append_array c t s Hholds) as Harr.
  cbv zeta in Hread, Harr.
  destruct Hholds as (Hlen & Hpos & Hroom & Hnul & Hfirst).
  assert (0 <= strlen t) as Ht by (unfold strlen; lia).
  assert (0 <= strlen s) as Hs0 by (unfold strlen; lia).
  assert (0 <= buffer_pos c <= BUFFER_SIZE) as Hp by lia.
  destruct (remaining_exact c Hp) as [Hrem _].
  set (n := Z.to_nat (Z.min (strlen s) (BUFFER_SIZE - 1 - strlen t))) in *.
  assert (n = String.length s) as Hn
    by (subst n; rewrite Z.min_l by assumption; unfold strlen; lia).
  assert (firstn n (list_ascii_of_string s) = list_ascii_of_string s)
    as Hall by (apply firstn_all2; rewrite list_ascii_length; lia).
  split.
  - split.
    { unfold buffer_append_ctx.
      destruct (_ && _); cbn [output_buffer with_buffer];
        now rewrite fold_store_length. }
    split.
    { unfold buffer_append_ctx. rewrite Hrem, Hpos.
      assert (vsnprintf_result s = strlen s) as ->.
      { unfold vsnprintf_result.
        destruct (Z.ltb_spec (strlen s) (2 ^ 31)) as [_ | Hbig];
          [reflexivity|].
        change (2 ^ 31) with 2147483648 in Hbig.
        unfold BUFFER_SIZE in *. lia. }
      destruct (Z.ltb_spec 0 (strlen s)) as [Hpos0 | Hzero];
        cbn [andb].
      - assert ((strlen s <? BUFFER_SIZE - strlen t) = true) as ->
          by (apply Z.ltb_lt; lia).
        cbn [buffer_pos with_buffer]. rewrite strlen_app.
        apply u64_small. change (2 ^ 64) with 18446744073709551616.
        unfold BUFFER_SIZE in *. lia.
      - cbn [buffer_pos with_buffer]. rewrite strlen_app. lia. }
    split; [rewrite strlen_app; lia|].
    split; [rewrite no_nul_app, Hnul, Hs; reflexivity|].
    rewrite Harr, Hall, string_length_app, list_ascii_of_string_app.
    rewrite app_assoc.
    rewrite <- (list_ascii_length t), <- (list_ascii_length s),
      <- length_app.
    now rewrite firstn_app, Nat.sub_diag, firstn_all, app_nil_r.
  - rewrite Hread, Hall. now rewrite string_of_list_ascii_of_string.
Qed.

(** X14.  What the output buffer reads back as.  When the buffer holds a
    text [t], appending a text [s] makes it read, as a C string,
    [t] followed by as much of [s] as fits before the last byte of the
    buffer.  If all of [s] fits, the buffer then holds [t ++ s] and the
    write position is at its end.  If it does not, the write position stays
    at the end of [t], so the cut-off copy of [s] is there to be printed
    but will be overwritten by the next call. *)
Theorem buffer_append_text :
  forall c t s,
    buffer_holds c t ->
    no_nul s = true ->
    let c' := buffer_append_ctx c s in
    let room := BUFFER_SIZE - 1 - strlen t in
    cstring (output_buffer c')
    = (t ++ string_of_list_ascii
              (firstn (Z.to_nat room) (list_ascii_of_string s)))%string
    /\ (strlen s <= room ->
        buffer_holds c' (t ++ s)
        /\ cstring (output_buffer c') = (t ++ s)%string)
    /\ (room < strlen s -> buffer_holds c' t).
Proof.
  intros c t s Hholds Hs c' room.
  pose proof (buffer_append_reads c t s Hholds Hs) as Hread.
  pose proof (buffer_append_array c t s Hholds) as Harr.
  cbv zeta in Hread, Harr. fold c' in Hread, Harr. fold room in Hread, Harr.
  pose proof (buffer_append_fits c t s Hholds Hs) as Hfits.
  fold c' in Hfits. fold room in Hfits.
  destruct Hholds as (Hlen & Hpos & Hroom & Hnul & Hfirst).
  assert (0 <= strlen t) as Ht by (unfold strlen; lia).
  assert (0 <= strlen s) as Hs0 by (unfold strlen; lia).
  assert (0 <= buffer_pos c <= BUFFER_SIZE) as Hp by lia.
  destruct (remaining_exact c Hp) as [Hrem _].
  set (n := Z.to_nat (Z.min (strlen s) room)) in *.
  assert (firstn n (list_ascii_of_string s)
          = firstn (Z.to_nat room) (list_ascii_of_string s)) as Hcut.
  { subst n. destruct (Z.le_gt_cases (strlen s) room) as [Hfit | Hcut].
    - rewrite Z.min_l by assumption.
      rewrite !firstn_all2; [reflexivity | |];
        rewrite list_ascii_length; unfold strlen in *; lia.
    - rewrite Z.min_r by lia. reflexivity. }
  split; [rewrite Hread, Hcut; reflexivity|].
  split; [exact Hfits|].
  intros Hcutoff.
  split.
  { subst c'. unfold buffer_append_ctx.
    destruct (_ && _); cbn [output_buffer with_buffer];
      now rewrite fold_store_length. }
  split.
  { subst c'. unfold buffer_append_ctx. rewrite Hrem, Hpos.
    assert ((0 <? vsnprintf_result s)
            && (vsnprintf_result s <? BUFFER_SIZE - strlen t) = false) as ->.
    { destruct (vsnprintf_result_cases s) as [[-> _] | [-> _]].
      - apply andb_false_iff. right. apply Z.ltb_ge. lia.
      - reflexivity. }
    cbn [buffer_pos with_buffer]. reflexivity. }
  split; [exact Hroom|]. split; [exact Hnul|].
  rewrite Harr. rewrite <- (list_ascii_length t).
  now rewrite firstn_app, Nat.sub_diag, firstn_all, app_nil_r.
Qed.

Lemma buffer_append_text_witness :
  let c := buffer_append_ctx Context_zero "  CORE  " in
  let c' := buffer_append_ctx c "  JUNC  " in
  let room := BUFFER_SIZE - 1 - strlen "  CORE  " in
  cstring (output_buffer c')
  = ("  CORE  " ++ string_of_list_ascii
                     (firstn (Z.to_nat room)
                        (list_ascii_of_string "  JUNC  ")))%string
  /\ (strlen "  JUNC  " <= room ->
      buffer_holds c' ("  CORE  " ++ "  JUNC  ")
      /\ cstring (output_buffer c') = ("  CORE  " ++ "  JUNC  ")%string)
  /\ (room < strlen "  JUNC  " -> buffer_holds c' "  CORE  ").
Proof.
  intros c.
  apply (buffer_append_text c "  CORE  " "  JUNC  ").
  - repeat split; reflexivity.
  - reflexivity.
Defined.

(** ** The output of a table cycle *)

Section TableCycle.

Variable env : Env.
Variable e : CycleEnv.

(** The cycle, step by step. *)
Lemma monitor_temperatures_table_steps (s : State) :
  monitor_temperatures_table env e s
  = let rc := if refresh_counter s =? 0 then 1 else 0 in
    let c1 :=
      buffer_append_ctx
        (buffer_append_ctx
           (with_buffer (ctx s) (output_buffer (ctx s)) 0)
           (NL ++ (if rc =? 0 then "* " else "  ")))
        (SEPARATOR ++ "  CORE  " ++ SEPARATOR ++ "  JUNC  "
         ++ SEPARATOR ++ "  VRAM  " ++ SEPARATOR ++ NL) in
    let s1 := mkState c1 rc (atexit_fns s) (trace s) in
    let (rows, s2) :=
      table_rows env e (Z.to_nat (device_count c1)) 0 0 s1 in
    match rows with
    | None => (-1, s2)
    | Some v =>
        let c3 := buffer_append_ctx (ctx s2) (cursor_up_text (s32 (v + 2))) in
        (0, add_trace (with_ctx s2 c3)
              [Stdout (cstring (output_buffer c3)); Fflush])
    end.
Proof.
  unfold monitor_temperatures_table, buffer_append, printf, fflush_stdout.
  unfold bind, get_ctx, set_ctx, get_refresh_counter, set_refresh_counter,
    emit, ret.
  cbn beta iota zeta. cbn [ctx refresh_counter atexit_fns trace].
  destruct (table_rows env e _ 0 0 _) as [[v|] s2]; [|reflexivity].
  cbn [ctx refresh_counter atexit_fns trace].
  unfold add_trace, with_ctx, cursor_up_text.
  cbn [ctx refresh_counter atexit_fns trace].
  rewrite <- app_assoc. reflexivity.
Qed.

Lemma table_rows_success (m : nat) (i v : Z) (s : State) :
  fst (fst (get_gpu_temps env e i GpuDevice_zero s)) = 0 ->
  table_rows env e (S m) i v s
  = let s1 := snd (get_gpu_temps env e i GpuDevice_zero s) in
    table_rows env e m (u32 (i + 1)) (s32 (v + 1))
      (with_ctx s1
         (buffer_append_ctx (ctx s1)
            (print_gpu_info_text i
               (snd (fst (get_gpu_temps env e i GpuDevice_zero s)))))).
Proof.
  intros H. cbn [table_rows]. unfold bind at 1.
  destruct (get_gpu_temps env e i GpuDevice_zero s) as [r s1].
  cbn [fst snd] in *. rewrite H. cbn [Z.eqb negb].
  unfold print_gpu_info, buffer_append, bind, get_ctx, set_ctx.
  reflexivity.
Qed.

(** The loop over the devices adds events of sampling only, and keeps the
    buffer terminated. *)
Lemma table_rows_general (m : nat) :
  forall (i v : Z) (s : State),
    exists c' added,
      snd (table_rows env e m i v s) = add_trace (with_ctx s c') added
      /\ all_events is_sampling_event added
      /\ (buffer_terminated (ctx s) -> buffer_terminated c').
Proof.
  induction m as [|m IH]; intros i v s.
  - exists (ctx s), []. cbn [table_rows]. unfold ret. cbn [fst snd].
    split; [destruct s; unfold add_trace, with_ctx; cbn;
            now rewrite app_nil_r|].
    split; [reflexivity | auto].
  - destruct (get_gpu_temps_sampling_step env e i GpuDevice_zero s)
      as (r & added1 & Hs1 & Hq1).
    destruct (Z.eq_dec (fst (fst (get_gpu_temps env e i GpuDevice_zero s))) 0)
      as [Hok | Hfail].
    + rewrite table_rows_success by assumption. cbv zeta.
      rewrite Hs1.
      match goal with
      | |- context [table_rows env e m ?i' ?v' ?st] =>
          destruct (IH i' v' st) as (c' & added2 & Hs2 & Hq2 & Hterm)
      end.
      exists c', (added1 ++ added2).
      split; [rewrite Hs2; unfold add_trace, with_ctx; cbn;
              now rewrite app_assoc|].
      split; [now apply additive_app|].
      intros (Hlen & Hpos & Hz). apply Hterm.
      cbn [ctx with_ctx add_trace].
      apply buffer_append_terminated; assumption.
    + rewrite table_rows_failure by assumption. cbn [fst snd].
      exists (with_result (ctx s) r), added1.
      split; [exact Hs1|]. split; [exact Hq1|].
      intros H. exact H.
Qed.

(** A table cycle writes its buffer once, or not at all. *)
Lemma monitor_temperatures_table_writes :
  forall s,
    let r := monitor_temperatures_table env e s in
    (fst r = 0 \/ fst r = -1)
    /\ refresh_counter (snd r) = (if refresh_counter s =? 0 then 1 else 0)
    /\ (exists sampling,
          all_events is_sampling_event sampling
          /\ trace (snd r)
             = trace s ++ sampling
               ++ (if fst r =? 0
                   then [Stdout (cstring (output_buffer (ctx (snd r))));
                         Fflush]
                   else []))
    /\ (List.length (output_buffer (ctx s)) = Z.to_nat BUFFER_SIZE ->
        List.length (output_buffer (ctx (snd r))) = Z.to_nat BUFFER_SIZE
        /\ strlen (cstring (output_buffer (ctx (snd r)))) < BUFFER_SIZE).
Proof.
  intros s r. subst r. rewrite monitor_temperatures_table_steps. cbv zeta.
  set (rc := if refresh_counter s =? 0 then 1 else 0).
  set (c1 := buffer_append_ctx (buffer_append_ctx _ _) _).
  assert (List.length (output_buffer (ctx s)) = Z.to_nat BUFFER_SIZE ->
          buffer_terminated c1) as Hc1.
  { intros Hlen. subst c1.
    match goal with
    | |- buffer_terminated (buffer_append_ctx ?c _) =>
        assert (buffer_terminated c) as (H1 & H2 & _)
    end.
    - apply buffer_append_terminated; cbn [output_buffer buffer_pos with_buffer];
        [assumption | unfold BUFFER_SIZE; lia].
    - now apply buffer_append_terminated. }
  destruct (table_rows_general (Z.to_nat (device_count c1)) 0 0
              (mkState c1 rc (atexit_fns s) (trace s)))
    as (c' & added & Hs2 & Hq & Hterm).
  destruct (table_rows env e (Z.to_nat (device_count c1)) 0 0
              (mkState c1 rc (atexit_fns s) (trace s))) as [[v|] s2];
    cbn [fst snd] in *; subst s2.
  - split; [now left|]. split; [reflexivity|]. split.
    + exists added. split; [exact Hq|].
      cbn [Z.eqb add_trace with_ctx trace ctx].
      now rewrite <- app_assoc.
    + intros Hlen. cbn [add_trace with_ctx trace ctx].
      destruct (Hterm (Hc1 Hlen)) as (H1 & H2 & _).
      destruct (buffer_append_terminated c' (cursor_up_text (s32 (v + 2)))
                  H1 H2) as (L1 & _ & L3).
      split; [exact L1|].
      apply cstring_length in L3. unfold strlen. rewrite L1 in L3.
      unfold BUFFER_SIZE in *. lia.
  - split; [now right|]. split; [reflexivity|]. split.
    + exists added. split; [exact Hq|].
      cbn [Z.eqb add_trace with_ctx trace ctx]. now rewrite app_nil_r.
    + intros Hlen. cbn [add_trace with_ctx trace ctx].
      destruct (Hterm (Hc1 Hlen)) as (L1 & _ & L3).
      split; [exact L1|].
      apply cstring_length in L3. unfold strlen. rewrite L1 in L3.
      unfold BUFFER_SIZE in *. lia.
Qed.

(** X12.  A table cycle returns 0 or -1 and flips the refresh marker
    either way.  Apart from sampling it does one thing only: when every
    device has been sampled it writes the buffer to standard output in one
    piece and flushes; when a device fails it writes nothing.  With a
    buffer of [BUFFER_SIZE] bytes, what is in the buffer at the end is a C
    string that ends within the buffer, so the write does not read beyond
    it. *)
Theorem table_cycle_writes_once :
  forall s,
    let r := monitor_temperatures_table env e s in
    (fst r = 0 \/ fst r = -1)
    /\ refresh_counter (snd r) = (if refresh_counter s =? 0 then 1 else 0)
    /\ (exists sampling,
          all_events is_sampling_event sampling
          /\ trace (snd r)
             = trace s ++ sampling
               ++ (if fst r =? 0
                   then [Stdout (cstring (output_buffer (ctx (snd r))));
                         Fflush]
                   else []))
    /\ (List.length (output_buffer (ctx s)) = Z.to_nat BUFFER_SIZE ->
        List.length (output_buffer (ctx (snd r))) = Z.to_nat BUFFER_SIZE
        /\ strlen (cstring (output_buffer (ctx (snd r)))) < BUFFER_SIZE).
Proof. exact monitor_temperatures_table_writes. Qed.

End TableCycle.

(** ** The frame of a table cycle *)

Lemma no_nul_string_of_uint (d : Decimal.uint) :
  no_nul (NilEmpty.string_of_uint d) = true.
Proof. induction d; cbn; auto. Qed.

Lemma no_nul_fmt_d (z : Z) : no_nul (fmt_d z) = true.
Proof.
  unfold fmt_d, NilZero.string_of_int.
  destruct (Z.to_int z) as [d | d]; unfold NilZero.string_of_uint.
  - destruct d; try reflexivity;
      match goal with
      | |- no_nul (NilEmpty.string_of_uint ?u) = true =>
          apply (no_nul_string_of_uint u)
      end.
  - change (no_nul ("-" ++ match d with
                           | Decimal.Nil => "0"
                           | _ => NilEmpty.string_of_uint d
                           end) = true).
    rewrite no_nul_app. cbn [andb].
    destruct d; try reflexivity;
      match goal with
      | |- _ = true => first [ reflexivity | apply no_nul_string_of_uint ]
      end.
Qed.

Lemma no_nul_fmt_u (z : Z) : no_nul (fmt_u z) = true.
Proof. apply no_nul_fmt_d. Qed.

Lemma no_nul_spaces (n : nat) : no_nul (spaces n) = true.
Proof. induction n as [|n IH]; [reflexivity | exact IH]. Qed.

Lemma no_nul_fmt_3u (z : Z) : no_nul (fmt_3u z) = true.
Proof.
  unfold fmt_3u. cbv zeta.
  now rewrite no_nul_app, no_nul_spaces, no_nul_fmt_u.
Qed.

Lemma no_nul_get_temp_color (t w d : Z) : no_nul (get_temp_color t w d) = true.
Proof.
  unfold get_temp_color. destruct (d <=? t); [reflexivity|].
  destruct (w <=? t); reflexivity.
Qed.

Lemma no_nul_print_gpu_info_text (index : Z) (gpu : GpuDevice) :
  no_nul (print_gpu_info_text index gpu) = true.
Proof.
  unfold print_gpu_info_text.
  rewrite !no_nul_app, !no_nul_get_temp_color, !no_nul_fmt_3u, no_nul_fmt_u.
  reflexivity.
Qed.

Lemma no_nul_table_header_text (rc : Z) : no_nul (table_header_text rc) = true.
Proof. unfold table_header_text. destruct (rc =? 0); reflexivity. Qed.

Lemma no_nul_cursor_up_text (lines : Z) : no_nul (cursor_up_text lines) = true.
Proof.
  unfold cursor_up_text. rewrite !no_nul_app, no_nul_fmt_d. reflexivity.
Qed.

(** A row is not empty. *)
Lemma print_gpu_info_text_length (index : Z) (gpu : GpuDevice) :
  1 <= strlen (print_gpu_info_text index gpu).
Proof.
  unfold print_gpu_info_text. rewrite !strlen_app.
  assert (forall t, 0 <= strlen t) as Hpos by (intros t; unfold strlen; lia).
  change (strlen " ") with 1.
  repeat match goal with
         | |- context [strlen ?t] =>
             lazymatch goal with
             | H : 0 <= strlen t |- _ => fail
             | _ => pose proof (Hpos t)
             end
         end.
  lia.
Qed.

Lemma concat_empty_cons (x : string) (l : list string) :
  String.concat EmptyString (x :: l)
  = (x ++ String.concat EmptyString l)%string.
Proof.
  destruct l as [|y l]; [cbn; now rewrite string_app_nil_r | reflexivity].
Qed.

Lemma devices_of_buffer_append (c : Context) (t : string) :
  devices_of (buffer_append_ctx c t) = devices_of c
  /\ device_count (buffer_append_ctx c t) = device_count c.
Proof. unfold buffer_append_ctx. destruct (_ && _); split; reflexivity. Qed.

Section TableFrame.

Variable env : Env.
Variable e : CycleEnv.

(** The loop over the devices when each of them can be sampled and the
    rows fit: the rows are added to the text in the buffer. *)
Lemma table_rows_text (devs : list Pci.pci_dev) (m : nat) :
  forall (i v : Z) (s : State) (t : string),
    devices_of (ctx s) = devs ->
    0 <= i -> i + Z.of_nat m < 2 ^ 32 ->
    0 <= v -> v + Z.of_nat m < 2 ^ 31 ->
    (forall j, (j < m)%nat ->
       fst (get_gpu_temps_value env e devs (i + Z.of_nat j) GpuDevice_zero)
       = 0) ->
    buffer_holds (ctx s) t ->
    let rows :=
      String.concat EmptyString
        (map (fun j =>
                print_gpu_info_text (i + Z.of_nat j)
                  (snd (get_gpu_temps_value env e devs (i + Z.of_nat j)
                          GpuDevice_zero)))
           (seq 0 m)) in
    strlen t + strlen rows < BUFFER_SIZE ->
    exists c' added,
      table_rows env e m i v s
      = (Some (v + Z.of_nat m), add_trace (with_ctx s c') added)
      /\ all_events is_sampling_event added
      /\ buffer_holds c' (t ++ rows).
Proof.
  induction m as [|m IH]; intros i v s t Hdevs Hi Hbound Hv Hvb Hok Hholds
                                rows Hfit.
  - exists (ctx s), []. cbn [table_rows]. unfold ret.
    split; [|split; [reflexivity|]].
    + rewrite Z.add_0_r. destruct s; unfold add_trace, with_ctx; cbn.
      now rewrite app_nil_r.
    + subst rows. cbn. now rewrite string_app_nil_r.
  - pose proof (get_gpu_temps_fst env e i GpuDevice_zero s) as Hval.
    rewrite Hdevs in Hval.
    destruct (get_gpu_temps_sampling_step env e i GpuDevice_zero s)
      as (r & added1 & Hs1 & Hq1).
    assert (fst (get_gpu_temps_value env e devs i GpuDevice_zero) = 0)
      as Hf by (rewrite <- (Z.add_0_r i); apply (Hok 0%nat); lia).
    rewrite table_rows_success by (rewrite Hval; exact Hf).
    cbv zeta. rewrite Hval, Hs1.
    assert (u32 (i + 1) = i + 1) as -> by (apply u32_small; lia).
    assert (s32 (v + 1) = v + 1) as -> by (apply s32_small; lia).
    set (row := print_gpu_info_text i
                  (snd (get_gpu_temps_value env e devs i GpuDevice_zero))).
    set (rest := String.concat EmptyString
                   (map (fun j =>
                           print_gpu_info_text (i + 1 + Z.of_nat j)
                             (snd (get_gpu_temps_value env e devs
                                     (i + 1 + Z.of_nat j) GpuDevice_zero)))
                      (seq 0 m))).
    assert (rows = (row ++ rest)%string) as Hrows.
    { subst rows. cbn [seq map]. rewrite concat_empty_cons.
      rewrite Z.add_0_r. fold row. f_equal.
      rewrite <- seq_shift, map_map. subst rest. f_equal.
      apply map_ext. intros j.
      replace (i + Z.of_nat (S j)) with (i + 1 + Z.of_nat j) by lia.
      reflexivity. }
    rewrite Hrows in *. rewrite strlen_app in Hfit.
    assert (0 <= strlen rest) by (unfold strlen; lia).
    assert (0 <= strlen row) by (unfold strlen; lia).
    cbn [ctx add_trace with_ctx].
    assert (buffer_holds (with_result (ctx s) r) t) as Hholds1
      by exact Hholds.
    destruct (buffer_append_fits (with_result (ctx s) r) t row Hholds1
                (no_nul_print_gpu_info_text _ _)) as [Hholds2 _]; [lia|].
    match goal with
    | |- context [table_rows env e m (i + 1) (v + 1) ?st] =>
        destruct (IH (i + 1) (v + 1) st (t ++ row)%string)
          as (c' & added2 & Heq & Hq2 & Hholds3); try lia;
        try exact Hholds2
    end.
    { unfold with_ctx. cbn [ctx].
      rewrite (proj1 (devices_of_buffer_append _ _)). exact Hdevs. }
    { intros j Hj. replace (i + 1 + Z.of_nat j) with (i + Z.of_nat (S j))
        by lia. apply Hok. lia. }
    { fold rest. rewrite strlen_app. lia. }
    exists c', (added1 ++ added2).
    split; [|split].
    + rewrite Heq. f_equal; [f_equal; lia|].
      unfold add_trace, with_ctx. cbn. now rewrite app_assoc.
    + now apply additive_app.
    + fold rest in Hholds3. now rewrite <- string_app_assoc.
Qed.

Lemma rows_length (f : nat -> string) (a m : nat) :
  (forall j, 1 <= strlen (f j)) ->
  Z.of_nat m <= strlen (String.concat EmptyString (map f (seq a m))).
Proof.
  intros Hf. revert a. induction m as [|m IH]; intros a.
  - cbn. unfold strlen. cbn. lia.
  - cbn [seq map]. rewrite concat_empty_cons, strlen_app.
    specialize (IH (S a)). specialize (Hf a). lia.
Qed.

(** The frame of a table cycle in which every device can be sampled. *)
Lemma monitor_temperatures_table_frame :
  forall s,
    let n := Z.to_nat (device_count (ctx s)) in
    let reading i :=
      fst (get_gpu_temps env e (Z.of_nat i) GpuDevice_zero s) in
    let rc := if refresh_counter s =? 0 then 1 else 0 in
    let frame :=
      (table_header_text rc
       ++ String.concat EmptyString
            (map (fun i => print_gpu_info_text (Z.of_nat i) (snd (reading i)))
               (seq 0 n))
       ++ cursor_up_text (Z.of_nat n + 2))%string in
    let r := monitor_temperatures_table env e s in
    List.length (output_buffer (ctx s)) = Z.to_nat BUFFER_SIZE ->
    (forall i, (i < n)%nat -> fst (reading i) = 0) ->
    strlen frame < BUFFER_SIZE ->
    fst r = 0
    /\ refresh_counter (snd r) = rc
    /\ exists sampling,
        all_events is_sampling_event sampling
        /\ trace (snd r) = trace s ++ sampling ++ [Stdout frame; Fflush].
Proof.
  intros s n reading rc frame r Hlen Hok Hfit.
  set (rows := String.concat EmptyString
                 (map (fun i => print_gpu_info_text (Z.of_nat i)
                                  (snd (reading i))) (seq 0 n))) in *.
  assert (forall i, reading i
                    = get_gpu_temps_value env e (devices_of (ctx s))
                        (Z.of_nat i) GpuDevice_zero) as Hreading
    by (intros i; apply get_gpu_temps_fst).
  assert (Z.of_nat n <= strlen rows) as Hn
    by (apply rows_length; intros j; apply print_gpu_info_text_length).
  subst frame. rewrite !strlen_app in Hfit.
  assert (0 <= strlen (cursor_up_text (Z.of_nat n + 2)))
    by (unfold strlen; lia).
  assert (0 <= strlen (table_header_text rc)) by (unfold strlen; lia).
  set (h1 := (NL ++ (if (rc =? 0)%Z then "* " else "  "))%string).
  set (h2 := (SEPARATOR ++ "  CORE  " ++ SEPARATOR ++ "  JUNC  "
              ++ SEPARATOR ++ "  VRAM  " ++ SEPARATOR ++ NL)%string).
  assert (table_header_text rc = (h1 ++ h2)%string) as Hhead by reflexivity.
  assert (0 <= strlen h1) by (unfold strlen; lia).
  assert (0 <= strlen h2) by (unfold strlen; lia).
  rewrite Hhead, strlen_app in *.
  (* the buffer after the two heads *)
  set (c0 := with_buffer (ctx s) (output_buffer (ctx s)) 0).
  assert (buffer_holds c0 EmptyString) as Hc0.
  { repeat split; try reflexivity. exact Hlen. }
  assert (no_nul h1 = true) as Hn1
    by (subst h1; destruct (rc =? 0); reflexivity).
  assert (no_nul h2 = true) as Hn2 by reflexivity.
  destruct (buffer_append_fits c0 EmptyString h1 Hc0 Hn1) as [Hc1 _];
    [change (strlen EmptyString) with 0; lia|].
  cbn [String.append] in Hc1.
  destruct (buffer_append_fits _ h1 h2 Hc1 Hn2) as [Hc2 _]; [lia|].
  subst r. rewrite monitor_temperatures_table_steps. cbv zeta.
  fold rc. fold h1. fold h2. fold c0.
  set (c2 := buffer_append_ctx (buffer_append_ctx c0 h1) h2) in *.
  assert (device_count c2 = device_count (ctx s)) as ->.
  { subst c2.
    rewrite !(proj2 (devices_of_buffer_append _ _)). reflexivity. }
  fold n.
  destruct (table_rows_text (devices_of (ctx s)) n 0 0
              (mkState c2 rc (atexit_fns s) (trace s)) (h1 ++ h2)%string)
    as (c' & sampling & Heq & Hq & Hc'); try lia; try exact Hc2.
  { cbn [ctx]. subst c2.
    rewrite !(proj1 (devices_of_buffer_append _ _)). reflexivity. }
  { change (2 ^ 32) with 4294967296. unfold BUFFER_SIZE in *. lia. }
  { change (2 ^ 31) with 2147483648. unfold BUFFER_SIZE in *. lia. }
  { intros j Hj. cbn [Z.add]. rewrite <- Hreading. now apply Hok. }
  { cbn [Z.add].
    rewrite (map_ext _ (fun i => print_gpu_info_text (Z.of_nat i)
                                  (snd (reading i))))
      by (intros i; rewrite Hreading; reflexivity).
    fold rows. rewrite strlen_app. lia. }
  cbn [Z.add] in Heq, Hc'.
  rewrite (map_ext _ (fun i => print_gpu_info_text (Z.of_nat i)
                                (snd (reading i)))) in Hc'
    by (intros i; rewrite Hreading; reflexivity).
  fold rows in Hc'.
  rewrite Heq. cbn [ctx add_trace with_ctx fst snd].
  assert (s32 (Z.of_nat n + 2) = Z.of_nat n + 2) as ->
    by (apply s32_small; change (2 ^ 31) with 2147483648;
        unfold BUFFER_SIZE in *; lia).
  destruct (buffer_append_fits c' _ (cursor_up_text (Z.of_nat n + 2)) Hc'
              (no_nul_cursor_up_text _)) as [_ Hread];
    [rewrite !strlen_app; lia|].
  split; [reflexivity|]. split; [reflexivity|].
  exists sampling. split; [exact Hq|].
  unfold add_trace, with_ctx. cbn [trace ctx].
  rewrite Hread, <- app_assoc.
  now rewrite !string_app_assoc.
Qed.

(** X15.  The frame a table cycle writes.  When every device can be
    sampled and the frame is shorter than the buffer, the cycle returns 0
    and writes to standard output, in one piece, a line feed, the refresh
    marker and the column heads, the rows of the devices in index order,
    and the sequence that moves the cursor up by the number of devices
    plus two lines.  The marker is an asterisk in every second frame. *)
Theorem table_cycle_frame :
  forall s,
    let n := Z.to_nat (device_count (ctx s)) in
    let reading i :=
      fst (get_gpu_temps env e (Z.of_nat i) GpuDevice_zero s) in
    let rc := if refresh_counter s =? 0 then 1 else 0 in
    let frame :=
      (table_header_text rc
       ++ String.concat EmptyString
            (map (fun i => print_gpu_info_text (Z.of_nat i) (snd (reading i)))
               (seq 0 n))
       ++ cursor_up_text (Z.of_nat n + 2))%string in
    let r := monitor_temperatures_table env e s in
    List.length (output_buffer (ctx s)) = Z.to_nat BUFFER_SIZE ->
    (forall i, (i < n)%nat -> fst (reading i) = 0) ->
    strlen frame < BUFFER_SIZE ->
    fst r = 0
    /\ refresh_counter (snd r) = rc
    /\ exists sampling,
        all_events is_sampling_event sampling
        /\ trace (snd r) = trace s ++ sampling ++ [Stdout frame; Fflush].
Proof. exact monitor_temperatures_table_frame. Qed.

End TableFrame.

Lemma table_cycle_frame_witness :
  let env := sample_env 1 in
  let e := sample_cycle 1 0 0 0 in
  let s := mkState (mkCtx 0 1 1 (Some [sample_bridge; sample_gpu])
                      (output_buffer Context_zero) 0 MODE_ONCE FORMAT_TABLE)
             0 [] [] in
  let frame :=
    (table_header_text 1
     ++ String.concat EmptyString
          (map (fun i =>
                  print_gpu_info_text (Z.of_nat i)
                    (snd (fst (get_gpu_temps env e (Z.of_nat i)
                                 GpuDevice_zero s))))
             (seq 0 1))
     ++ cursor_up_text (Z.of_nat 1 + 2))%string in
  let r := monitor_temperatures_table env e s in
  fst r = 0
  /\ refresh_counter (snd r) = 1
  /\ exists sampling,
      all_events is_sampling_event sampling
      /\ trace (snd r) = trace s ++ sampling ++ [Stdout frame; Fflush].
Proof.
  intros env e s.
  apply (table_cycle_frame env e s).
  - reflexivity.
  - intros i Hi. assert (i = 0%nat) as -> by (cbn in Hi; lia). reflexivity.
  - vm_compute. reflexivity.
Defined.

(** ** Setting up and shutting down the libraries *)

Lemma cleanup_context_trace (s : State) :
  trace (snd (cleanup_context s))
  = trace s
    ++ (if initialized (ctx s) =? 0 then [] else [NvmlShutdown])
    ++ (match pacc (ctx s) with Some _ => [PciCleanup] | None => [] end).
Proof.
  unfold cleanup_context. step.
  destruct s as [c rc fns tr]. destruct c as [r n i p b pos m f].
  cbn [ctx initialized pacc].
  destruct (i =? 0); destruct p as [devs|];
    cbn; rewrite ?app_nil_r, <- ?app_assoc; reflexivity.
Qed.

Lemma preserving_handle_input (e : CycleEnv) (d : Z) :
  preserving (handle_input e d).
Proof. unfold handle_input. preserve. Qed.

Lemma preserving_get_ctx_then {A} (k : Context -> M A) :
  (forall c, preserving (k c)) -> preserving (c <- get_ctx ;; k c).
Proof. intros Hk s. unfold bind, get_ctx. apply Hk. Qed.

Lemma preserving_run_monitoring_loop (env : Env) (script : list CycleEnv) :
  preserving (run_monitoring_loop env script).
Proof.
  induction script as [|e later IH]; cbn [run_monitoring_loop].
  - apply preserving_ret.
  - assert (preserving (run_monitoring_loop_exit)) as Hexit
      by (unfold run_monitoring_loop_exit;
          apply preserving_get_ctx_then; intros c; preserve).
    apply preserving_if; [|exact Hexit].
    apply preserving_bind;
      [apply preserving_monitor_temperatures_table | intros r].
    apply preserving_if; [apply preserving_ret|].
    apply preserving_bind; [apply preserving_handle_input | intros k].
    apply preserving_if; [exact Hexit | exact IH].
Qed.

Lemma preserving_run_json_loop (env : Env) (script : list CycleEnv) :
  preserving (run_json_loop env script).
Proof.
  induction script as [|e later IH]; cbn [run_json_loop].
  - apply preserving_ret.
  - apply preserving_if; [|apply preserving_ret].
    apply preserving_bind;
      [apply preserving_monitor_temperatures_json | intros r].
    apply preserving_if; [apply preserving_ret|].
    apply preserving_bind; [apply preserving_handle_input | intros k].
    apply preserving_if; [apply preserving_ret|].
    apply preserving_bind; [apply preserving_emit | intros _]. exact IH.
Qed.

Lemma preserving_main_run (env : Env) (script : list CycleEnv) :
  preserving (main_run env script).
Proof.
  unfold main_run. apply preserving_get_ctx_then. intros c.
  destruct (output_format c), (output_mode c);
    first [ apply preserving_run_monitoring_loop
          | apply preserving_run_json_loop
          | destruct script as [|e later]; cbn [once];
            [apply preserving_ret|];
            apply preserving_bind;
            [first [ apply preserving_monitor_temperatures_table
                   | apply preserving_monitor_temperatures_json ]
            | intros r; apply preserving_ret] ].
Qed.

Lemma library_allows (ev : event) :
  is_library_call ev = false ->
  allows (adds (all_events (fun x => negb (is_library_call x)))) ev.
Proof.
  intros Hev. apply adds_allows. unfold all_events. cbn. now rewrite Hev.
Qed.

Lemma main_run_no_library_call (env : Env) (script : list CycleEnv) :
  respects (adds (all_events (fun x => negb (is_library_call x))))
    (main_run env script).
Proof.
  apply walk_main_run;
    try (intros; apply library_allows; reflexivity);
    try (intros; first [apply adds_with_ctx | apply adds_counter];
         typeclasses eauto).
  - typeclasses eauto.
  - intros e dev offset temp. unfold read_register_temp.
    walk ltac:(apply respects_emit; apply library_allows; reflexivity).
Qed.

Lemma filter_none {A} (f : A -> bool) (l : list A) :
  forallb (fun x => negb (f x)) l = true -> filter f l = [].
Proof.
  induction l as [|x l IH]; [reflexivity|].
  cbn. intros H. apply andb_prop in H. destruct H as [Hx Hl].
  apply negb_true_iff in Hx. rewrite Hx. now apply IH.
Qed.

(** The calls of the start-up, and what it leaves to be released. *)
Lemma init_monitoring_library (env : Env) (s : State) :
  initialized (ctx s) = 0 ->
  let r := init_monitoring env s in
  let root := geteuid env =? 0 in
  exists added,
    trace (snd r) = trace s ++ added
    /\ filter is_library_call added
       = (if root
          then PciAlloc :: (if pci_alloc_ok env then [NvmlInit] else [])
          else [])
    /\ ((initialized (ctx (snd r)) =? 0)
        = negb (root && pci_alloc_ok env && (NVML_SUCCESS =? nvmlInit env)))
    /\ (match pacc (ctx (snd r)) with Some _ => true | None => false end
        = match pacc (ctx s) with
          | Some _ => negb root || pci_alloc_ok env
          | None => root && pci_alloc_ok env
          end)
    /\ (0 <= fst r -> root && pci_alloc_ok env
                      && (NVML_SUCCESS =? nvmlInit env) = true).
Proof.
  intros Hi r root. subst r root.
  unfold init_monitoring, check_root_privileges, init_pci, init_nvml,
    get_device_count.
  step.
  destruct s as [c rc fns tr]. destruct c as [res n i p b pos m f].
  cbn [ctx initialized] in Hi. subst i.
  destruct (geteuid env =? 0); cbn -[Z.eqb].
  2: { eexists. split; [rewrite <- ?app_assoc; reflexivity|].
       cbn. destruct p; repeat split; try reflexivity; lia. }
  destruct (pci_alloc_ok env); cbn -[Z.eqb].
  2: { eexists. split; [rewrite <- ?app_assoc; reflexivity|].
       cbn. destruct p; repeat split; try reflexivity; lia. }
  destruct (NVML_SUCCESS =? nvmlInit env); cbn -[Z.eqb].
  2: { eexists. split; [rewrite <- ?app_assoc; reflexivity|].
       cbn. destruct p; repeat split; try reflexivity; lia. }
  destruct (nvmlDeviceGetCount env) as [r1 n1]. cbn -[Z.eqb].
  destruct (NVML_SUCCESS =? r1); cbn -[Z.eqb].
  2: { eexists. split; [rewrite <- ?app_assoc; reflexivity|].
       cbn. destruct p; repeat split; try reflexivity; lia. }
  destruct (u32 n1 =? 0); cbn -[Z.eqb];
    (eexists; split; [rewrite <- ?app_assoc; reflexivity|]);
    cbn; destruct p; repeat split; try reflexivity; lia.
Qed.

Lemma main_monitoring_library (env : Env) (script : list CycleEnv)
  (s : State) (code : Z) (s' : State) :
  initialized (ctx s) = 0 ->
  pacc (ctx s) = None ->
  main_monitoring env script s = (Some code, s') ->
  exists added,
    trace s' = trace s ++ added
    /\ filter is_library_call added
       = (if geteuid env =? 0 then library_calls env else []).
Proof.
  intros Hi Hp Hmain. unfold main_monitoring in Hmain.
  unfold bind at 1 in Hmain.
  destruct (init_monitoring_library env s Hi)
    as (added1 & Ht1 & Hf1 & Hi1 & Hp1 & Hok).
  rewrite Hp in Hp1.
  destruct (init_monitoring env s) as [r s1]. cbn [fst snd] in *.
  assert (forall s2 tt' s3,
             initialized (ctx s2) = initialized (ctx s1) ->
             pacc (ctx s2) = pacc (ctx s1) ->
             (exists added2,
                 trace s2 = trace s1 ++ added2
                 /\ filter is_library_call added2 = []) ->
             cleanup_context s2 = (tt', s3) ->
             exists added,
               trace s3 = trace s ++ added
               /\ filter is_library_call added
                  = (if geteuid env =? 0 then library_calls env else []))
    as Hend.
  { intros s2 tt' s3 Hi2 Hp2 (added2 & Ht2 & Hf2) Hclean.
    pose proof (cleanup_context_trace s2) as Ht3.
    rewrite Hclean in Ht3. cbn [snd] in Ht3.
    rewrite Hi2, Hp2, Hi1 in Ht3.
    eexists. split; [rewrite Ht3, Ht2, Ht1, <- !app_assoc; reflexivity|].
    rewrite !filter_app, Hf1, Hf2. unfold library_calls.
    destruct (geteuid env =? 0), (pci_alloc_ok env),
      (NVML_SUCCESS =? nvmlInit env), (pacc (ctx s1));
      cbn in Hp1 |- *; try discriminate Hp1; reflexivity. }
  destruct (r <? 0) eqn:Hr.
  - unfold bind at 1 in Hmain.
    destruct (cleanup_context s1) as [u s3] eqn:Hclean.
    unfold ret in Hmain. inversion Hmain; subst.
    apply (Hend s1 u s'); try reflexivity; [|exact Hclean].
    exists []. split; [now rewrite app_nil_r | reflexivity].
  - unfold bind at 1 in Hmain.
    pose proof (preserving_main_run env script s1)
      as (Hi2 & Hp2 & _).
    destruct (main_run_no_library_call env script s1)
      as (added2 & Ht2 & Hq2).
    destruct (main_run env script s1) as [[res|] s2]; [|discriminate Hmain].
    cbn [snd] in *. unfold bind at 1 in Hmain.
    destruct (cleanup_context s2) as [u s3] eqn:Hclean.
    unfold ret in Hmain. inversion Hmain; subst.
    apply (Hend s2 u s'); try assumption.
    exists added2. split; [exact Ht2 | now apply filter_none].
Qed.

Lemma run_atexit_no_library_call (fns : list atexit_fn) (s : State) :
  exists added,
    trace (snd (run_atexit fns s)) = trace s ++ added
    /\ filter is_library_call added = [].
Proof.
  revert s. induction fns as [|f fns IH]; intros s.
  - exists []. split; [cbn; now rewrite app_nil_r | reflexivity].
  - destruct f; cbn [run_atexit]; unfold reset_terminal, restore_cursor;
      step;
      match goal with
      | |- context [run_atexit fns ?st] =>
          destruct (IH st) as (added & Ht & Hf)
      end;
      eexists; (split; [rewrite Ht; cbn [trace add_trace];
                        rewrite <- ?app_assoc; reflexivity|]);
      rewrite ?filter_app, Hf; reflexivity.
Qed.

(** X16.  The libraries are set up and shut down in matching pairs.  A
    process that exits has called them only if the arguments were mode
    flags, the terminal could be switched when the table was asked for and
    the user was root.  It then has asked for a PCI access structure once;
    if it got one it has initialised the management library once, and in
    the end has shut it down exactly if that initialisation succeeded and
    then released the PCI structure, whether or not the devices could be
    counted and whatever happened while sampling. *)
Theorem process_library_calls :
  forall env argv script code s,
    process env argv script = (Some code, s) ->
    filter is_library_call (trace s)
    = (if reaches_libraries env argv then library_calls env else []).
Proof.
  intros env argv script code s H.
  unfold reaches_libraries.
  destruct (forallb is_mode_flag (tl argv)) eqn:Hargs; cbn [andb].
  2: { destruct (process_decided env argv script Hargs)
         as (code' & c & out & Heq & _ & Hout).
       rewrite Heq in H. inversion H; subst. cbn [trace].
       apply filter_none.
       apply (all_events_weaken is_stderr); [|exact Hout].
       intros [] Hev; try discriminate Hev; reflexivity. }
  destruct (apply_flags_resources (tl argv) Context_zero) as [Hi Hp].
  cbn [initialized pacc Context_zero] in Hi, Hp.
  unfold process in H. unfold bind at 1 in H.
  assert (forall st c1 s1,
             initialized (ctx st) = 0 -> pacc (ctx st) = None ->
             filter is_library_call (trace st) = [] ->
             main_monitoring env script st = (Some c1, s1) ->
             (fns <- get_atexit_fns ;; run_atexit fns ;; ret (Some c1)) s1
             = (Some code, s) ->
             filter is_library_call (trace s)
             = (if geteuid env =? 0 then library_calls env else []))
    as Hrun.
  { intros st c1 s1 Hi0 Hp0 Hpre Hmain Hexit.
    destruct (main_monitoring_library env script st c1 s1 Hi0 Hp0 Hmain)
      as (added & Ht & Hf).
    unfold bind, get_atexit_fns, ret in Hexit.
    destruct (run_atexit_no_library_call (atexit_fns s1) s1)
      as (added' & Ht' & Hf').
    destruct (run_atexit (atexit_fns s1) s1) as [u s2].
    inversion Hexit; subst. cbn [snd] in Ht'.
    rewrite Ht', Ht, !filter_app, Hpre, Hf, Hf'.
    now rewrite app_nil_r. }
  destruct (existsb (String.eqb "--json") (tl argv)) eqn:Hjson; cbn [orb].
  - assert (In "--json" (tl argv)) as Hin.
    { apply existsb_exists in Hjson. destruct Hjson as (x & Hx & Heq).
      apply String.eqb_eq in Heq. now subst x. }
    rewrite main_records in H by assumption.
    destruct (main_monitoring env script _) as [[c1|] s1] eqn:Hmain;
      [|discriminate H].
    eapply Hrun; [| | |exact Hmain|exact H]; try assumption. reflexivity.
  - assert (~ In "--json" (tl argv)) as Hin.
    { intros Hin. apply not_true_iff_false in Hjson. apply Hjson.
      apply existsb_exists. exists "--json". split; [exact Hin|].
      apply String.eqb_refl. }
    rewrite main_table in H by assumption.
    destruct (tcgetattr_result env <? 0); cbn [negb andb].
    { cbn in H. inversion H; subst. reflexivity. }
    destruct (tcsetattr_result env <? 0); cbn [negb andb].
    { cbn in H. inversion H; subst. reflexivity. }
    destruct (main_monitoring env script _) as [[c1|] s1] eqn:Hmain;
      [|discriminate H].
    eapply Hrun; [| | |exact Hmain|exact H]; try assumption. reflexivity.
Qed.

Lemma process_library_calls_witness :
  filter is_library_call
    (trace (snd (process (sample_env 1) ["gputemps"; "--json"; "--once"]
                   [sample_cycle 1 0 0 0])))
  = [PciAlloc; NvmlInit; NvmlShutdown; PciCleanup].
Proof.
  apply (process_library_calls (sample_env 1)
           ["gputemps"; "--json"; "--once"] [sample_cycle 1 0 0 0] 0).
  vm_compute. reflexivity.
Defined.

(** ** A start-up that fails *)

Lemma init_monitoring_code (env : Env) (s : State) :
  fst (init_monitoring env s)
  = if (geteuid env =? 0) && pci_alloc_ok env
       && (NVML_SUCCESS =? nvmlInit env)
       && (NVML_SUCCESS =? fst (nvmlDeviceGetCount env))
       && negb (u32 (snd (nvmlDeviceGetCount env)) =? 0)
    then 0 else -1.
Proof.
  unfold init_monitoring, check_root_privileges, init_pci, init_nvml,
    get_device_count.
  step.
  destruct (geteuid env =? 0); cbn -[Z.eqb]; [|reflexivity].
  destruct (pci_alloc_ok env); cbn -[Z.eqb]; [|reflexivity].
  destruct (NVML_SUCCESS =? nvmlInit env); cbn -[Z.eqb]; [|reflexivity].
  destruct (nvmlDeviceGetCount env) as [r1 n1]. cbn -[Z.eqb].
  destruct (NVML_SUCCESS =? r1); cbn -[Z.eqb]; [|reflexivity].
  destruct (u32 n1 =? 0); reflexivity.
Qed.

Lemma no_device_access_allows (ev : event) :
  is_device_access ev = false ->
  allows (adds (all_events (fun x => negb (is_device_access x)))) ev.
Proof.
  intros Hev. apply adds_allows. unfold all_events. cbn. now rewrite Hev.
Qed.

Lemma main_monitoring_fails (env : Env) (script : list CycleEnv) (s : State) :
  fst (init_monitoring env s) = -1 ->
  exists s1,
    main_monitoring env script s = (Some 1, s1)
    /\ adds (all_events (fun x => negb (is_device_access x))) s s1.
Proof.
  intros Hcode. unfold main_monitoring. unfold bind at 1.
  assert (respects (adds (all_events (fun x => negb (is_device_access x))))
            (init_monitoring env)) as Hinit.
  { apply walk_init_monitoring;
      try (intros; apply no_device_access_allows; reflexivity);
      try (intros; apply adds_with_ctx; typeclasses eauto).
    typeclasses eauto. }
  assert (respects (adds (all_events (fun x => negb (is_device_access x))))
            cleanup_context) as Hclean.
  { apply walk_cleanup_context;
      try (intros; apply no_device_access_allows; reflexivity);
      try (intros; apply adds_with_ctx; typeclasses eauto).
    typeclasses eauto. }
  specialize (Hinit s).
  destruct (init_monitoring env s) as [r s1]. cbn [fst snd] in *. subst r.
  cbn [Z.ltb Z.compare]. unfold bind at 1.
  specialize (Hclean s1).
  destruct (cleanup_context s1) as [u s2]. cbn [snd] in Hclean.
  exists s2. split; [reflexivity|].
  eapply composable_trans; eassumption.
Qed.

Lemma run_atexit_no_device_access (fns : list atexit_fn) :
  respects (adds (all_events (fun x => negb (is_device_access x))))
    (run_atexit fns).
Proof.
  apply walk_run_atexit;
    try (intros; apply no_device_access_allows; reflexivity).
  typeclasses eauto.
Qed.

(** X17.  A start-up that fails ends the process.  When the arguments are
    mode flags and the terminal cannot be switched (for the table), the
    user is not root, the PCI access structure cannot be allocated, the
    management library does not initialise or cannot count the devices, or
    no device is counted, the process exits with code 1, whatever the
    script of later answers, and has not made a single call that reaches a
    device. *)
Theorem failed_startup :
  forall env argv script,
    forallb is_mode_flag (tl argv) = true ->
    ~ startup_ok env
        (output_format (fold_left apply_flag (tl argv) Context_zero)) ->
    fst (process env argv script) = Some 1
    /\ all_events (fun ev => negb (is_device_access ev))
         (trace (snd (process env argv script))).
Proof.
  intros env argv script Hargs Hfail.
  set (c0 := fold_left apply_flag (tl argv) Context_zero) in *.
  assert (forall st,
             fst (init_monitoring env st) = -1 ->
             all_events (fun ev => negb (is_device_access ev)) (trace st) ->
             let r := (code <- main_monitoring env script ;;
                       match code with
                       | None => ret None
                       | Some v =>
                           fns <- get_atexit_fns ;; run_atexit fns ;;
                           ret (Some v)
                       end) st in
             fst r = Some 1
             /\ all_events (fun ev => negb (is_device_access ev))
                  (trace (snd r))) as Hrun.
  { intros st Hcode Hpre r.
    destruct (main_monitoring_fails env script st Hcode)
      as (s1 & Hm & added & Ht & Hq).
    assert (r = (Some 1, snd (run_atexit (atexit_fns s1) s1))) as ->.
    { subst r. unfold bind at 1. rewrite Hm.
      unfold bind, get_atexit_fns, ret. cbn beta iota.
      destruct (run_atexit (atexit_fns s1) s1); reflexivity. }
    cbn [fst snd]. split; [reflexivity|].
    destruct (run_atexit_no_device_access (atexit_fns s1) s1)
      as (added' & Ht' & Hq').
    rewrite Ht', Ht. repeat apply additive_app; assumption. }
  assert (output_format c0 = FORMAT_TABLE ->
          (tcgetattr_result env <? 0) = false ->
          (tcsetattr_result env <? 0) = false ->
          forall st, fst (init_monitoring env st) = -1) as Hinit_table.
  { intros Hf Hg Hs st. rewrite init_monitoring_code.
    destruct ((geteuid env =? 0) && pci_alloc_ok env
              && (NVML_SUCCESS =? nvmlInit env)
              && (NVML_SUCCESS =? fst (nvmlDeviceGetCount env))
              && negb (u32 (snd (nvmlDeviceGetCount env)) =? 0)) eqn:Hok;
      [|reflexivity].
    exfalso. apply Hfail.
    repeat (apply andb_prop in Hok; destruct Hok as [Hok ?]).
    apply Z.ltb_ge in Hg. apply Z.ltb_ge in Hs.
    split; [intros _; split; assumption|].
    split; [now apply Z.eqb_eq|]. split; [assumption|].
    split; [symmetry; now apply Z.eqb_eq|].
    split; [symmetry; now apply Z.eqb_eq|].
    apply Z.eqb_neq. now apply negb_true_iff. }
  assert (output_format c0 = FORMAT_JSON ->
          forall st, fst (init_monitoring env st) = -1) as Hinit_json.
  { intros Hf st. rewrite init_monitoring_code.
    destruct ((geteuid env =? 0) && pci_alloc_ok env
              && (NVML_SUCCESS =? nvmlInit env)
              && (NVML_SUCCESS =? fst (nvmlDeviceGetCount env))
              && negb (u32 (snd (nvmlDeviceGetCount env)) =? 0)) eqn:Hok;
      [|reflexivity].
    exfalso. apply Hfail.
    repeat (apply andb_prop in Hok; destruct Hok as [Hok ?]).
    split; [intros Ht; congruence|].
    split; [now apply Z.eqb_eq|]. split; [assumption|].
    split; [symmetry; now apply Z.eqb_eq|].
    split; [symmetry; now apply Z.eqb_eq|].
    apply Z.eqb_neq. now apply negb_true_iff. }
  destruct (in_dec string_dec "--json" (tl argv)) as [Hjson | Hjson].
  - assert (output_format c0 = FORMAT_JSON) as Hf
      by (apply apply_flags_json; now right).
    assert (process env argv script
            = (code <- main_monitoring env script ;;
               match code with
               | None => ret None
               | Some v =>
                   fns <- get_atexit_fns ;; run_atexit fns ;; ret (Some v)
               end) (with_ctx initial_state c0)) as ->.
    { unfold process. unfold bind at 1.
      rewrite main_records by assumption. reflexivity. }
    apply Hrun; [now apply Hinit_json | reflexivity].
  - assert (output_format c0 = FORMAT_TABLE) as Hf.
    { destruct (output_format c0) eqn:Hf; [reflexivity|].
      apply apply_flags_json in Hf. destruct Hf as [Hf | Hf];
        [discriminate Hf | contradiction]. }
    destruct (tcgetattr_result env <? 0) eqn:Hg.
    { assert (exists st,
                 process env argv script = (Some 1, st)
                 /\ all_events (fun ev => negb (is_device_access ev))
                      (trace st)) as (st & -> & Hst); [|now split].
      unfold process. unfold bind at 1.
      rewrite main_table by assumption. rewrite Hg.
      cbn. eexists. split; reflexivity. }
    destruct (tcsetattr_result env <? 0) eqn:Hs.
    { assert (exists st,
                 process env argv script = (Some 1, st)
                 /\ all_events (fun ev => negb (is_device_access ev))
                      (trace st)) as (st & -> & Hst); [|now split].
      unfold process. unfold bind at 1.
      rewrite main_table by assumption. rewrite Hg, Hs.
      cbn. eexists. split; reflexivity. }
    assert (process env argv script
            = (code <- main_monitoring env script ;;
               match code with
               | None => ret None
               | Some v =>
                   fns <- get_atexit_fns ;; run_atexit fns ;; ret (Some v)
               end)
                (mkState c0 0 [restore_cursor_fn; reset_terminal_fn]
                   terminal_events)) as ->.
    { unfold process. unfold bind at 1.
      rewrite main_table by assumption. rewrite Hg, Hs. reflexivity. }
    apply Hrun; [now apply Hinit_table | reflexivity].
Qed.

Lemma failed_startup_witness :
  let env := mkEnv 4096 0 true [sample_gpu] 0 (0, 0) (fun _ => "error") 0 0 in
  fst (process env ["gputemps"; "--json"] [sample_cycle 1 0 0 0]) = Some 1
  /\ all_events (fun ev => negb (is_device_access ev))
       (trace (snd (process env ["gputemps"; "--json"]
                      [sample_cycle 1 0 0 0]))).
Proof.
  intros env.
  apply (failed_startup env ["gputemps"; "--json"] [sample_cycle 1 0 0 0]).
  - reflexivity.
  - intros (_ & _ & _ & _ & _ & H). apply H. reflexivity.
Defined.

(** ** How the table loop ends *)

Lemma run_monitoring_loop_exit_events (s : State) :
  run_monitoring_loop_exit s
  = (Some 0, add_trace s (table_exit_events (device_count (ctx s)))).
Proof.
  unfold run_monitoring_loop_exit, table_exit_events. step.
  now rewrite !add_trace_app.
Qed.

Lemma wait_events_last (e : CycleEnv) :
  exists b w, wait_events e = b ++ [w] /\ is_input_event w = true.
Proof.
  unfold wait_events. destruct (0 <? select_result e).
  - exists [Select (REFRESH_DURATION * 1000 * 1000)], ReadStdin.
    split; reflexivity.
  - exists [], (Select (REFRESH_DURATION * 1000 * 1000)). split; reflexivity.
Qed.

(** X18.  How the table loop ends.  It returns 0 or -1.  When it returns
    0, after a termination signal or a key press, the last thing it has
    done is to move the cursor down past the table, by the number of
    devices plus two lines, end the line and flush.  When it returns -1, a
    cycle has failed: since the last wait for input, or since the loop began
    if there was none, nothing has been written to standard output, so the
    cursor is not moved down. *)
Theorem table_loop_end :
  forall env script s r s',
    run_monitoring_loop env script s = (Some r, s') ->
    (r = 0
     /\ exists before,
         trace s'
         = trace s ++ before ++ table_exit_events (device_count (ctx s)))
    \/ (r = -1
        /\ exists before cycle,
            trace s' = trace s ++ before ++ cycle
            /\ all_events (fun ev => negb (is_stdout ev)) cycle
            /\ (before = []
                \/ exists b w, before = b ++ [w] /\ is_input_event w = true)).
Proof.
  intros env script. induction script as [|e later IH]; intros s r s' H.
  - discriminate H.
  - cbn [run_monitoring_loop] in H.
    destruct (running e).
    2: { rewrite run_monitoring_loop_exit_events in H. inversion H; subst.
         left. split; [reflexivity|]. exists []. reflexivity. }
    unfold bind at 1 in H.
    pose proof (preserving_monitor_temperatures_table env e s)
      as (_ & _ & Hcount & _ & _ & _ & added1 & Ht1).
    pose proof (table_cycle_failure_writes_nothing env e s) as Hquiet.
    destruct (monitor_temperatures_table env e s) as [r0 s1].
    cbn [fst snd] in *.
    destruct (Z.eqb_spec r0 0) as [-> | Hr0]; cbn [negb] in H.
    2: { unfold ret in H. inversion H; subst. right.
         split; [reflexivity|].
         destruct (Hquiet Hr0) as (added & Ht & Hq).
         exists [], added. split; [exact Ht|]. split; [exact Hq | now left]. }
    unfold bind at 1 in H. rewrite handle_input_wait in H.
    assert (device_count (ctx (add_trace s1 (wait_events e)))
            = device_count (ctx s)) as Hcount2 by exact Hcount.
    assert (trace (add_trace s1 (wait_events e))
            = trace s ++ added1 ++ wait_events e) as Ht2
      by (cbn [trace add_trace]; rewrite Ht1; now rewrite <- app_assoc).
    remember (add_trace s1 (wait_events e)) as s2 eqn:Hs2. clear Hs2.
    destruct (keystroke e); cbn [Z.eqb negb] in H.
    + rewrite run_monitoring_loop_exit_events in H. inversion H; subst.
      left. split; [reflexivity|]. exists (added1 ++ wait_events e).
      cbn [trace add_trace]. rewrite Ht2, Hcount2.
      now rewrite <- !app_assoc.
    + destruct (IH s2 r s' H)
        as [(-> & before & Ht) | (-> & before & cycle & Ht & Hq & Hlast)].
      * left. split; [reflexivity|].
        exists (added1 ++ wait_events e ++ before).
        rewrite Ht, Ht2, Hcount2. now rewrite <- !app_assoc.
      * right. split; [reflexivity|].
        exists (added1 ++ wait_events e ++ before), cycle.
        split; [rewrite Ht, Ht2; now rewrite <- !app_assoc|].
        split; [exact Hq|]. right.
        destruct Hlast as [-> | (b & w & -> & Hw)].
        -- destruct (wait_events_last e) as (b & w & -> & Hw).
           exists (added1 ++ b), w. rewrite app_nil_r.
           split; [now rewrite <- app_assoc | exact Hw].
        -- exists (added1 ++ wait_events e ++ b), w.
           split; [now rewrite <- !app_assoc | exact Hw].
Qed.

Lemma table_loop_end_witness :
  let r := run_monitoring_loop (sample_env 1)
             [sample_cycle 1 0 0 0; sample_stop]
             (ready_state (sample_env 1) Context_zero) in
  (0 = 0
   /\ exists before,
       trace (snd r)
       = trace (ready_state (sample_env 1) Context_zero) ++ before
         ++ table_exit_events
              (device_count (ctx (ready_state (sample_env 1) Context_zero))))
  \/ (0 = -1
      /\ exists before cycle,
          trace (snd r)
          = trace (ready_state (sample_env 1) Context_zero) ++ before ++ cycle
          /\ all_events (fun ev => negb (is_stdout ev)) cycle
          /\ (before = []
              \/ exists b w, before = b ++ [w] /\ is_input_event w = true)).
Proof.
  intros r.
  apply (table_loop_end (sample_env 1) [sample_cycle 1 0 0 0; sample_stop]
           (ready_state (sample_env 1) Context_zero) 0 (snd r)).
  vm_compute. reflexivity.
Defined.

(** * The single cycle of [--once] *)





Section OnceLoops.

Variable env : Env.
Variable e : CycleEnv.








End OnceLoops.







(** Every record of answers has its number of devices sampled before the
    first failure. *)
Lemma sampled_prefix (f : nat -> Z) (n : nat) :
  exists k, (k <= n)%nat
            /\ (forall i, (i < k)%nat -> f i = 0)
            /\ ((k < n)%nat -> f k <> 0).
Proof.
  induction n as [|n (k & Hk & Hok & Hfail)].
  - exists 0%nat. repeat split; intros; lia.
  - destruct (Nat.eq_dec k n) as [-> | Hne].
    + destruct (Z.eq_dec (f n) 0) as [H0 | H0].
      * exists (S n). split; [lia|]. split; [|lia].
        intros i Hi. destruct (Nat.eq_dec i n) as [-> | Hin];
          [exact H0 | apply Hok; lia].
      * exists n. split; [lia|]. split; [exact Hok | intros _; exact H0].
    + exists k. split; [lia|]. split; [exact Hok|].
      intros _. apply Hfail. lia.
Qed.
